(** * GENOMOS: genotype classification from melting temperatures

    A shallow embedding of [genomos.py].  The script parses reference Tm
    values given on the command line, loads a table of measured Tm values,
    assigns to every sample and locus the state whose reference Tm is nearest,
    composes a genotype string when several loci are analysed, and writes a
    table and an optional frequency summary.

    Conventions of the embedding:
    - Python [str] is [string], one [ascii] per code point below 256;
    - Tm values are binary64 floats ([PrimFloat.float]), as pandas and numpy
      hold them; a missing measurement is a NaN, which is what
      [pd.to_numeric(errors='coerce')] produces and [pd.isna] tests;
    - a Python [dict] is an insertion-ordered association list ([dict]);
    - the DataFrame is a list of rows, each row a [dict] from column name to
      cell, so that columns written under the same name alias each other
      exactly as they do in the script;
    - exceptions are values of [error], threaded by a small error monad;
      file-system effects are recorded as a trace of events ([IO]);
    - the percentages of the summary are evaluated in binary64 and written
      with two decimals, as [f"{x:.2f}%"] writes them; the exact quotients
      ([Q]) appear only in statements, next to them;
    - the environment says which paths hold a sheet and which can be
      written: [to_excel] and [open] fail on a path that cannot;
    - [DataFrame.apply] is taken row by row, as on a table with at least one
      sample; what pandas returns from it on a table with no row is not
      modelled.  A column of states is an object column: its cells are the
      strings and the [None] the function returned. *)

From Stdlib Require Import List String Ascii ZArith NArith Lia Bool.
From Stdlib Require Import Floats Uint63 QArith Qfield DecimalString DecimalNat.
Import ListNotations.
Close Scope Q_scope.
Open Scope list_scope.
Open Scope string_scope.

Set Implicit Arguments.
Set Warnings "-inexact-float".

(** ** Exceptions and the error monad *)

Inductive error : Type :=
| ErrorCantidad (num_mutaciones : Z) (n_tm : nat)
    (* ValueError: -n differs from the number of -t *)
| ArchivoNoEncontrado (file : string)
    (* FileNotFoundError *)
| ErrorFormato (tm_entry : string) (e : error)
    (* ValueError raised by [except Exception as e] around the parser *)
| ColumnaFaltante (col_name : string)
    (* ValueError: no column Tm_<pos> *)
| EstadoNoReconocido (estado : string)
    (* [raise ValueError(f"Estado '{estado}' no reconocido.")] *)
| DesempaquetadoFallido (n : nat)
    (* ValueError of [a, b = xs] when [len(xs) = n] is not 2 *)
| ValorNoNumerico (valor : string)
    (* ValueError of [float(valor)] *)
| SecuenciaVacia
    (* ValueError of [min] on an empty iterable *)
| ErrorDeEscritura (path : string)
    (* OSError of [to_excel] or [open(path, 'w')] *)
| KeyError (clave : string)
| IndexError
| TypeError
| ZeroDivisionError.

Inductive result (A : Type) : Type :=
| Ok (a : A)
| Err (e : error).
Arguments Ok {A} a.
Arguments Err {A} e.

Definition bind {A B} (m : result A) (f : A -> result B) : result B :=
  match m with
  | Ok a => f a
  | Err e => Err e
  end.

Notation "x <- m ;; k" := (bind m (fun x => k))
  (at level 61, m at next level, right associativity).
Notation "' p <- m ;; k" := (bind m (fun x => match x with p => k end))
  (at level 61, p pattern, m at next level, right associativity).

(** [for x in xs: acc = f(acc, x)], aborting at the first exception. *)
Fixpoint foldM {A B} (f : A -> B -> result A) (xs : list B) (acc : A)
  : result A :=
  match xs with
  | [] => Ok acc
  | x :: xs' => acc' <- f acc x ;; foldM f xs' acc'
  end.

Fixpoint mapM {A B} (f : A -> result B) (xs : list A) : result (list B) :=
  match xs with
  | [] => Ok []
  | x :: xs' => y <- f x ;; ys <- mapM f xs' ;; Ok (y :: ys)
  end.

(** ** Insertion-ordered dictionaries

    [dict_set] is [d[k] = v]: an existing key keeps its place and takes the
    new value, a new key goes to the end.  Iteration follows the list. *)

Definition dict (V : Type) : Type := list (string * V).

Fixpoint dict_get {V} (k : string) (d : dict V) : option V :=
  match d with
  | [] => None
  | (k', v) :: d' => if (k' =? k)%string then Some v else dict_get k d'
  end.

Fixpoint dict_set {V} (k : string) (v : V) (d : dict V) : dict V :=
  match d with
  | [] => [(k, v)]
  | (k', v') :: d' =>
      if (k' =? k)%string then (k, v) :: d' else (k', v') :: dict_set k v d'
  end.

Definition keys {V} (d : dict V) : list string := map fst d.

Definition dict_in {V} (k : string) (d : dict V) : bool :=
  match dict_get k d with Some _ => true | None => false end.

(** ** Python string operations *)

(** [s.split(sep)] for a one-character separator. *)
Fixpoint split (sep : ascii) (s : string) : list string :=
  match s with
  | EmptyString => [EmptyString]
  | String c s' =>
      if (c =? sep)%char then EmptyString :: split sep s'
      else match split sep s' with
           | h :: t => String c h :: t
           | [] => [String c EmptyString]
           end
  end.

(** [s.split(sep, 1)]: split at the first separator only. *)
Fixpoint split1 (sep : ascii) (s : string) : list string :=
  match s with
  | EmptyString => [EmptyString]
  | String c s' =>
      if (c =? sep)%char then [EmptyString; s']
      else match split1 sep s' with
           | h :: t => String c h :: t
           | [] => [String c EmptyString]
           end
  end.

(** [a, b = xs]. *)
Definition desempaquetar2 (xs : list string) : result (string * string) :=
  match xs with
  | [a; b] => Ok (a, b)
  | _ => Err (DesempaquetadoFallido (List.length xs))
  end.

(** [str.isspace] on code points below 256. *)
Definition isspace (c : ascii) : bool :=
  let n := N_of_ascii c in
  ((9 <=? n) && (n <=? 13) || (28 <=? n) && (n <=? 32)
   || (n =? 133) || (n =? 160))%N.

Fixpoint lstrip (s : string) : string :=
  match s with
  | EmptyString => EmptyString
  | String c s' => if isspace c then lstrip s' else s
  end.

Fixpoint rstrip (s : string) : string :=
  match s with
  | EmptyString => EmptyString
  | String c s' =>
      match rstrip s' with
      | EmptyString => if isspace c then EmptyString else String c EmptyString
      | r => String c r
      end
  end.

(** [s.strip()]. *)
Definition strip (s : string) : string := rstrip (lstrip s).

(** [str.lower] on one code point below 256: A-Z, and the Latin-1 capitals
    but the multiplication sign, move 32 places up. *)
Definition lower_char (c : ascii) : ascii :=
  let n := N_of_ascii c in
  if ((65 <=? n) && (n <=? 90)
      || (192 <=? n) && (n <=? 222) && negb (n =? 215))%N
  then ascii_of_N (n + 32) else c.

Fixpoint lower (s : string) : string :=
  match s with
  | EmptyString => EmptyString
  | String c s' => String (lower_char c) (lower s')
  end.

(** [s.startswith(p)]. *)
Definition startswith (s p : string) : bool := String.prefix p s.

(** [str(n)] for a natural number. *)
Definition str_nat (n : nat) : string := NilEmpty.string_of_uint (Nat.to_uint n).

(** [s.count(sub)]: occurrences of a non-empty [sub] in [s], scanning from
    the left and resuming after each occurrence found.  [skip] is the number
    of characters still covered by the last occurrence. *)
Fixpoint count_desde (sub s : string) (skip : nat) : nat :=
  match s with
  | EmptyString => 0
  | String _ s' =>
      match skip with
      | S k => count_desde sub s' k
      | O => if String.prefix sub s
             then S (count_desde sub s' (String.length sub - 1))
             else count_desde sub s' 0
      end
  end.

Definition count (s sub : string) : nat := count_desde sub s 0.

(** ** Floats *)

Definition isnan (f : float) : bool := PrimFloat.is_nan f.

(** [|a - b|] as numpy computes it on float64. *)
Definition abs_diff (a b : float) : float := PrimFloat.abs (a - b)%float.

Definition float_of_Z (z : Z) : float := PrimFloat.of_uint63 (Uint63.of_Z z).

(** A reading of plain decimal literals, [digits] or [digits.digits] with an
    optional sign, as Python's [float] reads them.  With a mantissa below
    2^53 and at most 22 fractional digits both the mantissa and the power of
    ten are exact floats, so their quotient is the correctly rounded value.
    Anything else is left unread ([None]); it serves as the instance of the
    float reader in the worked examples. *)
Definition leer_digitos (s : string) : option Z :=
  match s with
  | EmptyString => None
  | _ => option_map Z.of_uint (NilEmpty.uint_of_string s)
  end.

Definition float_decimal_sin_signo (s : string) : option float :=
  match split1 "." s with
  | [ent] =>
      match leer_digitos ent with
      | Some m => if (m <? 2 ^ 53)%Z then Some (float_of_Z m) else None
      | None => None
      end
  | [ent; frac] =>
      match leer_digitos (ent ++ frac) with
      | Some m =>
          let k := String.length frac in
          if ((m <? 2 ^ 53)%Z && (k <=? 22)%nat && negb (ent =? "")
              && negb (frac =? ""))%bool
          then Some (float_of_Z m / float_of_Z (10 ^ Z.of_nat k))%float
          else None
      | None => None
      end
  | _ => None
  end.

Definition float_decimal (s : string) : option float :=
  match s with
  | String "-" s' => option_map PrimFloat.opp (float_decimal_sin_signo s')
  | String "+" s' => float_decimal_sin_signo s'
  | _ => float_decimal_sin_signo s
  end.

Definition str_Z (z : Z) : string := NilZero.string_of_int (Z.to_int z).

(** The text of the exceptions the script raises itself; the texts of the
    exceptions raised by the interpreter ([float], unpacking, ...) are not
    part of the script and are left out ([None]). *)
Fixpoint mensaje (e : error) : option string :=
  match e with
  | ErrorCantidad n k =>
      Some ("Error: -n=" ++ str_Z n ++ " pero se definieron " ++ str_nat k
            ++ " mutaciones con -t.")
  | ArchivoNoEncontrado file => Some ("Archivo '" ++ file ++ "' no encontrado.")
  | ErrorFormato tm_entry e' =>
      option_map (fun m => "Error en formato de -t '" ++ tm_entry ++ "': " ++ m)
                 (mensaje e')
  | ColumnaFaltante col_name =>
      Some ("No se encontr" ++ String (ascii_of_nat 243) " la columna '"
            ++ col_name ++ "' en el archivo.")
  | EstadoNoReconocido estado => Some ("Estado '" ++ estado ++ "' no reconocido.")
  | _ => None
  end.

(** ** Cells, rows and tables *)

(** What a cell of the DataFrame can hold in this script: a float64 (NaN
    for a missing number), [None], or a string. *)
Inductive value : Type :=
| VFloat (f : float)
| VNone
| VStr (s : string).

Definition fila : Type := dict value.
Definition DataFrame : Type := list fila.

(** The sheet [pd.read_excel] loads: a header and the records under it. *)
Record Hoja : Type := {
  encabezado : list string;
  registros : list (list value)
}.

(** A record laid under the header; a cell the record lacks is empty, and
    pandas reads an empty cell as NaN. *)
Fixpoint armar_fila (cols : list string) (reg : list value) : fila :=
  match cols with
  | [] => []
  | c :: cols' => (c, hd (VFloat nan) reg) :: armar_fila cols' (tl reg)
  end.

Definition read_excel (h : Hoja) : DataFrame :=
  map (armar_fila (encabezado h)) (registros h).

(** [row[col]]. *)
Definition fila_get (col : string) (row : fila) : result value :=
  match dict_get col row with
  | Some v => Ok v
  | None => Err (KeyError col)
  end.

(** [df[col] = f(row) for every row]: the elementwise column assignments and
    the [df.apply(..., axis=1)] assignments of the script. *)
Definition paso (col : string) (f : fila -> result value) (row : fila)
  : result fila :=
  v <- f row ;; Ok (dict_set col v row).

Definition asignar (col : string) (f : fila -> result value) (df : DataFrame)
  : result DataFrame :=
  mapM (paso col f) df.

(** [df[cols]]. *)
Definition seleccionar_fila (cols : list string) (row : fila) : result fila :=
  mapM (fun c => v <- fila_get c row ;; Ok (c, v)) cols.

Definition seleccionar (cols : list string) (df : DataFrame) : result DataFrame :=
  mapM (seleccionar_fila cols) df.

(** [df[col]] as the list of its cells. *)
Definition columna (col : string) (df : DataFrame) : result (list value) :=
  mapM (fila_get col) df.

(** [pd.isna]. *)
Definition isna (v : value) : bool :=
  match v with
  | VFloat f => isnan f
  | VNone => true
  | VStr _ => false
  end.

Definition as_float (v : value) : result float :=
  match v with
  | VFloat f => Ok f
  | _ => Err TypeError
  end.

Definition as_str (v : value) : result string :=
  match v with
  | VStr s => Ok s
  | _ => Err TypeError
  end.

(** [a < b] between cells: floats compare as IEEE 754 says, strings by code
    points, anything else raises. *)
Definition py_lt (a b : value) : result bool :=
  match a, b with
  | VFloat x, VFloat y => Ok (x <? y)%float
  | VStr x, VStr y => Ok (String.ltb x y)
  | _, _ => Err TypeError
  end.

(** [v == s] for a string [s]. *)
Definition eq_str (v : value) (s : string) : bool :=
  match v with
  | VStr s' => (s' =? s)%string
  | _ => false
  end.

(** [min(diffs, key=diffs.get)]: the first key is the candidate, and a later
    key replaces it when its value is strictly smaller. *)
Fixpoint min_desde (best : string * value) (rest : dict value) : result string :=
  match rest with
  | [] => Ok (fst best)
  | item :: rest' =>
      menor <- py_lt (snd item) (snd best) ;;
      min_desde (if menor : bool then item else best) rest'
  end.

Definition min_por_valor (diffs : dict value) : result string :=
  match diffs with
  | [] => Err SecuenciaVacia
  | item :: rest => min_desde item rest
  end.

Definition NO_DETERMINADO : string := "No se pudo determinar".

Definition columna_tm (pos : string) : string := "Tm_" ++ pos.
Definition columna_diff (pos estado : string) : string := pos ++ "_" ++ estado.
Definition columna_estado (pos : string) : string := "Estado_" ++ pos.
Definition GENOTIPO_RESULTANTE : string := "Genotipo_Resultante".
Arguments columna_tm : simpl never.
Arguments columna_diff : simpl never.
Arguments columna_estado : simpl never.

(** [Counter(xs)]. *)
Definition contador (k : string) (c : dict nat) : nat :=
  match dict_get k c with Some n => n | None => 0 end.

Definition Counter (xs : list string) : dict nat :=
  fold_left (fun c x => dict_set x (S (contador x c)) c) xs [].

(** A count as a float; counts are far below 2^53, where the conversion
    is exact. *)
Definition float_of_nat (n : nat) : float := float_of_Z (Z.of_nat n).

(** [(c / total) * 100] in binary64: the true division of two integers
    rounds their quotient, the product rounds again. *)
Definition porcentaje_binario (c total : nat) : float :=
  (float_of_nat c / float_of_nat total * 100)%float.

(** [c / total * 100]; true division raises on a zero divisor. *)
Definition porcentaje (c total : nat) : result float :=
  match total with
  | O => Err ZeroDivisionError
  | _ => Ok (porcentaje_binario c total)
  end.

(** The hundredths [f"{x:.2f}"] shows for the positive float m * 2^e: its
    exact value times 100, rounded to the nearest integer, a tie to the
    even one. *)
Definition centesimas (m : positive) (e : Z) : Z :=
  if (0 <=? e)%Z then Z.pos m * 2 ^ e * 100
  else
    let num := (Z.pos m * 100)%Z in
    let den := (2 ^ (- e))%Z in
    let q := (num / den)%Z in
    let r := (num mod den)%Z in
    match (2 * r ?= den)%Z with
    | Lt => q
    | Gt => (q + 1)%Z
    | Eq => if Z.even q then q else (q + 1)%Z
    end.

Definition dos_digitos (n : Z) : string :=
  (if (n <? 10)%Z then "0" else "") ++ str_Z n.

(** [f"{x:.2f}"]. *)
Definition formato_2f (x : float) : string :=
  match Prim2SF x with
  | S754_nan => "nan"
  | S754_infinity s => if s then "-inf" else "inf"
  | S754_zero s => if s then "-0.00" else "0.00"
  | S754_finite s m e =>
      let n := centesimas m e in
      (if s then "-" else "") ++ str_Z (n / 100) ++ "." ++ dos_digitos (n mod 100)
  end.

(** The last field of a line of the summary: [f"{x:.2f}%"]. *)
Definition campo_porcentaje (x : float) : string := formato_2f x ++ "%".

(** The content of the summary file, one triple per line written: the
    label, the count and the percentage as it is written. *)
Inductive Resumen : Type :=
| ResumenGenotipos (genotipos alelos : list (string * nat * string))
| ResumenEstados (pos : string) (estados : list (string * nat * string)).

Inductive evento : Type :=
| EvExists (file : string)
| EvReadExcel (file : string)
| EvToExcel (output : string) (tabla : DataFrame)
| EvPrint (msg : string)
| EvOpen (txt : string)
| EvWrite (txt : string) (r : Resumen).

Record Args : Type := {
  num_mutaciones : Z;
  file : string;
  tm : list string;
  output : string;
  txt : option string
}.

(** What writing to a path comes to: the file is written, it cannot be
    opened, or it opens and a write to it fails. *)
Inductive escritura : Type :=
| Escribe
| FallaAlAbrir
| FallaAlEscribir.

(** The environment of a run: the sheet a path holds, if the path exists,
    and what writing to a path comes to. *)
Record Entorno : Type := {
  leer :> string -> option Hoja;
  escribir : string -> escritura
}.

(** ** The script *)

Section Genomos.

(** Python's [float] on a string ([None] when it raises) and the reading
    [pd.to_numeric] gives a text cell ([None] when it is not a number): both
    belong to the interpreter and to pandas, and the script is modelled for
    any such pair. *)
Variable py_float : string -> option float.
Variable to_numeric_texto : string -> option float.

Definition float_ (valor : string) : result float :=
  match py_float valor with
  | Some f => Ok f
  | None => Err (ValorNoNumerico valor)
  end.

(** *** Reference Tm values *)

(** The [if]/[elif] chain that normalises a state name. *)
Definition normalizar_estado (estado : string) : result string :=
  if startswith (lower estado) "s" then Ok "Sensible"
  else if startswith (lower estado) "h" then Ok "Heterocigoto"
  else if startswith (lower estado) "r" then Ok "Resistente"
  else Err (EstadoNoReconocido estado).

(** One turn of [for est in estados]. *)
Definition procesar_estado (tm_dict : dict float) (est : string)
  : result (dict float) :=
  '(estado, valor) <- desempaquetar2 (split ":" est) ;;
  let estado := strip estado in
  valor <- float_ valor ;;
  estado_clave <- normalizar_estado estado ;;
  Ok (dict_set estado_clave valor tm_dict).

(** The body of the [try]: [posiciones[pos]] is bound to a fresh dictionary
    which the inner loop fills. *)
Definition procesar_tm_entry_try (posiciones : dict (dict float))
  (tm_entry : string) : result (dict (dict float)) :=
  '(pos, estados_str) <- desempaquetar2 (split1 ":" tm_entry) ;;
  tm_dict <- foldM procesar_estado (split "," estados_str) [] ;;
  Ok (dict_set pos tm_dict posiciones).

(** One turn of [for tm_entry in args.tm], with its [except]. *)
Definition procesar_tm_entry (posiciones : dict (dict float))
  (tm_entry : string) : result (dict (dict float)) :=
  match procesar_tm_entry_try posiciones tm_entry with
  | Ok posiciones' => Ok posiciones'
  | Err e => Err (ErrorFormato tm_entry e)
  end.

Definition procesar_tm (tm : list string) : result (dict (dict float)) :=
  foldM procesar_tm_entry tm [].

(** *** Required columns *)

(** [pd.to_numeric(..., errors='coerce')] on one cell. *)
Definition to_numeric (v : value) : float :=
  match v with
  | VFloat f => f
  | VNone => nan
  | VStr s => match to_numeric_texto s with Some f => f | None => nan end
  end.

Definition a_numerico (col_name : string) (row : fila) : result value :=
  v <- fila_get col_name row ;; Ok (VFloat (to_numeric v)).

Definition verificar_columna (columns : list string)
  (st : DataFrame * list string) (pos : string)
  : result (DataFrame * list string) :=
  let '(df, columnas_usadas) := st in
  let col_name := columna_tm pos in
  if negb (existsb (String.eqb col_name) columns)
  then Err (ColumnaFaltante col_name)
  else
    df' <- asignar col_name (a_numerico col_name) df ;;
    Ok (df', (columnas_usadas ++ [col_name])%list).

Definition verificar_columnas (columns : list string)
  (posiciones : dict (dict float)) (df : DataFrame)
  : result (DataFrame * list string) :=
  foldM (verificar_columna columns) (keys posiciones) (df, []).

(** *** Absolute differences to the reference Tm *)

(** [(df[f'Tm_{pos}'] - tm_val).abs()] at one row. *)
Definition diferencia_absoluta (pos : string) (tm_val : float) (row : fila)
  : result value :=
  v <- fila_get (columna_tm pos) row ;;
  t <- as_float v ;;
  Ok (VFloat (abs_diff t tm_val)).

(** [df[f'{pos}_{estado}'] = (df[f'Tm_{pos}'] - tm_val).abs()]. *)
Definition diferencia (pos : string) (df : DataFrame) (item : string * float)
  : result DataFrame :=
  let '(estado, tm_val) := item in
  asignar (columna_diff pos estado) (diferencia_absoluta pos tm_val) df.

Definition diferencias_posicion (df : DataFrame) (item : string * dict float)
  : result DataFrame :=
  let '(pos, tm_dict) := item in foldM (diferencia pos) tm_dict df.

Definition calcular_diferencias (posiciones : dict (dict float))
  (df : DataFrame) : result DataFrame :=
  foldM diferencias_posicion posiciones df.

(** *** Nearest state *)

Definition genotipo_por_posicion (posiciones : dict (dict float))
  (row : fila) (pos : string) : result value :=
  t <- fila_get (columna_tm pos) row ;;
  if isna t then Ok VNone
  else
    tm_dict <- match dict_get pos posiciones with
               | Some d => Ok d
               | None => Err (KeyError pos)
               end ;;
    diffs <- mapM (fun estado =>
                     v <- fila_get (columna_diff pos estado) row ;;
                     Ok (estado, v))
                  (keys tm_dict) ;;
    estado <- min_por_valor diffs ;;
    Ok (VStr estado).

Definition asignar_estados (posiciones : dict (dict float)) (df : DataFrame)
  : result DataFrame :=
  foldM (fun df pos =>
           asignar (columna_estado pos)
                   (fun row => genotipo_por_posicion posiciones row pos) df)
        (keys posiciones) df.

(** *** Resulting genotype *)

(** The loop of [genotipo_resultante_dinamico] from locus number [idx] on,
    [genotipo] holding the tokens appended so far. *)
Fixpoint genotipo_desde (row : fila) (idx : nat) (poss : list string)
  (genotipo : list string) : result string :=
  match poss with
  | [] => Ok (String.concat "" genotipo)
  | pos :: poss' =>
      estado <- fila_get (columna_estado pos) row ;;
      match estado with
      | VNone => Ok NO_DETERMINADO
      | _ =>
          let genotipo' :=
            if eq_str estado "Sensible" then (genotipo ++ ["S"])%list
            else if eq_str estado "Heterocigoto"
                 then (genotipo ++ [("H" ++ str_nat (idx + 1))%string])%list
            else if eq_str estado "Resistente"
                 then (genotipo ++ [("R" ++ str_nat (idx + 1))%string])%list
            else genotipo in
          genotipo_desde row (S idx) poss' genotipo'
      end
  end.

Definition genotipo_resultante_dinamico (posiciones : dict (dict float))
  (row : fila) : result string :=
  genotipo_desde row 0 (keys posiciones) [].

Definition genotipo_fila (posiciones : dict (dict float)) (row : fila)
  : result value :=
  g <- genotipo_resultante_dinamico posiciones row ;; Ok (VStr g).

(** *** Classification of a loaded table

    From the column check to the table written: the final DataFrame and
    [cols_resultado]. *)
Definition clasificar (posiciones : dict (dict float)) (h : Hoja)
  : result (DataFrame * list string) :=
  '(df, columnas_usadas) <-
     verificar_columnas (encabezado h) posiciones (read_excel h) ;;
  df <- seleccionar columnas_usadas df ;;
  df <- calcular_diferencias posiciones df ;;
  df <- asignar_estados posiciones df ;;
  let cols_resultado :=
    (map columna_tm (keys posiciones)
     ++ map columna_estado (keys posiciones))%list in
  if (1 <? List.length posiciones)%nat
  then
    df <- asignar GENOTIPO_RESULTANTE (genotipo_fila posiciones) df ;;
    Ok (df, (cols_resultado ++ [GENOTIPO_RESULTANTE])%list)
  else Ok (df, cols_resultado).

(** *** Summary *)

(** [alelos]: H<i> and R<i> for every locus, then the shared "S". *)
Definition alelos_posibles (n : nat) : list string :=
  (flat_map (fun idx => [("H" ++ str_nat (idx + 1))%string;
                         ("R" ++ str_nat (idx + 1))%string])
            (seq 0 n)
   ++ ["S"])%list.

(** [{a: 0 for a in alelos}]. *)
Definition recuento_inicial (alelos : list string) : dict nat :=
  fold_left (fun d a => dict_set a 0 d) alelos [].

(** The body of [for g in df['Genotipo_Resultante']]. *)
Definition recontar (alelos : list string) (recuento_alelos : dict nat)
  (g : string) : dict nat :=
  if negb (g =? NO_DETERMINADO)
  then fold_left
         (fun r a => dict_set a (contador a r + count g a) r)
         alelos recuento_alelos
  else recuento_alelos.

Definition recuento_de_alelos (alelos : list string) (genotipos : list string)
  : dict nat :=
  fold_left (recontar alelos) genotipos (recuento_inicial alelos).

Definition suma (xs : list nat) : nat := fold_left Nat.add xs 0.

(** The lines of a distribution: [for k, c in conteo.items()]. *)
Definition distribucion (conteo : dict nat) (total_muestras : nat)
  : result (list (string * nat * string)) :=
  mapM (fun '(k, c) =>
          p <- porcentaje c total_muestras ;; Ok (k, c, campo_porcentaje p))
       conteo.

(** The [0] of the guard is the integer, which [:.2f] writes as it writes
    the float zero. *)
Definition resumen_alelos (alelos : list string) (recuento_alelos : dict nat)
  : result (list (string * nat * string)) :=
  let total_ale := suma (map snd recuento_alelos) in
  mapM (fun a =>
          p <- (if (0 <? total_ale)%nat
                then porcentaje (contador a recuento_alelos) total_ale
                else Ok 0%float) ;;
          Ok (a, contador a recuento_alelos, campo_porcentaje p))
       alelos.

Definition resumen_multiple (posiciones : dict (dict float)) (df : DataFrame)
  : result Resumen :=
  let total_muestras := List.length df in
  col <- columna GENOTIPO_RESULTANTE df ;;
  genotipos <- mapM as_str col ;;
  let conteo_genotipos := Counter genotipos in
  let alelos := alelos_posibles (List.length posiciones) in
  let recuento_alelos := recuento_de_alelos alelos genotipos in
  dist <- distribucion conteo_genotipos total_muestras ;;
  ale <- resumen_alelos alelos recuento_alelos ;;
  Ok (ResumenGenotipos dist ale).

(** [Series.dropna]. *)
Definition dropna (xs : list value) : list value :=
  filter (fun v => negb (isna v)) xs.

Definition resumen_simple (posiciones : dict (dict float)) (df : DataFrame)
  : result Resumen :=
  match keys posiciones with
  | [] => Err IndexError
  | pos :: _ =>
      let total_muestras := List.length df in
      col <- columna (columna_estado pos) df ;;
      estados <- mapM as_str (dropna col) ;;
      let conteo_estados := Counter estados in
      dist <- distribucion conteo_estados total_muestras ;;
      Ok (ResumenEstados pos dist)
  end.

Definition resumen (posiciones : dict (dict float)) (df : DataFrame)
  : result Resumen :=
  if (1 <? List.length posiciones)%nat
  then resumen_multiple posiciones df
  else resumen_simple posiciones df.

(** *** main

    The run in an environment [fs]: the file-system and console events in
    the order they happen, and how the run ends.  [EvToExcel] and [EvWrite]
    stand for a file written whole. *)
Definition analizar (args : Args) (h : Hoja)
  : result (dict (dict float) * DataFrame * DataFrame) :=
  posiciones <- procesar_tm (tm args) ;;
  '(df, cols_resultado) <- clasificar posiciones h ;;
  resultados_df <- seleccionar cols_resultado df ;;
  Ok (posiciones, df, resultados_df).

Definition main (args : Args) (fs : Entorno) : list evento * result unit :=
  if negb (num_mutaciones args =? Z.of_nat (List.length (tm args)))%Z
  then ([], Err (ErrorCantidad (num_mutaciones args) (List.length (tm args))))
  else
    match fs (file args) with
    | None => ([EvExists (file args)], Err (ArchivoNoEncontrado (file args)))
    | Some h =>
        let leido := [EvExists (file args); EvReadExcel (file args)] in
        match analizar args h with
        | Err e => (leido, Err e)
        | Ok (posiciones, df, resultados_df) =>
            match escribir fs (output args) with
            | FallaAlAbrir | FallaAlEscribir =>
                (leido, Err (ErrorDeEscritura (output args)))
            | Escribe =>
                let guardado :=
                  (leido ++
                   [EvToExcel (output args) resultados_df;
                    EvPrint ("Resultados guardados en '" ++ output args ++ "'.")%string])%list in
                match txt args with
                | None | Some EmptyString => (guardado, Ok tt)
                | Some path =>
                    match escribir fs path with
                    | FallaAlAbrir => (guardado, Err (ErrorDeEscritura path))
                    | FallaAlEscribir =>
                        ((guardado ++ [EvOpen path])%list,
                         Err (ErrorDeEscritura path))
                    | Escribe =>
                        match resumen posiciones df with
                        | Err e => ((guardado ++ [EvOpen path])%list, Err e)
                        | Ok r =>
                            ((guardado ++
                              [EvOpen path; EvWrite path r;
                               EvPrint
                                 ((if (1 <? List.length posiciones)%nat
                                   then "Distribuci" ++ String (ascii_of_nat 243)
                                          "n y resumen por alelo guardados en '"
                                   else "Distribuci" ++ String (ascii_of_nat 243)
                                          "n de estados guardada en '")
                                  ++ path ++ "'.")%string])%list,
                             Ok tt)
                        end
                    end
                end
            end
        end
    end.

End Genomos.

(** ** Notions used to state the properties *)

(** The position label of a [-t] argument: what stands before its first
    colon. *)
Definition etiqueta (tm_entry : string) : string := hd "" (split1 ":" tm_entry).

(** The distinct elements of a list in the order of their first
    appearance. *)
Definition paso_aparicion (acc : list string) (x : string) : list string :=
  if existsb (String.eqb x) acc then acc else (acc ++ [x])%list.

Definition primeras_apariciones (xs : list string) : list string :=
  fold_left paso_aparicion xs [].

(** The three state names the parser can produce. *)
Definition ESTADOS : list string := ["Sensible"; "Heterocigoto"; "Resistente"].

(** How many times [x] occurs in [xs]. *)
Definition veces (x : string) (xs : list string) : nat :=
  List.length (filter (String.eqb x) xs).

(** What every mapping built by the parser satisfies: distinct position
    labels, and for each a non-empty dictionary whose keys are distinct
    state names. *)
Definition bien_formado (posiciones : dict (dict float)) : Prop :=
  NoDup (keys posiciones)
  /\ forall pos tm_dict, In (pos, tm_dict) posiciones ->
       NoDup (keys tm_dict)
       /\ (forall k, In k (keys tm_dict) -> In k ESTADOS)
       /\ tm_dict <> [].

(** The normalisation rule in the words of the specification: the first
    letter of the token, whatever its case, decides the state. *)
Definition clave_por_inicial (estado : string) : option string :=
  match estado with
  | String c _ =>
      if ((c =? "s") || (c =? "S"))%char then Some "Sensible"
      else if ((c =? "h") || (c =? "H"))%char then Some "Heterocigoto"
      else if ((c =? "r") || (c =? "R"))%char then Some "Resistente"
      else None
  | EmptyString => None
  end.

(** [c / total * 100] as a rational number. *)
Definition porcentaje_exacto (c total : nat) : Q :=
  (inject_Z (Z.of_nat c) / inject_Z (Z.of_nat total) * 100)%Q.

Definition suma_Q (ps : list Q) : Q := fold_right Qplus 0%Q ps.

(** The lines written for the counts [conteo] out of [total]: the label,
    the count, and the percentage as line 207 and line 229 write it. *)
Definition lineas_de (total : nat) (conteo : dict nat)
  : list (string * nat * string) :=
  map (fun '(k, c) => (k, c, campo_porcentaje (porcentaje_binario c total)))
      conteo.

(** The exact quotients count / total * 100 of the lines written. *)
Definition porcentajes_exactos (total : nat)
  (lineas : list (string * nat * string)) : list Q :=
  map (fun l => porcentaje_exacto (snd (fst l)) total) lineas.

(** The samples of a state column that were given the state [estado], and
    those left undetermined. *)
Definition determinadas (estado : string) (col : list value) : nat :=
  List.length (filter (fun v => eq_str v estado) col).

Definition indeterminadas (col : list value) : nat :=
  List.length (filter isna col).

(** The occurrences of the token [a] in the genotype strings other than the
    undetermined one. *)
Definition ocurrencias (a : string) (genotipos : list string) : nat :=
  list_sum (map (fun g => count g a)
                (filter (fun g => negb (g =? NO_DETERMINADO)) genotipos)).

(** The four failures of validation and parsing. *)
Definition es_validacion (e : error) : bool :=
  match e with
  | ErrorCantidad _ _ | ArchivoNoEncontrado _ | ErrorFormato _ _
  | ColumnaFaltante _ => true
  | _ => false
  end.

(** The events that write: the table, and the summary file from the moment
    it is opened. *)
Definition es_salida (ev : evento) : bool :=
  match ev with
  | EvToExcel _ _ | EvOpen _ | EvWrite _ _ => true
  | _ => false
  end.

(** The cell of a row under a column (NaN where the row has none). *)
Definition celda (col : string) (row : fila) : value :=
  match dict_get col row with Some v => v | None => VFloat nan end.

(** The strings held by a column, in order. *)
Definition cadenas (col : list value) : list string :=
  flat_map (fun v => match v with VStr s => [s] | _ => [] end) col.

(** A state column holds [None] or a string in every cell. *)
Definition columna_de_estados (col : list value) : Prop :=
  forall v, In v col -> v = VNone \/ exists estado, v = VStr estado.

(** The occurrences of all the tokens of [alelos] together. *)
Definition total_ocurrencias (alelos genotipos : list string) : nat :=
  list_sum (map (fun a => ocurrencias a genotipos) alelos).

(** The per-allele lines as the specification words them. *)
Definition lineas_por_alelo (alelos genotipos : list string)
  : list (string * nat * string) :=
  let total := total_ocurrencias alelos genotipos in
  map (fun a =>
         (a, ocurrencias a genotipos,
          if (0 <? total)%nat
          then campo_porcentaje
                 (porcentaje_binario (ocurrencias a genotipos) total)
          else "0.00%"))
      alelos.

(** A dictionary of floats as the cells a row holds. *)
Definition flotantes (ds : dict float) : dict value :=
  map (fun '(e, d) => (e, VFloat d)) ds.

(** *** The script, row by row

    Every statement of the script on the DataFrame acts on each row by
    itself.  These are the statements as they act on one row; the lemma
    [clasificar_filas] relates them to the script. *)

Definition paso_numerico (to_numeric_texto : string -> option float)
  (pos : string) : fila -> result fila :=
  paso (columna_tm pos) (a_numerico to_numeric_texto (columna_tm pos)).

Definition fila_numerica (to_numeric_texto : string -> option float)
  (poss : list string) (row : fila) : result fila :=
  foldM (fun row pos => paso_numerico to_numeric_texto pos row) poss row.

(** The reference values in the order the script visits them. *)
Definition referencias (posiciones : dict (dict float))
  : list (string * (string * float)) :=
  flat_map (fun '(pos, tm_dict) => map (pair pos) tm_dict) posiciones.

Definition paso_diferencia (x : string * (string * float))
  : fila -> result fila :=
  paso (columna_diff (fst x) (fst (snd x)))
       (diferencia_absoluta (fst x) (snd (snd x))).

Definition fila_diferencias (posiciones : dict (dict float)) (row : fila)
  : result fila :=
  foldM (fun row x => paso_diferencia x row) (referencias posiciones) row.

Definition paso_estado (posiciones : dict (dict float)) (pos : string)
  : fila -> result fila :=
  paso (columna_estado pos)
       (fun row => genotipo_por_posicion posiciones row pos).

Definition fila_estados (posiciones : dict (dict float)) (poss : list string)
  (row : fila) : result fila :=
  foldM (fun row pos => paso_estado posiciones pos row) poss row.

Definition fila_genotipo (posiciones : dict (dict float)) (row : fila)
  : result fila :=
  if (1 <? List.length posiciones)%nat
  then paso GENOTIPO_RESULTANTE (genotipo_fila posiciones) row
  else Ok row.

Definition procesar_fila (to_numeric_texto : string -> option float)
  (posiciones : dict (dict float)) (row : fila) : result fila :=
  row <- fila_numerica to_numeric_texto (keys posiciones) row ;;
  row <- seleccionar_fila (map columna_tm (keys posiciones)) row ;;
  row <- fila_diferencias posiciones row ;;
  row <- fila_estados posiciones (keys posiciones) row ;;
  fila_genotipo posiciones row.

(** [cols_resultado]. *)
Definition cols_resultado (posiciones : dict (dict float)) : list string :=
  (map columna_tm (keys posiciones) ++ map columna_estado (keys posiciones)
   ++ (if (1 <? List.length posiciones)%nat then [GENOTIPO_RESULTANTE] else []))%list.

(** Every row has a cell under every column of the header. *)
Definition tiene_columnas (columns : list string) (df : DataFrame) : Prop :=
  Forall (fun row => forall c, In c columns -> In c (keys row)) df.

(** The state [e] was supplied for the locus [pos]: some [-t] argument for
    [pos] holds a token whose first letter gives [e]. *)
Definition suministrado (tm : list string) (pos e : string) : Prop :=
  exists tm_entry estados_str est token valor,
    In tm_entry tm
    /\ split1 ":" tm_entry = [pos; estados_str]
    /\ In est (split "," estados_str)
    /\ split ":" est = [token; valor]
    /\ clave_por_inicial (strip token) = Some e.

(** What the cell of a state column can hold for the locus [pos]. *)
Definition estado_valido (posiciones : dict (dict float)) (pos : string)
  (v : value) : Prop :=
  v = VNone
  \/ exists e tm_dict,
      v = VStr e /\ dict_get pos posiciones = Some tm_dict
      /\ In e (keys tm_dict).

(** A [-t] argument the parser refuses. *)
Definition mal_formada (py_float : string -> option float) (tm_entry : string)
  : Prop :=
  exists e, procesar_tm_entry_try py_float [] tm_entry = Err e.

(** *** Worked inputs *)

(** An environment holding one sheet under the path "muestras.xlsx", where
    every path can be written. *)
Definition fs_con (h : Hoja) : Entorno :=
  {| leer := fun path =>
               if (path =? "muestras.xlsx")%string then Some h else None;
     escribir := fun _ => Escribe |}.

Definition args_con (n : Z) (tm : list string) (txt : option string) : Args :=
  {| num_mutaciones := n; file := "muestras.xlsx"; tm := tm;
     output := "resultados.xlsx"; txt := txt |}.

(** The two loci of the script's own help text, and four samples: one
    with both Tm measured, one with a text under Tm_1534, one with that cell
    empty, one short record. *)
Definition tm_ejemplo : list string :=
  ["1016:S:73.2,H:72.66,R:72.21"; "1534:S:81.71,H:81.81,R:82.36"].

Definition hoja_ejemplo : Hoja :=
  {| encabezado := ["Muestra"; "Tm_1016"; "Tm_1534"];
     registros :=
       [[VStr "a"; VFloat 73.19; VFloat 82.35];
        [VStr "b"; VFloat 72.70; VStr "sin dato"];
        [VStr "c"; VFloat 72.2; VFloat nan];
        [VStr "d"; VFloat 73.0]] |}.

Definition posiciones_ejemplo : dict (dict float) :=
  [("1016", [("Sensible", 73.2); ("Heterocigoto", 72.66);
             ("Resistente", 72.21)]%float);
   ("1534", [("Sensible", 81.71); ("Heterocigoto", 81.81);
             ("Resistente", 82.36)]%float)].

(** Two loci whose labels make the difference column of the first,
    "Tm" + "_" + "Sensible", the measured column of the second,
    "Tm_" + "Sensible". *)
Definition tm_homonimas : list string := ["Tm:S:1"; "Sensible:S:2,R:100"].

Definition hoja_homonimas (tm_Tm tm_Sensible : value) : Hoja :=
  {| encabezado := ["Tm_Tm"; "Tm_Sensible"];
     registros := [[tm_Tm; tm_Sensible]] |}.

Definition tm_homonimas_empate : list string := ["Tm:S:1"; "Sensible:S:40,R:60"].

(** *** Column names

    The script writes three families of columns into one DataFrame: the
    measured Tm of a locus, the difference to each reference value of a
    locus, and the state of a locus.  Nothing in the script keeps the
    families apart; [sin_homonimas] says that the position labels do. *)

Definition columna_de_referencia (x : string * (string * float)) : string :=
  columna_diff (fst x) (fst (snd x)).

Definition columnas (posiciones : dict (dict float)) : list string :=
  (map columna_tm (keys posiciones)
   ++ map columna_de_referencia (referencias posiciones)
   ++ map columna_estado (keys posiciones))%list.

Definition sin_homonimas (posiciones : dict (dict float)) : Prop :=
  NoDup (columnas posiciones).

Fixpoint sin_repetidos (xs : list string) : bool :=
  match xs with
  | [] => true
  | x :: xs' => negb (existsb (String.eqb x) xs') && sin_repetidos xs'
  end.

(** The measured Tm of a sample at a locus: the cell of its record under
    Tm_<pos>, made numeric. *)
Definition medido (to_numeric_texto : string -> option float) (row0 : fila)
  (pos : string) : float :=
  to_numeric to_numeric_texto (celda (columna_tm pos) row0).

(** The state [e], with reference value [ref], is the nearest to [t] among
    the reference values [tm_dict], and the first to be so: no reference
    value is strictly nearer, and none before it is as near. *)
Definition mas_cercano (t : float) (tm_dict : dict float) (e : string) : Prop :=
  exists pre ref post,
    tm_dict = (pre ++ (e, ref) :: post)%list
    /\ (forall e' ref', In (e', ref') tm_dict ->
          (abs_diff t ref' <? abs_diff t ref)%float = false)
    /\ (forall e' ref', In (e', ref') pre ->
          (abs_diff t ref' =? abs_diff t ref)%float = false).

(** *** The composed genotype in the words of the specification *)

(** The token of a state at the locus number [i], counted from 1. *)
Definition token (i : nat) (estado : string) : string :=
  if (estado =? "Sensible")%string then "S"
  else if (estado =? "Heterocigoto")%string then "H" ++ str_nat i
  else if (estado =? "Resistente")%string then "R" ++ str_nat i
  else "".

Fixpoint tokens_desde (idx : nat) (estados : list string) : list string :=
  match estados with
  | [] => []
  | e :: estados' => token (idx + 1) e :: tokens_desde (S idx) estados'
  end.

Definition es_None (v : value) : bool :=
  match v with VNone => true | _ => false end.

(** The genotype composed from the state cells of a sample, locus by locus
    in the order of configuration. *)
Definition componer (estados : list value) : string :=
  if existsb es_None estados then NO_DETERMINADO
  else String.concat "" (tokens_desde 0 (cadenas estados)).

(** A run on one locus with a sample whose Tm is a text, a run on the two
    loci of the example with such a sample, and one where no sample has both
    Tm measured. *)
Definition tm_un_locus : list string := ["1016:S:73.2,H:72.66,R:72.21"].

Definition hoja_un_locus : Hoja :=
  {| encabezado := ["Tm_1016"];
     registros := [[VFloat 73.19]; [VStr "sin dato"]; [VFloat 72.2];
                   [VFloat 73.0]] |}.

Definition hoja_dos_loci : Hoja :=
  {| encabezado := ["Tm_1016"; "Tm_1534"];
     registros := [[VFloat 73.19; VFloat 82.35];
                   [VFloat 72.70; VStr "sin dato"];
                   [VFloat 72.66; VFloat 81.81];
                   [VFloat 73.21; VFloat 82.4]] |}.

Definition hoja_indeterminada : Hoja :=
  {| encabezado := ["Tm_1016"; "Tm_1534"];
     registros := [[VFloat 73.19; VStr "sin dato"];
                   [VFloat nan; VFloat 82.35]] |}.

(** The tables those three runs write. *)
Definition tabla_un_locus : DataFrame :=
  [[("Tm_1016", VFloat 73.19); ("Estado_1016", VStr "Sensible")];
   [("Tm_1016", VFloat nan); ("Estado_1016", VNone)];
   [("Tm_1016", VFloat 72.2); ("Estado_1016", VStr "Resistente")];
   [("Tm_1016", VFloat 73.0); ("Estado_1016", VStr "Sensible")]].

Definition tabla_dos_loci : DataFrame :=
  [[("Tm_1016", VFloat 73.19); ("Tm_1534", VFloat 82.35);
    ("Estado_1016", VStr "Sensible"); ("Estado_1534", VStr "Resistente");
    ("Genotipo_Resultante", VStr "SR2")];
   [("Tm_1016", VFloat 72.70); ("Tm_1534", VFloat nan);
    ("Estado_1016", VStr "Heterocigoto"); ("Estado_1534", VNone);
    ("Genotipo_Resultante", VStr "No se pudo determinar")];
   [("Tm_1016", VFloat 72.66); ("Tm_1534", VFloat 81.81);
    ("Estado_1016", VStr "Heterocigoto"); ("Estado_1534", VStr "Heterocigoto");
    ("Genotipo_Resultante", VStr "H1H2")];
   [("Tm_1016", VFloat 73.21); ("Tm_1534", VFloat 82.4);
    ("Estado_1016", VStr "Sensible"); ("Estado_1534", VStr "Resistente");
    ("Genotipo_Resultante", VStr "SR2")]].

Definition tabla_indeterminada : DataFrame :=
  [[("Tm_1016", VFloat 73.19); ("Tm_1534", VFloat nan);
    ("Estado_1016", VStr "Sensible"); ("Estado_1534", VNone);
    ("Genotipo_Resultante", VStr "No se pudo determinar")];
   [("Tm_1016", VFloat nan); ("Tm_1534", VFloat 82.35);
    ("Estado_1016", VNone); ("Estado_1534", VStr "Resistente");
    ("Genotipo_Resultante", VStr "No se pudo determinar")]].

(** *** The per-allele counts in tokens *)

(** The state cells of a sample, locus by locus. *)
Definition estados_de (posiciones : dict (dict float)) (row : fila)
  : list value :=
  map (fun pos => celda (columna_estado pos) row) (keys posiciones).

(** The tokens of a sample: none when a state is undetermined. *)
Definition tokens_de_muestra (estados : list value) : list string :=
  if existsb es_None estados then [] else tokens_desde 0 (cadenas estados).

(** How many tokens of the samples are the token [a]. *)
Definition tokens_iguales (a : string) (muestras : list (list value)) : nat :=
  list_sum (map (fun estados => veces a (tokens_de_muestra estados)) muestras).

(** *** The events of a run *)

(** What a run has done once the table is written: the existence test, the
    reading, the table and the message that names it. *)
Definition eventos_de_tabla (args : Args) (resultados_df : DataFrame)
  : list evento :=
  [EvExists (file args); EvReadExcel (file args);
   EvToExcel (output args) resultados_df;
   EvPrint ("Resultados guardados en '" ++ output args ++ "'.")].

(** The samples of a table whose states are all determined. *)
Definition determinados (posiciones : dict (dict float)) (df : DataFrame)
  : DataFrame :=
  filter (fun row => negb (existsb es_None (estados_de posiciones row))) df.

(** *** Pairs and errors of the parser *)

(** The pair [est] of a [-t] argument names the state [e]. *)
Definition nombra (est e : string) : Prop :=
  exists token valor,
    split ":" est = [token; valor] /\ clave_por_inicial (strip token) = Some e.

(** The errors the body of the parser's [try] raises: an unpacking of other
    than two parts, a value that is no number, a state that is not
    recognised. *)
Definition error_de_parser (e : error) : Prop :=
  match e with
  | DesempaquetadoFallido n => n <> 2
  | ValorNoNumerico _ | EstadoNoReconocido _ => True
  | _ => False
  end.

(** The string [s] has no character [c]. *)
Fixpoint sin_caracter (c : ascii) (s : string) : bool :=
  match s with
  | EmptyString => true
  | String a s' => negb (a =? c)%char && sin_caracter c s'
  end.

(** Arguments that repeat a position label and a state; arguments of
    which the second cannot be read; the sheet of the two-locus run with its
    columns in another order, a column more and other texts where no Tm was
    measured. *)
Definition tm_repetidas : list string :=
  ["1016:S:1,H:2"; "1534:S:3"; "1016:s:5,S:6"].

Definition tm_ilegibles : list string :=
  ["1016:S:73.2"; "1534:S:81.71,X:1"; "9:"].

Definition hoja_reordenada : Hoja :=
  {| encabezado := ["Tm_1534"; "Pocillo"; "Tm_1016"];
     registros := [[VFloat 82.35; VStr "A1"; VFloat 73.19];
                   [VStr "n/d"; VStr "A2"; VFloat 72.70];
                   [VFloat 81.81; VStr "A3"; VFloat 72.66];
                   [VFloat 82.4; VStr "A4"; VFloat 73.21]] |}.

(** A position label that cannot make two columns of the table share a
    name: it has no underscore and is neither "Tm" nor "Estado". *)
Definition etiqueta_llana (pos : string) : Prop :=
  sin_caracter "_" pos = true /\ pos <> "Tm" /\ pos <> "Estado".

(** *** What a run has written *)

(** The summaries a run has written, in order. *)
Definition resumenes_escritos (traza : list evento) : list Resumen :=
  flat_map (fun ev => match ev with EvWrite _ r => [r] | _ => [] end) traza.

(** The number a percentage text such as "28.57%" stands for: its digits
    read as hundredths. *)
Definition digito (c : ascii) : option Z :=
  let n := Z.of_N (N_of_ascii c) in
  if ((48 <=? n) && (n <=? 57))%Z then Some (n - 48)%Z else None.

Fixpoint cifras (acc : Z) (s : string) : Z :=
  match s with
  | EmptyString => acc
  | String c s' =>
      match digito c with
      | Some d => cifras (10 * acc + d) s'
      | None => cifras acc s'
      end
  end.

Definition porcentaje_escrito (t : string) : Q :=
  (inject_Z (cifras 0 t) / 100)%Q.

(** *** More inputs *)

(** One locus and 6669 samples: 1905 at the reference of Sensible, 1905 at
    that of Heterocigoto, 2858 at that of Resistente, and one without a
    measure. *)
Definition hoja_redondeo : Hoja :=
  {| encabezado := ["Tm_1016"];
     registros :=
       (repeat [VFloat 73.2] 1905 ++ repeat [VFloat 72.66] 1905
        ++ repeat [VFloat 72.21] 2858 ++ [[VStr "sin dato"]])%list |}.

(** Ten loci with the same reference values, and one sample measured at
    the reference of Sensible at the first nine and at that of Heterocigoto
    at the tenth. *)
Definition etiquetas_diez : list string :=
  ["101"; "102"; "103"; "104"; "105"; "106"; "107"; "108"; "109"; "110"].

Definition tm_diez_loci : list string :=
  map (fun pos => (pos ++ ":S:70,H:60,R:50")%string) etiquetas_diez.

Definition hoja_diez_loci : Hoja :=
  {| encabezado := map columna_tm etiquetas_diez;
     registros := [(repeat (VFloat 70) 9 ++ [VFloat 60])%list] |}.

(** One locus given two states only. *)
Definition tm_dos_estados : list string := ["1016:S:73.2,R:72.21"].

(** An environment where the sheet is there and every path can be written
    but those under the directory "nodir", which does not exist. *)
Definition fs_sin_directorio (h : Hoja) : Entorno :=
  {| leer := fun path =>
               if (path =? "muestras.xlsx")%string then Some h else None;
     escribir := fun path =>
                   if prefix "nodir/" path then FallaAlAbrir else Escribe |}.

(** * Properties *)

Unset Implicit Arguments.

(** ** Error monad *)

Lemma bind_Ok {A B} (m : result A) (f : A -> result B) (b : B) :
  bind m f = Ok b -> exists a, m = Ok a /\ f a = Ok b.
Proof. destruct m as [a|e]; simpl; [eauto | discriminate]. Qed.

Lemma bind_Err {A B} (m : result A) (f : A -> result B) (e : error) :
  bind m f = Err e -> m = Err e \/ exists a, m = Ok a /\ f a = Err e.
Proof. destruct m as [a|e']; simpl; [eauto | intros [= ->]; auto]. Qed.

Ltac inv_bind H :=
  let a := fresh "a" in
  let Ha := fresh "Ha" in
  apply bind_Ok in H; destruct H as (a & Ha & H).

Lemma mapM_Forall2 {A B} (f : A -> result B) (xs : list A) (ys : list B) :
  mapM f xs = Ok ys <-> Forall2 (fun x y => f x = Ok y) xs ys.
Proof.
  revert ys; induction xs as [|x xs IH]; intros ys; simpl.
  - split; [intros [= <-]; constructor | intros H; inversion H; reflexivity].
  - split.
    + intros H. inv_bind H. inv_bind H. injection H as <-.
      constructor; [assumption | now apply IH].
    + intros H. inversion H as [|? y ? ys' Hy Hys]; subst.
      rewrite Hy; simpl. apply IH in Hys. rewrite Hys. reflexivity.
Qed.

Lemma mapM_length {A B} (f : A -> result B) (xs : list A) (ys : list B) :
  mapM f xs = Ok ys -> List.length ys = List.length xs.
Proof.
  intros H. apply mapM_Forall2 in H. symmetry. eapply Forall2_length; eauto.
Qed.

Lemma foldM_app {A B} (f : A -> B -> result A) (xs ys : list B) (a : A) :
  foldM f (xs ++ ys)%list a = (a' <- foldM f xs a ;; foldM f ys a').
Proof.
  revert a; induction xs as [|x xs IH]; intros a; simpl; [reflexivity|].
  destruct (f a x); simpl; auto.
Qed.

(** A loop of row-wise passes over the table is, row by row, the loop of
    the passes over that row. *)
Lemma foldM_mapM {A X} (g : X -> A -> result A) (xs : list X) (df df' : list A) :
  foldM (fun d x => mapM (g x) d) xs df = Ok df' <->
  Forall2 (fun r r' => foldM (fun r x => g x r) xs r = Ok r') df df'.
Proof.
  revert df df'; induction xs as [|x xs IH]; intros df df'; simpl.
  - split.
    + intros [= <-]. induction df; constructor; auto.
    + intros H. f_equal. induction H as [|? ? ? ? [= ->] ? IH']; [reflexivity|].
      now f_equal.
  - split.
    + intros H. inv_bind H. apply mapM_Forall2 in Ha. apply IH in H.
      clear IH. revert df' H; induction Ha as [|r r1 df df1 Hr _ IH'];
        intros df' H; inversion H; subst; constructor.
      * rewrite Hr. simpl. assumption.
      * now apply IH'.
    + intros H.
      assert (exists d1, mapM (g x) df = Ok d1 /\
                Forall2 (fun r r' => foldM (fun r x => g x r) xs r = Ok r') d1 df')
        as (d1 & H1 & H2).
      { clear IH. induction H as [|r r' df df' Hr _ IH'].
        - exists []. split; [reflexivity | constructor].
        - destruct IH' as (d1 & H1 & H2).
          destruct (g x r) as [r1|] eqn:E; simpl in Hr; [|discriminate].
          exists (r1 :: d1). split.
          + simpl. rewrite E; simpl. rewrite H1. reflexivity.
          + constructor; assumption. }
      rewrite H1. simpl. now apply IH.
Qed.

(** ** Dictionaries *)

Lemma dict_get_set_eq {V} (k : string) (v : V) (d : dict V) :
  dict_get k (dict_set k v d) = Some v.
Proof.
  induction d as [|[k' v'] d IH]; simpl.
  - now rewrite String.eqb_refl.
  - destruct (String.eqb_spec k' k) as [->|Hne]; simpl.
    + now rewrite String.eqb_refl.
    + destruct (String.eqb_spec k' k); [contradiction | assumption].
Qed.

Lemma dict_get_set_ne {V} (k k' : string) (v : V) (d : dict V) :
  k <> k' -> dict_get k (dict_set k' v d) = dict_get k d.
Proof.
  intros Hne. induction d as [|[k0 v0] d IH]; simpl.
  - destruct (String.eqb_spec k' k); [congruence | reflexivity].
  - destruct (String.eqb_spec k0 k') as [->|Hne']; simpl.
    + destruct (String.eqb_spec k' k); [congruence | reflexivity].
    + destruct (String.eqb_spec k0 k); [reflexivity | assumption].
Qed.

Lemma dict_get_In_keys {V} (k : string) (d : dict V) :
  In k (keys d) <-> exists v, dict_get k d = Some v.
Proof.
  induction d as [|[k0 v0] d IH]; simpl.
  - split; [tauto | intros [? [=]]].
  - destruct (String.eqb_spec k0 k) as [->|Hne].
    + split; eauto.
    + rewrite <- IH. tauto.
Qed.

Lemma dict_get_In {V} (k : string) (v : V) (d : dict V) :
  dict_get k d = Some v -> In (k, v) d.
Proof.
  induction d as [|[k0 v0] d IH]; simpl; [discriminate|].
  destruct (String.eqb_spec k0 k) as [->|Hne].
  - intros [= ->]. now left.
  - intros H. right. auto.
Qed.

Lemma In_dict_get {V} (k : string) (v : V) (d : dict V) :
  NoDup (keys d) -> In (k, v) d -> dict_get k d = Some v.
Proof.
  induction d as [|[k0 v0] d IH]; simpl; [tauto|].
  intros Hnd [H|H].
  - injection H as -> ->. now rewrite String.eqb_refl.
  - inversion Hnd as [|? ? Hnotin Hnd']; subst.
    destruct (String.eqb_spec k0 k) as [->|Hne].
    + exfalso. apply Hnotin. change (In (fst (k, v)) (map fst d)).
      now apply in_map.
    + auto.
Qed.

Lemma keys_dict_set {V} (k : string) (v : V) (d : dict V) :
  keys (dict_set k v d)
  = if existsb (String.eqb k) (keys d) then keys d else (keys d ++ [k])%list.
Proof.
  unfold keys. induction d as [|[k0 v0] d IH]; simpl; [reflexivity|].
  rewrite (String.eqb_sym k k0).
  destruct (String.eqb_spec k0 k) as [->|Hne]; simpl; [reflexivity|].
  rewrite IH.
  destruct (existsb (String.eqb k) (map fst d)); reflexivity.
Qed.

Lemma existsb_eqb_In (k : string) (xs : list string) :
  existsb (String.eqb k) xs = true <-> In k xs.
Proof.
  rewrite existsb_exists. split.
  - intros (x & Hx & E). apply String.eqb_eq in E. now subst.
  - intros H. exists k. split; [assumption | apply String.eqb_refl].
Qed.

Lemma NoDup_keys_dict_set {V} (k : string) (v : V) (d : dict V) :
  NoDup (keys d) -> NoDup (keys (dict_set k v d)).
Proof.
  intros Hnd. rewrite keys_dict_set.
  destruct (existsb (String.eqb k) (keys d)) eqn:E; [assumption|].
  apply NoDup_app; [assumption | repeat constructor; simpl; tauto |].
  intros x Hx [<-|[]].
  apply existsb_eqb_In in Hx. congruence.
Qed.

Lemma In_keys_dict_set {V} (k k' : string) (v : V) (d : dict V) :
  In k (keys (dict_set k' v d)) <-> k = k' \/ In k (keys d).
Proof.
  rewrite keys_dict_set.
  destruct (existsb (String.eqb k') (keys d)) eqn:E.
  - apply existsb_eqb_In in E. split; [tauto | intros [->|]; assumption].
  - rewrite in_app_iff. simpl. intuition congruence.
Qed.

(** ** First appearances *)

Lemma apariciones_desde (xs acc : list string) :
  NoDup acc ->
  NoDup (fold_left paso_aparicion xs acc)
  /\ List.length (fold_left paso_aparicion xs acc)
     <= List.length acc + List.length xs
  /\ (List.length (fold_left paso_aparicion xs acc)
      = List.length acc + List.length xs <-> NoDup (acc ++ xs)%list).
Proof.
  revert acc; induction xs as [|x xs IH]; intros acc Hnd; simpl.
  - rewrite app_nil_r. split; [assumption|]. split; [lia|]. split; auto.
  - unfold paso_aparicion at 2 4 6.
    destruct (existsb (String.eqb x) acc) eqn:E.
    + destruct (IH acc Hnd) as (H1 & H2 & H3).
      split; [assumption|]. split; [lia|]. split.
      * intros Hlen. lia.
      * intros Hnd'. exfalso. apply existsb_eqb_In in E.
        apply NoDup_remove_2 in Hnd'. apply Hnd'. apply in_or_app. now left.
    + assert (Hnd1 : NoDup (acc ++ [x])%list).
      { apply NoDup_app; [assumption | repeat constructor; simpl; tauto |].
        intros y Hy [<-|[]]. apply existsb_eqb_In in Hy. congruence. }
      destruct (IH _ Hnd1) as (H1 & H2 & H3).
      rewrite length_app in H2, H3. simpl in H2, H3.
      rewrite <- app_assoc in H3. simpl in H3.
      split; [assumption|]. split; [lia|]. split.
      * intros Hlen. apply H3. lia.
      * intros Hnd'. apply H3 in Hnd'. lia.
Qed.

Lemma primeras_apariciones_spec (xs : list string) :
  NoDup (primeras_apariciones xs)
  /\ List.length (primeras_apariciones xs) <= List.length xs
  /\ (List.length (primeras_apariciones xs) = List.length xs <-> NoDup xs).
Proof.
  destruct (apariciones_desde xs [] (NoDup_nil _)) as (H1 & H2 & H3).
  split; [exact H1|]. split; [exact H2 | exact H3].
Qed.

(** ** Order of binary64 floats

    [<] on floats is the order of IEEE 754, read off the specification of
    the primitive operations: it is transitive and irreflexive, and
    compatible with [==]; a NaN is below nothing and above nothing. *)

Ltac sf_cases :=
  repeat match goal with
         | |- context [Z.compare ?a ?b] =>
             destruct (Z.compare_spec a b); simpl;
             try lia; try discriminate; subst
         | |- context [PosDef.Pos.compare_cont Eq ?a ?b] =>
             change (PosDef.Pos.compare_cont Eq a b) with (Pos.compare a b);
             destruct (Pos.compare_spec a b); simpl;
             try lia; try discriminate; subst
         end.

Ltac sf_destruct x y z :=
  destruct x as [[]|[]| |[] ? ?], y as [[]|[]| |[] ? ?], z as [[]|[]| |[] ? ?];
  simpl; try discriminate; try reflexivity;
  sf_cases; try reflexivity; try discriminate; try lia.

Lemma SFltb_trans (x y z : spec_float) :
  SFltb x y = true -> SFltb y z = true -> SFltb x z = true.
Proof. unfold SFltb, SFcompare. sf_destruct x y z. Qed.

Lemma SFeqb_ltb (x y z : spec_float) :
  SFeqb x y = true -> SFltb y z = true -> SFltb x z = true.
Proof. unfold SFeqb, SFltb, SFcompare. sf_destruct x y z. Qed.

Lemma SFltb_irrefl (x : spec_float) : SFltb x x = false.
Proof.
  unfold SFltb, SFcompare. destruct x as [[]|[]| |[] m e]; simpl;
    try reflexivity; rewrite Z.compare_refl;
    change (PosDef.Pos.compare_cont Eq m m) with (Pos.compare m m);
    rewrite Pos.compare_refl; reflexivity.
Qed.

Lemma ltb_trans (a b c : float) :
  (a <? b)%float = true -> (b <? c)%float = true -> (a <? c)%float = true.
Proof. rewrite !FloatAxioms.ltb_spec. apply SFltb_trans. Qed.

Lemma eqb_ltb (a b c : float) :
  (a =? b)%float = true -> (b <? c)%float = true -> (a <? c)%float = true.
Proof.
  rewrite FloatAxioms.eqb_spec, !FloatAxioms.ltb_spec. apply SFeqb_ltb.
Qed.

Lemma ltb_irrefl (a : float) : (a <? a)%float = false.
Proof. rewrite FloatAxioms.ltb_spec. apply SFltb_irrefl. Qed.

(** ** The minimum search *)

Lemma min_desde_In (rest : dict value) (best : string * value) (k : string) :
  min_desde best rest = Ok k -> k = fst best \/ In k (keys rest).
Proof.
  revert best; induction rest as [|item rest IH]; intros best H; simpl in H.
  - injection H as <-. now left.
  - inv_bind H. apply IH in H. simpl. destruct a; simpl in H; intuition.
Qed.

Lemma min_por_valor_In (diffs : dict value) (k : string) :
  min_por_valor diffs = Ok k -> In k (keys diffs).
Proof.
  destruct diffs as [|item rest]; simpl; [discriminate|].
  intros H. apply min_desde_In in H. intuition.
Qed.

Lemma min_desde_flotantes (rest pre mid : dict float) (e : string) (d : float) :
  (forall e' d', In (e', d') (pre ++ (e, d) :: mid)%list ->
                 (d' <? d)%float = false) ->
  (forall e' d', In (e', d') pre -> (d' =? d)%float = false) ->
  exists pre' e0 d0 post,
    (pre ++ (e, d) :: mid ++ rest = pre' ++ (e0, d0) :: post)%list
    /\ min_desde (e, VFloat d) (flotantes rest) = Ok e0
    /\ (forall e' d', In (e', d') (pre' ++ (e0, d0) :: post)%list ->
                      (d' <? d0)%float = false)
    /\ (forall e' d', In (e', d') pre' -> (d' =? d0)%float = false).
Proof.
  revert pre mid e d; induction rest as [|[e1 d1] rest IH];
    intros pre mid e d Hlt Heq.
  - exists pre, e, d, mid. rewrite app_nil_r. simpl. auto.
  - simpl. destruct (d1 <? d)%float eqn:E.
    + destruct (IH (pre ++ (e, d) :: mid)%list [] e1 d1) as
        (pre' & e0 & d0 & post & H1 & H2 & H3 & H4).
      * intros e' d' Hin. apply in_app_or in Hin.
        destruct Hin as [Hin|[[= <- <-]|[]]]; [|apply ltb_irrefl].
        apply not_true_is_false. intros Hc.
        pose proof (ltb_trans _ _ _ Hc E) as Ht.
        rewrite (Hlt e' d' Hin) in Ht. discriminate.
      * intros e' d' Hin. apply not_true_is_false. intros Hc.
        pose proof (eqb_ltb _ _ _ Hc E) as Ht.
        rewrite (Hlt e' d' Hin) in Ht. discriminate.
      * exists pre', e0, d0, post. split; [|auto].
        rewrite <- H1. rewrite <- app_assoc. reflexivity.
    + destruct (IH pre (mid ++ [(e1, d1)])%list e d) as
        (pre' & e0 & d0 & post & H1 & H2 & H3 & H4).
      * intros e' d' Hin. rewrite app_comm_cons, app_assoc in Hin.
        apply in_app_or in Hin.
        destruct Hin as [Hin|[[= <- <-]|[]]]; [eapply Hlt; exact Hin | exact E].
      * assumption.
      * exists pre', e0, d0, post. split; [|auto].
        rewrite <- H1. rewrite <- app_assoc. reflexivity.
Qed.

(** [min] over float values returns the first key whose value no other
    value is strictly below. *)
Lemma min_por_valor_flotantes (ds : dict float) :
  ds <> [] ->
  exists pre e d post,
    ds = (pre ++ (e, d) :: post)%list
    /\ min_por_valor (flotantes ds) = Ok e
    /\ (forall e' d', In (e', d') ds -> (d' <? d)%float = false)
    /\ (forall e' d', In (e', d') pre -> (d' =? d)%float = false).
Proof.
  destruct ds as [|[e d] rest]; [congruence|]. intros _.
  destruct (min_desde_flotantes rest [] [] e d) as
    (pre & e0 & d0 & post & H1 & H2 & H3 & H4).
  - intros e' d' [[= <- <-]|[]]. apply ltb_irrefl.
  - intros e' d' [].
  - simpl in H1. exists pre, e0, d0, post.
    split; [exact H1|]. split; [exact H2|]. rewrite H1. split; assumption.
Qed.


(** ** The reference parser *)

Lemma normalizar_estado_ESTADOS (estado clave : string) :
  normalizar_estado estado = Ok clave -> In clave ESTADOS.
Proof.
  unfold normalizar_estado, ESTADOS.
  repeat match goal with
         | |- (if ?b then _ else _) = _ -> _ => destruct b
         end; intros [= <-]; simpl; auto.
Qed.

Lemma split_no_vacio (sep : ascii) (s : string) : split sep s <> [].
Proof.
  destruct s as [|c s]; simpl; [discriminate|].
  destruct (c =? sep)%char; [discriminate|].
  destruct (split sep s); discriminate.
Qed.

Lemma In_dict_set {V} (k k' : string) (v v' : V) (d : dict V) :
  In (k, v) (dict_set k' v' d) -> (k = k' /\ v = v') \/ In (k, v) d.
Proof.
  induction d as [|[k0 v0] d IH]; simpl.
  - intros [[= <- <-]|[]]. auto.
  - destruct (k0 =? k'); simpl.
    + intros [[= <- <-]|H]; auto.
    + intros [H|H]; auto. apply IH in H. tauto.
Qed.

(** *** Normalisation of state names *)

Lemma startswith_letra (c l : ascii) (s : string) :
  startswith (String c s) (String l EmptyString) = (c =? l)%char.
Proof.
  unfold startswith. simpl.
  destruct (ascii_dec l c) as [->|Hne].
  - rewrite Ascii.eqb_refl. now destruct s.
  - symmetry. apply Ascii.eqb_neq. congruence.
Qed.

Lemma lower_char_letra (c : ascii) :
  ((lower_char c =? "s") = ((c =? "s") || (c =? "S")))%char
  /\ ((lower_char c =? "h") = ((c =? "h") || (c =? "H")))%char
  /\ ((lower_char c =? "r") = ((c =? "r") || (c =? "R")))%char.
Proof.
  destruct c as [[] [] [] [] [] [] [] []]; vm_compute; auto.
Qed.

Lemma normalizar_estado_spec (estado : string) :
  normalizar_estado estado
  = match clave_por_inicial estado with
    | Some clave => Ok clave
    | None => Err (EstadoNoReconocido estado)
    end.
Proof.
  unfold normalizar_estado. destruct estado as [|c s]; [reflexivity|].
  simpl lower. rewrite !startswith_letra.
  destruct (lower_char_letra c) as (-> & -> & ->). simpl.
  destruct ((c =? "s") || (c =? "S"))%char; [reflexivity|].
  destruct ((c =? "h") || (c =? "H"))%char; [reflexivity|].
  destruct ((c =? "r") || (c =? "R"))%char; reflexivity.
Qed.

(** ** Counting *)

Lemma contador_dict_set (k x : string) (n : nat) (c : dict nat) :
  contador k (dict_set x n c) = if (k =? x)%string then n else contador k c.
Proof.
  unfold contador. destruct (String.eqb_spec k x) as [->|Hne].
  - now rewrite dict_get_set_eq.
  - now rewrite dict_get_set_ne.
Qed.

Lemma suma_desde (xs : list nat) (n : nat) :
  fold_left Nat.add xs n = n + list_sum xs.
Proof.
  revert n; induction xs as [|x xs IH]; intros n; simpl; [lia|].
  rewrite IH. lia.
Qed.

Lemma suma_list_sum (xs : list nat) : suma xs = list_sum xs.
Proof. unfold suma. now rewrite suma_desde. Qed.

Lemma list_sum_dict_set (x : string) (m : nat) (c : dict nat) :
  list_sum (map snd (dict_set x m c)) + contador x c = m + list_sum (map snd c).
Proof.
  unfold contador. induction c as [|[k n] c IH]; simpl; [lia|].
  destruct (String.eqb_spec k x) as [->|Hne]; simpl; lia.
Qed.

Lemma list_sum_dict_set_contar (x : string) (c : dict nat) :
  list_sum (map snd (dict_set x (S (contador x c)) c)) = S (list_sum (map snd c)).
Proof. pose proof (list_sum_dict_set x (S (contador x c)) c). lia. Qed.

Lemma veces_cons (k x : string) (xs : list string) :
  veces k (x :: xs) = (if (k =? x)%string then 1 else 0) + veces k xs.
Proof. unfold veces. simpl. now destruct (k =? x)%string. Qed.

Lemma veces_pos (k : string) (xs : list string) : 0 < veces k xs <-> In k xs.
Proof.
  induction xs as [|x xs IH]; [simpl; unfold veces; simpl; split; [lia|tauto]|].
  rewrite veces_cons. simpl.
  destruct (String.eqb_spec k x) as [->|Hne].
  - split; [auto | lia].
  - simpl. rewrite IH. intuition congruence.
Qed.

Lemma Counter_desde (xs : list string) (acc : dict nat) :
  NoDup (keys acc) ->
  let c := fold_left (fun c x => dict_set x (S (contador x c)) c) xs acc in
  NoDup (keys c)
  /\ (forall k, contador k c = contador k acc + veces k xs)
  /\ (forall k, In k (keys c) <-> In k (keys acc) \/ In k xs)
  /\ list_sum (map snd c) = list_sum (map snd acc) + List.length xs.
Proof.
  revert acc; induction xs as [|x xs IH]; intros acc Hnd; simpl.
  - split; [assumption|]. split; [intros; unfold veces; simpl; lia|].
    split; [tauto | lia].
  - destruct (IH (dict_set x (S (contador x acc)) acc)
                 (NoDup_keys_dict_set _ _ _ Hnd)) as (H1 & H2 & H3 & H4).
    split; [assumption|]. split; [|split].
    + intros k. rewrite H2, contador_dict_set, veces_cons.
      destruct (String.eqb_spec k x) as [->|Hne]; lia.
    + intros k. rewrite H3, In_keys_dict_set. intuition congruence.
    + rewrite H4, list_sum_dict_set_contar. lia.
Qed.

Lemma Counter_spec (xs : list string) :
  NoDup (keys (Counter xs))
  /\ (forall k n, In (k, n) (Counter xs) <-> n = veces k xs /\ 0 < n)
  /\ list_sum (map snd (Counter xs)) = List.length xs.
Proof.
  destruct (Counter_desde xs [] (NoDup_nil _)) as (H1 & H2 & H3 & H4).
  fold (Counter xs) in H1, H2, H3, H4. simpl in H2, H3, H4.
  split; [assumption|]. split; [|assumption].
  intros k n. split.
  - intros Hin.
    assert (Hk : In k (keys (Counter xs)))
      by (change k with (fst (k, n)); now apply in_map).
    apply In_dict_get in Hin; [|assumption].
    pose proof (H2 k) as Hc. unfold contador at 1 in Hc. rewrite Hin in Hc.
    unfold contador in Hc. simpl in Hc. subst n.
    split; [reflexivity|]. apply veces_pos. apply H3 in Hk. tauto.
  - intros (-> & Hpos). apply veces_pos in Hpos.
    assert (Hk : In k (keys (Counter xs))) by (apply H3; now right).
    apply dict_get_In_keys in Hk. destruct Hk as (v & Hv).
    pose proof (H2 k) as Hc. unfold contador at 1 in Hc. rewrite Hv in Hc.
    unfold contador in Hc. simpl in Hc. subst v. now apply dict_get_In.
Qed.

(** ** Percentages *)

Lemma distribucion_Ok (conteo : dict nat) (total : nat) :
  total <> 0 ->
  distribucion conteo total = Ok (lineas_de total conteo).
Proof.
  intros Ht. unfold distribucion, lineas_de.
  induction conteo as [|[k c] conteo IH]; cbn [mapM map]; [reflexivity|].
  rewrite IH. unfold porcentaje. destruct total; [congruence | reflexivity].
Qed.

Lemma suma_porcentajes (conteo : dict nat) (total : nat) :
  total <> 0 ->
  (suma_Q (porcentajes_exactos total (lineas_de total conteo))
   == porcentaje_exacto (list_sum (map snd conteo)) total)%Q.
Proof.
  intros Ht. unfold porcentajes_exactos, lineas_de.
  assert (Hq : ~ (inject_Z (Z.of_nat total) == 0)%Q).
  { intros H. apply (eq_sym) in H. unfold Qeq in H. simpl in H. lia. }
  induction conteo as [|[k c] conteo IH]; simpl.
  - unfold porcentaje_exacto. simpl. field. assumption.
  - rewrite IH. unfold porcentaje_exacto.
    rewrite Nat2Z.inj_add, inject_Z_plus. field. assumption.
Qed.

Lemma porcentaje_exacto_menor (s total : nat) :
  s < total -> (porcentaje_exacto s total < 100)%Q.
Proof.
  intros H. unfold porcentaje_exacto.
  setoid_replace (100 : Q) with (1 * 100)%Q at 2 by reflexivity.
  apply Qmult_lt_compat_r; [reflexivity|].
  apply Qlt_shift_div_r.
  - rewrite <- (Zlt_Qlt 0). lia.
  - rewrite Qmult_1_l. rewrite <- Zlt_Qlt. lia.
Qed.

(** ** Single-locus summary *)

Lemma as_str_dropna (col : list value) :
  columna_de_estados col -> mapM as_str (dropna col) = Ok (cadenas col).
Proof.
  unfold columna_de_estados, dropna, cadenas.
  induction col as [|v col IH]; intros H; [reflexivity|]. simpl.
  assert (IH' : mapM as_str (filter (fun v => negb (isna v)) col)
                = Ok (flat_map (fun v => match v with VStr s => [s] | _ => [] end) col)).
  { apply IH. intros w Hw. apply H. now right. }
  destruct (H v (or_introl eq_refl)) as [->|(s & ->)]; simpl.
  - assumption.
  - rewrite IH'. reflexivity.
Qed.

Lemma veces_cadenas (estado : string) (col : list value) :
  veces estado (cadenas col) = determinadas estado col.
Proof.
  unfold veces, determinadas, cadenas.
  induction col as [|v col IH]; [reflexivity|]. simpl.
  destruct v as [f| |s]; simpl; try assumption.
  rewrite (String.eqb_sym estado s).
  destruct (s =? estado)%string; simpl; now rewrite IH.
Qed.

Lemma length_cadenas (col : list value) :
  columna_de_estados col ->
  List.length (cadenas col) + indeterminadas col = List.length col.
Proof.
  unfold columna_de_estados, cadenas, indeterminadas.
  induction col as [|v col IH]; intros H; [reflexivity|]. simpl.
  assert (IH' := IH (fun w Hw => H w (or_intror Hw))).
  destruct (H v (or_introl eq_refl)) as [->|(s & ->)]; simpl; lia.
Qed.

(** The single-locus summary of a table whose state column is [col]. *)
Lemma resumen_de_estados (pos : string) (tm_dict : dict float)
  (df : DataFrame) (col : list value) :
  columna (columna_estado pos) df = Ok col ->
  columna_de_estados col ->
  exists dist,
    resumen [(pos, tm_dict)] df = Ok (ResumenEstados pos dist)
    /\ NoDup (map (fun l => fst (fst l)) dist)
    /\ (forall estado c t,
          In (estado, c, t) dist <->
          c = determinadas estado col /\ 0 < c
          /\ t = campo_porcentaje (porcentaje_binario c (List.length df)))
    /\ list_sum (map (fun l => snd (fst l)) dist) + indeterminadas col
       = List.length df
    /\ (0 < indeterminadas col ->
        (suma_Q (porcentajes_exactos (List.length df) dist) < 100)%Q).
Proof.
  intros Hcol Hest.
  assert (Hlen : List.length col = List.length df)
    by (eapply mapM_length; exact Hcol).
  destruct (Counter_spec (cadenas col)) as (Hnd & Hin & Hsum).
  pose proof (length_cadenas col Hest) as Hcad.
  unfold resumen, resumen_simple. simpl. rewrite Hcol. simpl.
  rewrite (as_str_dropna col Hest). simpl.
  destruct (Nat.eq_dec (List.length df) 0) as [Hz|Hnz].
  - assert (col = []) by (destruct col; [reflexivity | simpl in Hlen; lia]).
    subst col. simpl. exists []. simpl.
    split; [reflexivity|]. split; [constructor|]. split; [|split].
    + intros estado c t. unfold determinadas. simpl. split; [tauto | lia].
    + unfold indeterminadas. simpl. lia.
    + unfold indeterminadas. simpl. lia.
  - rewrite (distribucion_Ok _ _ Hnz). simpl.
    eexists. split; [reflexivity|].
    split; [|split; [|split]].
    + unfold lineas_de. rewrite map_map.
      erewrite map_ext; [exact Hnd|]. now intros [k c].
    + intros estado c t. unfold lineas_de. rewrite in_map_iff. split.
      * intros ([k n] & [= -> -> <-] & Hk). apply Hin in Hk.
        rewrite veces_cadenas in Hk. tauto.
      * intros (-> & Hpos & ->). exists (estado, determinadas estado col).
        split; [reflexivity|]. apply Hin. now rewrite veces_cadenas.
    + unfold lineas_de. rewrite map_map.
      erewrite map_ext with (g := snd); [|now intros [k c]].
      rewrite Hsum. lia.
    + intros Hind. rewrite suma_porcentajes by assumption.
      apply porcentaje_exacto_menor. rewrite Hsum. lia.
Qed.

(** ** Allele tokens *)

Lemma str_nat_inj (a b : nat) : str_nat a = str_nat b -> a = b.
Proof.
  unfold str_nat. intros H. apply DecimalNat.Unsigned.to_uint_inj.
  assert (H' : Some (Nat.to_uint a) = Some (Nat.to_uint b))
    by (rewrite <- !NilEmpty.usu; now rewrite H).
  now injection H'.
Qed.

Lemma alelos_posibles_S (n : nat) :
  flat_map (fun idx => [("H" ++ str_nat (idx + 1))%string;
                        ("R" ++ str_nat (idx + 1))%string]) (seq 0 (S n))
  = (flat_map (fun idx => [("H" ++ str_nat (idx + 1))%string;
                           ("R" ++ str_nat (idx + 1))%string]) (seq 0 n)
     ++ [("H" ++ str_nat (n + 1))%string; ("R" ++ str_nat (n + 1))%string])%list.
Proof. rewrite seq_S, flat_map_app. simpl. reflexivity. Qed.

Lemma In_alelos_numerados (n : nat) (a : string) :
  In a (flat_map (fun idx => [("H" ++ str_nat (idx + 1))%string;
                              ("R" ++ str_nat (idx + 1))%string]) (seq 0 n))
  <-> exists i, 1 <= i <= n
                /\ (a = ("H" ++ str_nat i)%string \/ a = ("R" ++ str_nat i)%string).
Proof.
  rewrite in_flat_map. split.
  - intros (idx & Hidx & Ha). apply in_seq in Hidx. exists (idx + 1).
    split; [lia|]. simpl in Ha. intuition.
  - intros (i & Hi & Ha). exists (i - 1). split; [apply in_seq; lia|].
    replace (i - 1 + 1) with i by lia. simpl. intuition.
Qed.

Lemma In_alelos_posibles (n : nat) (a : string) :
  In a (alelos_posibles n)
  <-> a = "S"
      \/ exists i, 1 <= i <= n
                   /\ (a = ("H" ++ str_nat i)%string
                       \/ a = ("R" ++ str_nat i)%string).
Proof.
  unfold alelos_posibles. rewrite in_app_iff, In_alelos_numerados. simpl.
  intuition.
Qed.

Lemma NoDup_alelos_posibles (n : nat) : NoDup (alelos_posibles n).
Proof.
  unfold alelos_posibles. apply NoDup_app.
  - induction n as [|n IH]; [constructor|].
    rewrite alelos_posibles_S. apply NoDup_app; [assumption | |].
    + constructor; [|repeat constructor; simpl; tauto].
      simpl. intros [H|[]]. discriminate.
    + intros a Ha Hb. apply In_alelos_numerados in Ha.
      destruct Ha as (i & Hi & Ha). simpl in Hb.
      destruct Ha as [-> | ->]; destruct Hb as [Hb|[Hb|[]]];
        try discriminate; injection Hb as Hb; apply str_nat_inj in Hb; lia.
  - repeat constructor. simpl. tauto.
  - intros a Ha [<-|[]]. apply In_alelos_numerados in Ha.
    destruct Ha as (i & _ & [Ha|Ha]); discriminate.
Qed.

(** ** Per-allele counts *)

Lemma apariciones_NoDup (xs acc : list string) :
  NoDup (acc ++ xs)%list -> fold_left paso_aparicion xs acc = (acc ++ xs)%list.
Proof.
  revert acc; induction xs as [|x xs IH]; intros acc H; simpl.
  - now rewrite app_nil_r.
  - unfold paso_aparicion at 2.
    destruct (existsb (String.eqb x) acc) eqn:E.
    + exfalso. apply existsb_eqb_In in E. apply NoDup_remove_2 in H.
      apply H, in_or_app. now left.
    + rewrite IH; rewrite <- app_assoc; [reflexivity | exact H].
Qed.

Lemma recuento_inicial_desde (alelos : list string) (acc : dict nat) :
  (forall a, contador a acc = 0) ->
  let r := fold_left (fun d a => dict_set a 0 d) alelos acc in
  keys r = fold_left paso_aparicion alelos (keys acc)
  /\ forall a, contador a r = 0.
Proof.
  revert acc; induction alelos as [|a0 alelos IH]; intros acc H0; simpl.
  - auto.
  - destruct (IH (dict_set a0 0 acc)) as (H1 & H2).
    + intros a. rewrite contador_dict_set. destruct (a =? a0)%string; auto.
    + split; [|exact H2]. rewrite H1, keys_dict_set. reflexivity.
Qed.

Lemma recuento_inicial_spec (alelos : list string) :
  NoDup alelos ->
  keys (recuento_inicial alelos) = alelos
  /\ forall a, contador a (recuento_inicial alelos) = 0.
Proof.
  intros Hnd. destruct (recuento_inicial_desde alelos []) as (H1 & H2);
    [reflexivity|].
  split; [|exact H2]. unfold recuento_inicial. rewrite H1.
  simpl. now apply apariciones_NoDup.
Qed.

Lemma recontar_alelos (g : string) (alelos : list string) (r : dict nat) :
  NoDup alelos -> (forall a, In a alelos -> In a (keys r)) ->
  let r' := fold_left (fun r a => dict_set a (contador a r + count g a) r)
                      alelos r in
  keys r' = keys r
  /\ forall a, contador a r'
               = contador a r
                 + (if existsb (String.eqb a) alelos then count g a else 0).
Proof.
  revert r; induction alelos as [|a0 alelos IH]; intros r Hnd Hin; simpl.
  - split; [reflexivity | intros; lia].
  - inversion Hnd as [|? ? Hnotin Hnd']; subst.
    destruct (IH (dict_set a0 (contador a0 r + count g a0) r) Hnd') as (H1 & H2).
    + intros a Ha. apply In_keys_dict_set. right. apply Hin. now right.
    + assert (Hk : keys (dict_set a0 (contador a0 r + count g a0) r) = keys r).
      { rewrite keys_dict_set.
        assert (E : existsb (String.eqb a0) (keys r) = true)
          by (apply existsb_eqb_In, Hin; now left).
        now rewrite E. }
      split; [congruence|].
      intros a. rewrite H2, contador_dict_set.
      destruct (String.eqb_spec a a0) as [->|Hne]; simpl.
      * assert (E : existsb (String.eqb a0) alelos = false).
        { apply not_true_is_false. intros E. now apply existsb_eqb_In in E. }
        rewrite E. lia.
      * lia.
Qed.

Lemma recuento_de_alelos_desde (alelos genotipos : list string) (r : dict nat) :
  NoDup alelos -> keys r = alelos ->
  let r' := fold_left (recontar alelos) genotipos r in
  keys r' = alelos
  /\ forall a, In a alelos ->
               contador a r' = contador a r + ocurrencias a genotipos.
Proof.
  intros Hnd. revert r; induction genotipos as [|g genotipos IH];
    intros r Hk; simpl.
  - split; [assumption|]. intros a _. unfold ocurrencias. simpl. lia.
  - unfold recontar at 2 4. unfold ocurrencias. simpl.
    destruct (g =? NO_DETERMINADO)%string eqn:Eg; simpl.
    + apply IH. assumption.
    + destruct (recontar_alelos g alelos r Hnd) as (H1 & H2).
      { intros a Ha. now rewrite Hk. }
      destruct (IH _ (eq_trans H1 Hk)) as (H3 & H4).
      split; [assumption|]. intros a Ha. rewrite (H4 a Ha), H2.
      assert (E : existsb (String.eqb a) alelos = true)
        by now apply existsb_eqb_In.
      rewrite E. unfold ocurrencias. lia.
Qed.

Lemma valores_por_clave (d : dict nat) :
  NoDup (keys d) -> map snd d = map (fun k => contador k d) (keys d).
Proof.
  intros Hnd. unfold keys. rewrite map_map. apply map_ext_in.
  intros [k n] Hin. simpl. unfold contador.
  now rewrite (In_dict_get _ _ _ Hnd Hin).
Qed.

Lemma recuento_de_alelos_spec (alelos genotipos : list string) :
  NoDup alelos ->
  let r := recuento_de_alelos alelos genotipos in
  (forall a, In a alelos -> contador a r = ocurrencias a genotipos)
  /\ suma (map snd r) = total_ocurrencias alelos genotipos.
Proof.
  intros Hnd. destruct (recuento_inicial_spec alelos Hnd) as (Hk0 & Hc0).
  destruct (recuento_de_alelos_desde alelos genotipos _ Hnd Hk0) as (Hk & Hc).
  fold (recuento_de_alelos alelos genotipos) in Hk, Hc.
  assert (Hc' : forall a, In a alelos ->
                  contador a (recuento_de_alelos alelos genotipos)
                  = ocurrencias a genotipos).
  { intros a Ha. rewrite (Hc a Ha), Hc0. reflexivity. }
  split; [exact Hc'|].
  rewrite suma_list_sum, valores_por_clave by (rewrite Hk; exact Hnd).
  rewrite Hk. unfold total_ocurrencias. f_equal. now apply map_ext_in.
Qed.

Lemma resumen_alelos_lineas (xs : list string) (r : dict nat) (total : nat)
  (oc : string -> nat) :
  (forall a, In a xs -> contador a r = oc a) ->
  mapM (fun a =>
          p <- (if (0 <? total)%nat then porcentaje (contador a r) total
                else Ok 0%float) ;;
          Ok (a, contador a r, campo_porcentaje p)) xs
  = Ok (map (fun a => (a, oc a,
                       if (0 <? total)%nat
                       then campo_porcentaje (porcentaje_binario (oc a) total)
                       else "0.00%")) xs).
Proof.
  induction xs as [|a xs IH]; intros H; cbn [mapM map]; [reflexivity|].
  rewrite IH by (intros b Hb; apply H; now right).
  rewrite (H a) by now left.
  destruct total as [|t]; reflexivity.
Qed.

Lemma resumen_alelos_spec (alelos genotipos : list string) :
  NoDup alelos ->
  resumen_alelos alelos (recuento_de_alelos alelos genotipos)
  = Ok (lineas_por_alelo alelos genotipos).
Proof.
  intros Hnd.
  destruct (recuento_de_alelos_spec alelos genotipos Hnd) as (Hc & Hs).
  unfold resumen_alelos, lineas_por_alelo. rewrite Hs.
  now apply resumen_alelos_lineas.
Qed.

Lemma distribucion_Counter (xs : list string) (total : nat) :
  List.length xs = total ->
  exists dist, distribucion (Counter xs) total = Ok dist.
Proof.
  intros H. destruct xs as [|x xs].
  - exists []. reflexivity.
  - eexists. apply distribucion_Ok. simpl in H. lia.
Qed.

Lemma resumen_multiple_Ok (posiciones : dict (dict float)) (df : DataFrame)
  (col : list value) (genotipos : list string) :
  columna GENOTIPO_RESULTANTE df = Ok col ->
  mapM as_str col = Ok genotipos ->
  exists dist,
    resumen_multiple posiciones df
    = Ok (ResumenGenotipos dist
            (lineas_por_alelo (alelos_posibles (List.length posiciones))
                              genotipos)).
Proof.
  intros Hcol Hstr. unfold resumen_multiple. rewrite Hcol. simpl.
  rewrite Hstr. simpl.
  destruct (distribucion_Counter genotipos (List.length df)) as (dist & Hd).
  { rewrite (mapM_length _ _ _ Hstr). eapply mapM_length; exact Hcol. }
  rewrite Hd. simpl.
  rewrite resumen_alelos_spec by apply NoDup_alelos_posibles.
  simpl. exists dist. reflexivity.
Qed.

Lemma list_sum_cero (xs : list nat) :
  list_sum xs = 0 -> forall x, In x xs -> x = 0.
Proof.
  induction xs as [|y xs IH]; simpl; [tauto|].
  intros H x [<-|Hx]; [lia | apply IH; [lia | assumption]].
Qed.

Lemma ocurrencias_indeterminados (a : string) (genotipos : list string) :
  (forall g, In g genotipos -> g = NO_DETERMINADO) -> ocurrencias a genotipos = 0.
Proof.
  intros H. unfold ocurrencias.
  induction genotipos as [|g genotipos IH]; [reflexivity|]. simpl.
  rewrite (H g (or_introl eq_refl)). simpl.
  apply IH. intros g' Hg'. apply H. now right.
Qed.

(** ** Multi-locus summary *)

(** The per-allele table of a table whose genotype column holds the
    strings [genotipos]. *)
Lemma resumen_de_alelos (posiciones : dict (dict float)) (df : DataFrame)
  (col : list value) (genotipos : list string) :
  1 < List.length posiciones ->
  columna GENOTIPO_RESULTANTE df = Ok col ->
  mapM as_str col = Ok genotipos ->
  let alelos := alelos_posibles (List.length posiciones) in
  let total := total_ocurrencias alelos genotipos in
  (forall a, In a alelos <->
             a = "S"
             \/ exists i, 1 <= i <= List.length posiciones
                          /\ (a = ("H" ++ str_nat i)%string
                              \/ a = ("R" ++ str_nat i)%string))
  /\ NoDup alelos
  /\ exists dist ale,
      resumen posiciones df = Ok (ResumenGenotipos dist ale)
      /\ map (fun l => fst (fst l)) ale = alelos
      /\ forall a c t, In (a, c, t) ale ->
           c = ocurrencias a genotipos
           /\ (0 < total ->
               t = campo_porcentaje (porcentaje_binario c total))
           /\ (total = 0 -> t = "0.00%").
Proof.
  intros Hn Hcol Hstr alelos total.
  split; [apply In_alelos_posibles|]. split; [apply NoDup_alelos_posibles|].
  destruct (resumen_multiple_Ok posiciones df col genotipos Hcol Hstr)
    as (dist & Hr).
  exists dist, (lineas_por_alelo alelos genotipos).
  split; [|split].
  - unfold resumen. apply Nat.ltb_lt in Hn. rewrite Hn. exact Hr.
  - unfold lineas_por_alelo. rewrite map_map. simpl. apply map_id.
  - intros a c p Hin. unfold lineas_por_alelo in Hin.
    apply in_map_iff in Hin. destruct Hin as (a' & [= -> <- <-] & _).
    fold total. split; [reflexivity|]. split.
    + intros Hpos. apply Nat.ltb_lt in Hpos. now rewrite Hpos.
    + intros ->. reflexivity.
Qed.

(** The per-allele table when no token occurs. *)
Lemma resumen_sin_ocurrencias (posiciones : dict (dict float))
  (df : DataFrame) (col : list value) (genotipos : list string) :
  1 < List.length posiciones ->
  columna GENOTIPO_RESULTANTE df = Ok col ->
  mapM as_str col = Ok genotipos ->
  total_ocurrencias (alelos_posibles (List.length posiciones)) genotipos = 0 ->
  (forall c, porcentaje c 0 = Err ZeroDivisionError)
  /\ exists dist,
      resumen posiciones df
      = Ok (ResumenGenotipos dist
              (map (fun a => (a, 0, "0.00%"))
                   (alelos_posibles (List.length posiciones)))).
Proof.
  intros Hn Hcol Hstr Htotal. split; [reflexivity|].
  destruct (resumen_multiple_Ok posiciones df col genotipos Hcol Hstr)
    as (dist & Hr).
  exists dist. unfold resumen. apply Nat.ltb_lt in Hn. rewrite Hn, Hr.
  do 2 f_equal. unfold lineas_por_alelo. rewrite Htotal. simpl.
  apply map_ext_in. intros a Ha. do 2 f_equal.
  apply (list_sum_cero _ Htotal). unfold total_ocurrencias.
  apply in_map_iff. exists a. auto.
Qed.

(** ** The script row by row *)

Lemma Forall2_bind {A B C} (f : A -> result B) (g : B -> result C)
  (xs : list A) (zs : list C) :
  Forall2 (fun x z => bind (f x) g = Ok z) xs zs <->
  exists ys, Forall2 (fun x y => f x = Ok y) xs ys
             /\ Forall2 (fun y z => g y = Ok z) ys zs.
Proof.
  split.
  - induction 1 as [|x z xs zs H _ (ys & H1 & H2)].
    + exists []. split; constructor.
    + apply bind_Ok in H. destruct H as (y & Hy & Hz).
      exists (y :: ys). split; constructor; assumption.
  - intros (ys & H1 & H2). revert zs H2.
    induction H1 as [|x y xs ys Hy _ IH]; intros zs H2; inversion H2; subst;
      constructor.
    + rewrite Hy. assumption.
    + now apply IH.
Qed.

Lemma calcular_diferencias_plano (posiciones : dict (dict float)) (df : DataFrame) :
  calcular_diferencias posiciones df
  = foldM (fun d x => mapM (paso_diferencia x) d) (referencias posiciones) df.
Proof.
  unfold calcular_diferencias, referencias.
  revert df; induction posiciones as [|[pos tm_dict] ps IH]; intros df;
    cbn [foldM flat_map]; [reflexivity|].
  rewrite foldM_app.
  assert (E : forall d,
             diferencias_posicion d (pos, tm_dict)
             = foldM (fun d x => mapM (paso_diferencia x) d)
                     (map (pair pos) tm_dict) d).
  { unfold diferencias_posicion. clear.
    induction tm_dict as [|[estado tm_val] tm_dict IH]; intros d;
      cbn [foldM map]; [reflexivity|].
    unfold diferencia at 1, asignar, paso_diferencia at 1. cbn [fst snd].
    destruct (mapM _ d); cbn [bind]; auto. }
  rewrite E.
  match goal with
  | |- context [foldM ?f (map (pair pos) tm_dict) df] =>
      destruct (foldM f (map (pair pos) tm_dict) df); cbn [bind]; auto
  end.
Qed.

Lemma Forall2_eq_Ok {A} (xs ys : list A) :
  Forall2 (fun x y => Ok x = Ok y) xs ys <-> xs = ys.
Proof.
  split.
  - induction 1 as [|x y xs ys [= ->] _ ->]; reflexivity.
  - intros ->. induction ys; constructor; auto.
Qed.

Lemma Forall2_map_l {A B C} (f : A -> B) (R : B -> C -> Prop)
  (xs : list A) (zs : list C) :
  Forall2 R (map f xs) zs <-> Forall2 (fun x z => R (f x) z) xs zs.
Proof.
  revert zs; induction xs as [|x xs IH]; intros zs; simpl.
  - split; intros H; inversion H; constructor.
  - split; intros H; inversion H; subst; constructor; auto; now apply IH.
Qed.

(** ** State columns *)

Lemma paso_Ok (col : string) (f : fila -> result value) (row row' : fila) :
  paso col f row = Ok row' <-> exists v, f row = Ok v /\ row' = dict_set col v row.
Proof.
  unfold paso. split.
  - intros H. inv_bind H. injection H as <-. eauto.
  - intros (v & -> & ->). reflexivity.
Qed.

Lemma mapM_keys {V} (f : string -> result V) (ks : list string) (d : dict V) :
  mapM (fun k => v <- f k ;; Ok (k, v)) ks = Ok d -> keys d = ks.
Proof.
  revert d; induction ks as [|k ks IH]; intros d H; cbn [mapM] in H.
  - now injection H as <-.
  - inv_bind H. inv_bind Ha. injection Ha as <-. inv_bind H. injection H as <-.
    unfold keys in *. cbn [map fst]. f_equal. now apply IH.
Qed.

Lemma genotipo_por_posicion_valido (posiciones : dict (dict float))
  (row : fila) (pos : string) (v : value) :
  genotipo_por_posicion posiciones row pos = Ok v ->
  estado_valido posiciones pos v.
Proof.
  unfold genotipo_por_posicion, estado_valido. intros H. inv_bind H.
  destruct (isna a); [injection H as <-; now left|].
  destruct (dict_get pos posiciones) as [tm_dict|]; [|discriminate].
  cbn [bind] in H. inv_bind H. inv_bind H. injection H as <-.
  right. exists a1, tm_dict. split; [reflexivity|]. split; [reflexivity|].
  apply min_por_valor_In in Ha1. apply mapM_keys in Ha0. congruence.
Qed.

Lemma columna_estado_inj (a b : string) :
  columna_estado a = columna_estado b -> a = b.
Proof. unfold columna_estado. cbn. now intros [= ->]. Qed.

Lemma columna_estado_genotipo (pos : string) :
  columna_estado pos <> GENOTIPO_RESULTANTE.
Proof. unfold columna_estado, GENOTIPO_RESULTANTE. cbn. discriminate. Qed.

Lemma fila_estados_marco (posiciones : dict (dict float)) (poss : list string)
  (row row' : fila) (c : string) :
  fila_estados posiciones poss row = Ok row' ->
  (forall pos, In pos poss -> c <> columna_estado pos) ->
  dict_get c row' = dict_get c row.
Proof.
  unfold fila_estados.
  revert row; induction poss as [|pos poss IH]; intros row H Hc; cbn [foldM] in H.
  - now injection H as <-.
  - inv_bind H. unfold paso_estado in Ha.
    apply paso_Ok in Ha. destruct Ha as (v & _ & ->).
    rewrite (IH _ H) by (intros p Hp; apply Hc; now right).
    apply dict_get_set_ne. apply Hc. now left.
Qed.

Lemma fila_estados_celdas (posiciones : dict (dict float)) (poss : list string)
  (row row' : fila) (pos : string) :
  fila_estados posiciones poss row = Ok row' ->
  NoDup poss -> In pos poss ->
  exists v, dict_get (columna_estado pos) row' = Some v
            /\ estado_valido posiciones pos v.
Proof.
  unfold fila_estados.
  revert row; induction poss as [|p poss IH]; intros row H Hnd Hin;
    [destruct Hin|]. cbn [foldM] in H.
  inversion Hnd as [|? ? Hnotin Hnd']; subst.
  inv_bind H. unfold paso_estado in Ha.
  apply paso_Ok in Ha. destruct Ha as (v & Hv & ->).
  destruct Hin as [->|Hin].
  - exists v. split; [|eapply genotipo_por_posicion_valido; exact Hv].
    rewrite (fila_estados_marco posiciones poss _ row' _ H).
    + apply dict_get_set_eq.
    + intros p Hp E. apply columna_estado_inj in E. congruence.
  - eapply IH; eauto.
Qed.

Lemma seleccionar_fila_get (cols : list string) (row row' : fila) (c : string) :
  seleccionar_fila cols row = Ok row' -> In c cols ->
  dict_get c row' = dict_get c row.
Proof.
  unfold seleccionar_fila.
  revert row'; induction cols as [|c0 cols IH]; intros row' H Hin;
    [destruct Hin|]. cbn [mapM] in H.
  inv_bind H. inv_bind Ha. injection Ha as <-. inv_bind H. injection H as <-.
  cbn [dict_get]. unfold fila_get in Ha0.
  destruct (String.eqb_spec c0 c) as [->|Hne].
  - destruct (dict_get c row); [now injection Ha0 as -> | discriminate].
  - destruct Hin as [->|Hin]; [congruence|]. now apply IH.
Qed.

Lemma Forall2_In_r {A B} (R : A -> B -> Prop) (xs : list A) (ys : list B) (y : B) :
  Forall2 R xs ys -> In y ys -> exists x, In x xs /\ R x y.
Proof.
  induction 1 as [|x y' xs ys H _ IH]; intros Hin; [destruct Hin|].
  destruct Hin as [->|Hin].
  - exists x. split; [now left | assumption].
  - destruct (IH Hin) as (x' & H1 & H2). exists x'. split; [now right | assumption].
Qed.

Lemma In_cols_resultado_estado (posiciones : dict (dict float)) (pos : string) :
  In pos (keys posiciones) -> In (columna_estado pos) (cols_resultado posiciones).
Proof.
  intros H. unfold cols_resultado. apply in_or_app. right.
  apply in_or_app. left. now apply in_map.
Qed.

(** ** Failures *)

Lemma mapM_Err {A B} (f : A -> result B) (xs : list A) (e : error) :
  mapM f xs = Err e -> exists x, In x xs /\ f x = Err e.
Proof.
  induction xs as [|x xs IH]; cbn [mapM]; [discriminate|].
  intros H. apply bind_Err in H. destruct H as [H|(y & _ & H)].
  - exists x. split; [now left | assumption].
  - apply bind_Err in H. destruct H as [H|(ys & _ & [=])].
    destruct (IH H) as (x' & H1 & H2). exists x'. split; [now right | assumption].
Qed.

Lemma keys_armar_fila (cols : list string) (reg : list value) :
  keys (armar_fila cols reg) = cols.
Proof.
  unfold keys. revert reg; induction cols as [|c cols IH]; intros reg;
    cbn [armar_fila map fst]; [reflexivity|]. now rewrite IH.
Qed.

Lemma tiene_columnas_read_excel (h : Hoja) :
  tiene_columnas (encabezado h) (read_excel h).
Proof.
  unfold tiene_columnas, read_excel. apply Forall_forall. intros row Hin.
  apply in_map_iff in Hin. destruct Hin as (reg & <- & _).
  intros c Hc. now rewrite keys_armar_fila.
Qed.

Lemma primera_falta (columns poss : list string) :
  (exists pos, In pos poss /\ ~ In (columna_tm pos) columns) ->
  exists antes pos despues,
    poss = (antes ++ pos :: despues)%list
    /\ (forall p, In p antes -> In (columna_tm p) columns)
    /\ ~ In (columna_tm pos) columns.
Proof.
  induction poss as [|p poss IH]; intros (pos & Hin & Hn); [destruct Hin|].
  destruct (in_dec string_dec (columna_tm p) columns) as [Hp|Hp].
  - destruct IH as (antes & pos' & despues & -> & H1 & H2).
    { destruct Hin as [->|Hin]; [contradiction | eauto]. }
    exists (p :: antes), pos', despues. split; [reflexivity|].
    split; [|assumption]. intros q [<-|Hq]; auto.
  - exists [], p, poss. split; [reflexivity|]. split; [intros ? []|assumption].
Qed.

Lemma distribucion_Err (conteo : dict nat) (total : nat) (e : error) :
  distribucion conteo total = Err e -> es_validacion e = false.
Proof.
  unfold distribucion. intros H. apply mapM_Err in H.
  destruct H as ([k c] & _ & H). unfold porcentaje in H.
  destruct total; cbn [bind] in H; [|discriminate]. now injection H as <-.
Qed.

Lemma columna_Err (col : string) (df : DataFrame) (e : error) :
  columna col df = Err e -> es_validacion e = false.
Proof.
  unfold columna. intros H. apply mapM_Err in H. destruct H as (row & _ & H).
  unfold fila_get in H. destruct (dict_get col row); [discriminate|].
  now injection H as <-.
Qed.

Lemma as_str_Err (xs : list value) (e : error) :
  mapM as_str xs = Err e -> es_validacion e = false.
Proof.
  intros H. apply mapM_Err in H. destruct H as (v & _ & H).
  destruct v; cbn in H; try discriminate; now injection H as <-.
Qed.

Lemma resumen_alelos_Err (alelos : list string) (r : dict nat) (e : error) :
  resumen_alelos alelos r = Err e -> es_validacion e = false.
Proof.
  unfold resumen_alelos. intros H. apply mapM_Err in H.
  destruct H as (a & _ & H).
  destruct (0 <? suma (map snd r))%nat; cbn [bind] in H; [|discriminate].
  unfold porcentaje in H. destruct (suma (map snd r)); cbn [bind] in H;
    [|discriminate]. now injection H as <-.
Qed.

Lemma resumen_Err (posiciones : dict (dict float)) (df : DataFrame) (e : error) :
  resumen posiciones df = Err e -> es_validacion e = false.
Proof.
  unfold resumen, resumen_multiple, resumen_simple. intros H.
  destruct (1 <? List.length posiciones)%nat.
  - apply bind_Err in H. destruct H as [H|(col & _ & H)];
      [eapply columna_Err; exact H|].
    apply bind_Err in H. destruct H as [H|(gs & _ & H)];
      [eapply as_str_Err; exact H|].
    apply bind_Err in H. destruct H as [H|(dist & _ & H)];
      [eapply distribucion_Err; exact H|].
    apply bind_Err in H. destruct H as [H|(ale & _ & [=])].
    eapply resumen_alelos_Err; exact H.
  - destruct (keys posiciones) as [|pos ?]; [now injection H as <-|].
    apply bind_Err in H. destruct H as [H|(col & _ & H)];
      [eapply columna_Err; exact H|].
    apply bind_Err in H. destruct H as [H|(es & _ & H)];
      [eapply as_str_Err; exact H|].
    apply bind_Err in H. destruct H as [H|(dist & _ & [=])].
    eapply distribucion_Err; exact H.
Qed.

(** ** Nearest state *)

Lemma sin_repetidos_NoDup (xs : list string) :
  sin_repetidos xs = true -> NoDup xs.
Proof.
  induction xs as [|x xs IH]; cbn [sin_repetidos]; [constructor|].
  intros H. apply andb_prop in H. destruct H as (H1 & H2).
  constructor; [|auto]. intros Hin. apply existsb_eqb_In in Hin.
  rewrite Hin in H1. discriminate.
Qed.

Lemma columna_tm_inj (a b : string) : columna_tm a = columna_tm b -> a = b.
Proof. unfold columna_tm. cbn. now intros [= ->]. Qed.

Lemma fila_get_Ok (col : string) (row : fila) (v : value) :
  fila_get col row = Ok v <-> dict_get col row = Some v.
Proof.
  unfold fila_get. destruct (dict_get col row); split; congruence.
Qed.

Lemma fila_diferencias_marco (refs : list (string * (string * float)))
  (row row' : fila) (c : string) :
  foldM (fun row x => paso_diferencia x row) refs row = Ok row' ->
  (forall x, In x refs -> c <> columna_de_referencia x) ->
  dict_get c row' = dict_get c row.
Proof.
  revert row; induction refs as [|x refs IH]; intros row H Hc; cbn [foldM] in H.
  - now injection H as <-.
  - inv_bind H. unfold paso_diferencia in Ha.
    apply paso_Ok in Ha. destruct Ha as (v & _ & ->).
    rewrite (IH _ H) by (intros y Hy; apply Hc; now right).
    apply dict_get_set_ne. apply Hc. now left.
Qed.

Lemma fila_diferencias_celda (refs : list (string * (string * float)))
  (row row' : fila) (x : string * (string * float)) (t : float) :
  foldM (fun row x => paso_diferencia x row) refs row = Ok row' ->
  NoDup (map columna_de_referencia refs) ->
  (forall y, In y refs -> columna_tm (fst x) <> columna_de_referencia y) ->
  In x refs ->
  dict_get (columna_tm (fst x)) row = Some (VFloat t) ->
  dict_get (columna_de_referencia x) row'
  = Some (VFloat (abs_diff t (snd (snd x)))).
Proof.
  revert row; induction refs as [|y refs IH]; intros row H Hnd Htm Hin Ht;
    [destruct Hin|]. cbn [foldM] in H. cbn [map] in Hnd.
  inversion Hnd as [|? ? Hnotin Hnd']; subst.
  inv_bind H. unfold paso_diferencia in Ha.
  apply paso_Ok in Ha. destruct Ha as (v & Hv & ->).
  destruct Hin as [->|Hin].
  - rewrite (fila_diferencias_marco _ _ _ _ H).
    + unfold diferencia_absoluta in Hv. unfold fila_get in Hv.
      rewrite Ht in Hv. cbn [bind as_float] in Hv. injection Hv as <-.
      apply dict_get_set_eq.
    + intros z Hz E. apply Hnotin. rewrite E. now apply in_map.
  - apply (IH _ H Hnd').
    + intros z Hz. apply Htm. now right.
    + assumption.
    + rewrite dict_get_set_ne; [assumption|]. apply Htm. now left.
Qed.

Lemma genotipo_por_posicion_ext (posiciones : dict (dict float))
  (r r' : fila) (pos : string) :
  dict_get (columna_tm pos) r = dict_get (columna_tm pos) r' ->
  (forall tm_dict e,
     dict_get pos posiciones = Some tm_dict -> In e (keys tm_dict) ->
     dict_get (columna_diff pos e) r = dict_get (columna_diff pos e) r') ->
  genotipo_por_posicion posiciones r pos = genotipo_por_posicion posiciones r' pos.
Proof.
  intros Ht Hd. unfold genotipo_por_posicion, fila_get. rewrite Ht.
  destruct (dict_get (columna_tm pos) r') as [t|]; [|reflexivity]. cbn [bind].
  destruct (isna t); [reflexivity|].
  destruct (dict_get pos posiciones) as [tm_dict|]; [|reflexivity]. cbn [bind].
  specialize (Hd tm_dict).
  assert (Hd' : forall e, In e (keys tm_dict) ->
                  dict_get (columna_diff pos e) r
                  = dict_get (columna_diff pos e) r') by auto.
  clear Hd.
  assert (E : mapM (fun estado =>
                      v <- match dict_get (columna_diff pos estado) r with
                           | Some v => Ok v
                           | None => Err (KeyError (columna_diff pos estado))
                           end ;; Ok (estado, v)) (keys tm_dict)
              = mapM (fun estado =>
                      v <- match dict_get (columna_diff pos estado) r' with
                           | Some v => Ok v
                           | None => Err (KeyError (columna_diff pos estado))
                           end ;; Ok (estado, v)) (keys tm_dict)).
  { induction (keys tm_dict) as [|e es IH]; [reflexivity|]. cbn [mapM].
    rewrite Hd' by now left. rewrite IH by (intros; apply Hd'; now right).
    reflexivity. }
  rewrite E. reflexivity.
Qed.

Lemma fila_estados_valor (posiciones : dict (dict float)) (poss : list string)
  (row row' : fila) (pos : string) :
  fila_estados posiciones poss row = Ok row' ->
  NoDup poss -> In pos poss ->
  (forall p, In p poss -> columna_tm pos <> columna_estado p) ->
  (forall p tm_dict e,
     In p poss -> dict_get pos posiciones = Some tm_dict ->
     In e (keys tm_dict) -> columna_diff pos e <> columna_estado p) ->
  exists v, genotipo_por_posicion posiciones row pos = Ok v
            /\ dict_get (columna_estado pos) row' = Some v.
Proof.
  unfold fila_estados.
  revert row; induction poss as [|p poss IH]; intros row H Hnd Hin Ht Hd;
    [destruct Hin|]. cbn [foldM] in H.
  inversion Hnd as [|? ? Hnotin Hnd']; subst.
  inv_bind H. unfold paso_estado in Ha.
  apply paso_Ok in Ha. destruct Ha as (v & Hv & ->).
  destruct Hin as [->|Hin].
  - exists v. split; [assumption|].
    rewrite (fila_estados_marco posiciones poss _ row' _ H).
    + apply dict_get_set_eq.
    + intros q Hq E. apply columna_estado_inj in E. congruence.
  - destruct (IH _ H Hnd' Hin) as (w & Hw & Hcell).
    + intros q Hq. apply Ht. now right.
    + intros q d e Hq. apply Hd. now right.
    + exists w. split; [|assumption]. rewrite <- Hw.
      apply genotipo_por_posicion_ext.
      * symmetry. apply dict_get_set_ne. apply Ht. now left.
      * intros d e Hd1 He. symmetry. apply dict_get_set_ne.
        apply (Hd p d e); auto. now left.
Qed.

Lemma diffs_flotantes (pos : string) (r : fila) (t : float) (tm_dict : dict float) :
  (forall e ref, In (e, ref) tm_dict ->
     dict_get (columna_diff pos e) r = Some (VFloat (abs_diff t ref))) ->
  mapM (fun estado => v <- fila_get (columna_diff pos estado) r ;; Ok (estado, v))
       (keys tm_dict)
  = Ok (flotantes (map (fun '(e, ref) => (e, abs_diff t ref)) tm_dict)).
Proof.
  unfold keys, flotantes.
  induction tm_dict as [|[e ref] tm_dict IH]; intros H; [reflexivity|].
  cbn [map fst mapM]. unfold fila_get at 1.
  rewrite (H e ref) by now left. cbn [bind].
  rewrite IH by (intros e' ref' Hin; apply H; now right). reflexivity.
Qed.

Lemma genotipo_por_posicion_cercano (posiciones : dict (dict float)) (r : fila)
  (pos : string) (tm_dict : dict float) (t : float) (v : value) :
  dict_get pos posiciones = Some tm_dict ->
  dict_get (columna_tm pos) r = Some (VFloat t) ->
  (forall e ref, In (e, ref) tm_dict ->
     dict_get (columna_diff pos e) r = Some (VFloat (abs_diff t ref))) ->
  genotipo_por_posicion posiciones r pos = Ok v ->
  (isnan t = true -> v = VNone)
  /\ (isnan t = false -> exists e, v = VStr e /\ mas_cercano t tm_dict e).
Proof.
  intros Hp Ht Hd H. unfold genotipo_por_posicion, fila_get in H.
  rewrite Ht in H. cbn [bind isna] in H.
  destruct (isnan t); [split; [intros _; congruence | discriminate]|].
  split; [discriminate|]. intros _.
  rewrite Hp in H. cbn [bind] in H.
  fold (fila_get) in H.
  change (fun estado : string =>
            v <- match dict_get (columna_diff pos estado) r with
                 | Some v => Ok v
                 | None => Err (KeyError (columna_diff pos estado))
                 end ;; Ok (estado, v))
    with (fun estado : string =>
            v <- fila_get (columna_diff pos estado) r ;; Ok (estado, v)) in H.
  rewrite (diffs_flotantes pos r t tm_dict Hd) in H. cbn [bind] in H.
  inv_bind H. injection H as <-. exists a. split; [reflexivity|].
  destruct tm_dict as [|item tm_dict'] eqn:Etm; [discriminate|].
  rewrite <- Etm in *.
  destruct (min_por_valor_flotantes
              (map (fun '(e, ref) => (e, abs_diff t ref)) tm_dict))
    as (pre' & e0 & d0 & post' & H1 & H2 & H3 & H4).
  { rewrite Etm. discriminate. }
  rewrite Ha in H2. injection H2 as <-.
  apply map_eq_app in H1. destruct H1 as (pre & rest & -> & Hpre & Hrest).
  apply map_eq_cons in Hrest.
  destruct Hrest as ([e1 ref] & post & -> & [= -> <-] & Hpost).
  exists pre, ref, post. split; [reflexivity|]. split.
  - intros e' ref' Hin. apply (H3 e').
    apply in_map_iff. exists (e', ref'). split; [reflexivity | assumption].
  - intros e' ref' Hin. apply (H4 e'). rewrite <- Hpre.
    apply in_map_iff. exists (e', ref'). split; [reflexivity | assumption].
Qed.

Lemma NoDup_app_disjuntas {A} (l l' : list A) (x : A) :
  NoDup (l ++ l')%list -> In x l -> In x l' -> False.
Proof.
  induction l as [|a l IH]; cbn [app]; intros H Hin Hin'; [destruct Hin|].
  inversion H as [|? ? Hnotin Hnd]; subst. destruct Hin as [->|Hin].
  - apply Hnotin, in_or_app. now right.
  - now apply IH.
Qed.

Lemma columna_tm_estado (p q : string) : columna_tm p <> columna_estado q.
Proof. unfold columna_tm, columna_estado. cbn. discriminate. Qed.

Lemma columna_tm_genotipo (p : string) : columna_tm p <> GENOTIPO_RESULTANTE.
Proof. unfold columna_tm, GENOTIPO_RESULTANTE. cbn. discriminate. Qed.

Lemma In_referencias (posiciones : dict (dict float)) (pos e : string)
  (tm_dict : dict float) (ref : float) :
  In (pos, tm_dict) posiciones -> In (e, ref) tm_dict ->
  In (pos, (e, ref)) (referencias posiciones).
Proof.
  intros Hp He. unfold referencias. apply in_flat_map.
  exists (pos, tm_dict). split; [assumption|]. now apply in_map.
Qed.

Lemma sin_homonimas_inv (posiciones : dict (dict float)) :
  sin_homonimas posiciones ->
  NoDup (map columna_de_referencia (referencias posiciones))
  /\ (forall p x, In p (keys posiciones) -> In x (referencias posiciones) ->
        columna_tm p <> columna_de_referencia x)
  /\ (forall x q, In x (referencias posiciones) -> In q (keys posiciones) ->
        columna_de_referencia x <> columna_estado q).
Proof.
  unfold sin_homonimas, columnas. intros H.
  split; [|split].
  - apply NoDup_app_remove_l in H. now apply NoDup_app_remove_r in H.
  - intros p x Hp Hx E.
    apply (NoDup_app_disjuntas _ _ (columna_tm p) H); [now apply in_map|].
    apply in_or_app. left. rewrite E. now apply in_map.
  - intros x q Hx Hq E. apply NoDup_app_remove_l in H.
    apply (NoDup_app_disjuntas _ _ (columna_de_referencia x) H);
      [now apply in_map|]. rewrite E. now apply in_map.
Qed.

(** ** The composed genotype *)

Lemma genotipo_desde_spec (row : fila) (poss : list string) (idx : nat)
  (genotipo : list string) (celdas : list value) :
  mapM (fun pos => fila_get (columna_estado pos) row) poss = Ok celdas ->
  (forall v, In v celdas ->
             v = VNone \/ exists e, v = VStr e /\ In e ESTADOS) ->
  genotipo_desde row idx poss genotipo
  = Ok (if existsb es_None celdas then NO_DETERMINADO
        else String.concat "" (genotipo ++ tokens_desde idx (cadenas celdas))%list).
Proof.
  revert idx genotipo celdas; induction poss as [|pos poss IH];
    intros idx genotipo celdas H Hval; cbn [mapM] in H.
  - injection H as <-. cbn. now rewrite app_nil_r.
  - inv_bind H. inv_bind H. injection H as <-.
    cbn [genotipo_desde]. rewrite Ha. cbn [bind existsb].
    destruct (Hval a (or_introl eq_refl)) as [->|(e & -> & He)];
      [reflexivity|].
    cbn [es_None orb].
    rewrite (IH (S idx) _ a0 Ha0) by (intros v Hv; apply Hval; now right).
    destruct (existsb es_None a0); [reflexivity|].
    f_equal. f_equal. unfold cadenas. cbn [flat_map app tokens_desde].
    fold (cadenas a0). unfold token, eq_str.
    destruct He as [<-|[<-|[<-|[]]]]; cbn [String.eqb Ascii.eqb Bool.eqb];
      cbn; rewrite <- app_assoc; reflexivity.
Qed.

Lemma mapM_fila_get (f : string -> string) (poss : list string) (r : fila) :
  (forall pos, In pos poss -> exists v, dict_get (f pos) r = Some v) ->
  mapM (fun pos => fila_get (f pos) r) poss
  = Ok (map (fun pos => celda (f pos) r) poss).
Proof.
  induction poss as [|pos poss IH]; intros H; [reflexivity|]. cbn [mapM map].
  destruct (H pos (or_introl eq_refl)) as (v & Hv).
  unfold fila_get at 1, celda at 1. rewrite Hv. cbn [bind].
  rewrite IH by (intros q Hq; apply H; now right). reflexivity.
Qed.

Lemma estado_valido_ESTADOS (posiciones : dict (dict float)) (pos : string)
  (v : value) :
  bien_formado posiciones -> estado_valido posiciones pos v ->
  v = VNone \/ exists e, v = VStr e /\ In e ESTADOS.
Proof.
  intros (Hnd & Hbf) [->|(e & tm_dict & -> & Hget & He)]; [now left|].
  right. exists e. split; [reflexivity|].
  apply dict_get_In in Hget. now apply (Hbf pos tm_dict Hget).
Qed.

(** Whatever the position labels, a row that has its state columns gets
    as genotype the composition of its states. *)
Lemma genotipo_fila_componer (posiciones : dict (dict float)) (r : fila) :
  bien_formado posiciones ->
  (forall pos, In pos (keys posiciones) ->
     exists v, dict_get (columna_estado pos) r = Some v
               /\ estado_valido posiciones pos v) ->
  genotipo_fila posiciones r
  = Ok (VStr (componer (map (fun pos => celda (columna_estado pos) r)
                            (keys posiciones)))).
Proof.
  intros Hbf Hcells. unfold genotipo_fila, genotipo_resultante_dinamico.
  rewrite (genotipo_desde_spec r (keys posiciones) 0 []
             (map (fun pos => celda (columna_estado pos) r) (keys posiciones))).
  - reflexivity.
  - apply mapM_fila_get. intros pos Hpos.
    destruct (Hcells pos Hpos) as (v & Hv & _). eauto.
  - intros v Hv. apply in_map_iff in Hv. destruct Hv as (pos & <- & Hpos).
    destruct (Hcells pos Hpos) as (w & Hw & Hval). unfold celda. rewrite Hw.
    eapply estado_valido_ESTADOS; eauto.
Qed.

Lemma Forall2_comp {A B C} (R : A -> B -> Prop) (S : B -> C -> Prop)
  (xs : list A) (ys : list B) (zs : list C) :
  Forall2 R xs ys -> Forall2 S ys zs ->
  Forall2 (fun x z => exists y, R x y /\ S y z) xs zs.
Proof.
  intros H. revert zs. induction H as [|x y xs ys Hxy _ IH]; intros zs Hs;
    inversion Hs; subst; constructor; eauto.
Qed.

Lemma In_cols_resultado_tm (posiciones : dict (dict float)) (pos : string) :
  In pos (keys posiciones) -> In (columna_tm pos) (cols_resultado posiciones).
Proof.
  intros H. unfold cols_resultado. apply in_or_app. left. now apply in_map.
Qed.

Lemma In_cols_resultado_genotipo (posiciones : dict (dict float)) :
  1 < List.length posiciones ->
  In GENOTIPO_RESULTANTE (cols_resultado posiciones).
Proof.
  intros H. unfold cols_resultado. apply Nat.ltb_lt in H. rewrite H.
  apply in_or_app. right. apply in_or_app. right. now left.
Qed.

(** ** Tokens in a genotype string *)

Lemma append_vacio (s : string) : (s ++ "")%string = s.
Proof. induction s as [|c s IH]; [reflexivity | cbn; now rewrite IH]. Qed.

Lemma concat_cons (t : string) (ts : list string) :
  String.concat "" (t :: ts) = (t ++ String.concat "" ts)%string.
Proof.
  destruct ts as [|t' ts]; cbn [String.concat];
    [now rewrite append_vacio | reflexivity].
Qed.

(** With single-digit locus numbers, a token at the head of a string is
    found by [count] exactly when it is the token sought, and the search
    resumes right after it. *)
Lemma count_token (i : nat) (e a r : string) :
  1 <= i <= 9 -> In e ESTADOS -> In a (alelos_posibles 9) ->
  count_desde a (token i e ++ r) 0
  = (if (a =? token i e)%string then 1 else 0) + count_desde a r 0.
Proof.
  intros Hi He Ha.
  assert (Hi' : i = 1 \/ i = 2 \/ i = 3 \/ i = 4 \/ i = 5 \/ i = 6 \/ i = 7
                \/ i = 8 \/ i = 9) by lia.
  assert (Hp : prefix "" r = true) by now destruct r.
  clear Hi. vm_compute in Ha.
  destruct He as [<-|[<-|[<-|[]]]];
    repeat (destruct Hi' as [-> | Hi']); try subst i;
    repeat (destruct Ha as [<- | Ha]); try contradiction;
    first [vm_compute; reflexivity | cbn; rewrite Hp; reflexivity].
Qed.

Lemma count_tokens (a : string) (es : list string) (idx : nat) :
  idx + List.length es <= 9 ->
  (forall e, In e es -> In e ESTADOS) ->
  In a (alelos_posibles 9) ->
  count (String.concat "" (tokens_desde idx es)) a
  = veces a (tokens_desde idx es).
Proof.
  revert idx; induction es as [|e es IH]; intros idx Hlen Hes Ha;
    [reflexivity|].
  cbn [List.length] in Hlen. cbn [tokens_desde].
  rewrite concat_cons, veces_cons. unfold count.
  rewrite count_token; [|lia|apply Hes; now left|assumption].
  f_equal. apply (IH (S idx)); [lia| |assumption].
  intros e' He'. apply Hes. now right.
Qed.

Lemma tokens_no_indeterminado (es : list string) (idx : nat) :
  (forall e, In e es -> In e ESTADOS) ->
  (String.concat "" (tokens_desde idx es) =? NO_DETERMINADO)%string = false.
Proof.
  intros Hes. destruct es as [|e es]; [reflexivity|].
  cbn [tokens_desde]. rewrite concat_cons.
  destruct (Hes e (or_introl eq_refl)) as [<-|[<-|[<-|[]]]]; reflexivity.
Qed.

Lemma cadenas_validas (estados : list value) :
  (forall v, In v estados ->
             v = VNone \/ exists e, v = VStr e /\ In e ESTADOS) ->
  List.length (cadenas estados) <= List.length estados
  /\ forall e, In e (cadenas estados) -> In e ESTADOS.
Proof.
  unfold cadenas. induction estados as [|v estados IH]; intros H.
  - split; [reflexivity | intros e []].
  - destruct IH as (IH1 & IH2); [intros w Hw; apply H; now right|].
    destruct (H v (or_introl eq_refl)) as [->|(e & -> & He)];
      cbn [flat_map app List.length].
    + split; [lia | assumption].
    + split; [lia|]. intros e' [<-|He']; [assumption | now apply IH2].
Qed.

(** With at most nine loci, what [count] finds in the genotype strings
    are the tokens of the samples. *)
Lemma ocurrencias_tokens (a : string) (muestras : list (list value)) :
  (forall estados, In estados muestras ->
     List.length estados <= 9
     /\ forall v, In v estados ->
                  v = VNone \/ exists e, v = VStr e /\ In e ESTADOS) ->
  In a (alelos_posibles 9) ->
  ocurrencias a (map componer muestras) = tokens_iguales a muestras.
Proof.
  intros H Ha. unfold ocurrencias, tokens_iguales.
  induction muestras as [|estados muestras IH]; [reflexivity|].
  assert (IH' := IH (fun es Hes => H es (or_intror Hes))).
  destruct (H estados (or_introl eq_refl)) as (Hlen & Hval).
  destruct (cadenas_validas estados Hval) as (Hl & Hes).
  cbn [map filter]. unfold tokens_de_muestra at 1.
  destruct (existsb es_None estados) eqn:E.
  - replace (componer estados) with NO_DETERMINADO
      by (unfold componer; now rewrite E).
    rewrite String.eqb_refl. cbn [negb]. rewrite IH'. reflexivity.
  - replace (componer estados)
      with (String.concat "" (tokens_desde 0 (cadenas estados)))
      by (unfold componer; now rewrite E).
    rewrite tokens_no_indeterminado by assumption.
    cbn [negb map]. change (list_sum (?x :: ?l)) with (x + list_sum l).
    rewrite IH'.
    rewrite count_tokens by (try assumption; cbn; lia).
    reflexivity.
Qed.

Lemma alelos_posibles_mono (n m : nat) (a : string) :
  n <= m -> In a (alelos_posibles n) -> In a (alelos_posibles m).
Proof.
  intros Hnm Ha. apply In_alelos_posibles. apply In_alelos_posibles in Ha.
  destruct Ha as [->|(i & Hi & Ha)]; [now left|].
  right. exists i. split; [lia | assumption].
Qed.

Lemma cadenas_celdas (c : string) (f : fila -> string) (l : DataFrame) :
  (forall row, In row l -> dict_get c row = Some (VStr (f row))) ->
  cadenas (map (celda c) l) = map f l.
Proof.
  unfold cadenas. induction l as [|row l IH]; intros H; [reflexivity|].
  cbn [map flat_map]. unfold celda at 1. rewrite (H row (or_introl eq_refl)).
  cbn [app]. f_equal. apply IH. intros r Hr. apply H. now right.
Qed.

Lemma length_tokens_desde (es : list string) (idx : nat) :
  List.length (tokens_desde idx es) = List.length es.
Proof.
  revert idx. induction es as [|e es IH]; intros idx; [reflexivity|].
  cbn [tokens_desde List.length]. now rewrite IH.
Qed.

Lemma estados_determinados (row : fila) (poss : list string) :
  (forall pos, In pos poss ->
     dict_get (columna_estado pos) row
     = Some (celda (columna_estado pos) row)) ->
  (forall v, In v (map (fun pos => celda (columna_estado pos) row) poss) ->
     v = VNone \/ exists e, v = VStr e /\ In e ESTADOS) ->
  existsb es_None (map (fun pos => celda (columna_estado pos) row) poss)
  = false ->
  map (fun pos => dict_get (columna_estado pos) row) poss
  = map (fun e => Some (VStr e))
        (cadenas (map (fun pos => celda (columna_estado pos) row) poss))
  /\ List.length
       (cadenas (map (fun pos => celda (columna_estado pos) row) poss))
     = List.length poss.
Proof.
  induction poss as [|pos poss IH]; intros Hcell Hval E; [split; reflexivity|].
  cbn [map existsb] in E. apply orb_false_elim in E. destruct E as (E1 & E2).
  destruct IH as (IH1 & IH2); try assumption.
  - intros p Hp. apply Hcell. now right.
  - intros v Hv. apply Hval. now right.
  - cbn [map]. rewrite (Hcell pos (or_introl eq_refl)).
    destruct (Hval (celda (columna_estado pos) row) (or_introl eq_refl))
      as [Hv|(e & Hv & _)]; rewrite Hv in *; [discriminate|].
    unfold cadenas in *. cbn [flat_map app map List.length].
    rewrite IH1, IH2. split; reflexivity.
Qed.

(** ** The distribution of genotypes *)

Lemma Counter_keys_desde (xs : list string) (acc : dict nat) :
  keys (fold_left (fun c x => dict_set x (S (contador x c)) c) xs acc)
  = fold_left paso_aparicion xs (keys acc).
Proof.
  revert acc. induction xs as [|x xs IH]; intros acc; [reflexivity|].
  cbn [fold_left]. rewrite IH, keys_dict_set. reflexivity.
Qed.

Lemma Counter_keys (xs : list string) :
  keys (Counter xs) = primeras_apariciones xs.
Proof. apply Counter_keys_desde. Qed.

Lemma resumen_multiple_lineas (posiciones : dict (dict float)) (df : DataFrame)
  (col : list value) (genotipos : list string) :
  columna GENOTIPO_RESULTANTE df = Ok col ->
  mapM as_str col = Ok genotipos ->
  resumen_multiple posiciones df
  = Ok (ResumenGenotipos
          (lineas_de (List.length df) (Counter genotipos))
          (lineas_por_alelo (alelos_posibles (List.length posiciones))
                            genotipos)).
Proof.
  intros Hcol Hstr. unfold resumen_multiple. rewrite Hcol. cbn [bind].
  rewrite Hstr. cbn [bind].
  assert (L : List.length genotipos = List.length df).
  { rewrite (mapM_length _ _ _ Hstr). eapply mapM_length; exact Hcol. }
  assert (Hd : distribucion (Counter genotipos) (List.length df)
               = Ok (lineas_de (List.length df) (Counter genotipos))).
  { destruct genotipos as [|g gs]; [reflexivity|].
    apply distribucion_Ok. cbn in L. lia. }
  rewrite Hd. cbn [bind].
  rewrite resumen_alelos_spec by apply NoDup_alelos_posibles. reflexivity.
Qed.

Lemma porcentaje_exacto_todo (n : nat) :
  n <> 0 -> (porcentaje_exacto n n == 100)%Q.
Proof.
  intros Hn. unfold porcentaje_exacto. field.
  intros H. unfold Qeq in H. simpl in H. lia.
Qed.

(** ** The total of the per-allele table *)

Lemma suma_de_porcentajes (f : string -> nat) (l : list string) (total : nat) :
  total <> 0 ->
  (suma_Q (map (fun a => porcentaje_exacto (f a) total) l)
   == porcentaje_exacto (list_sum (map f l)) total)%Q.
Proof.
  intros Ht.
  assert (Hq : ~ (inject_Z (Z.of_nat total) == 0)%Q).
  { intros H. unfold Qeq in H. simpl in H. lia. }
  induction l as [|a l IH]; simpl.
  - unfold porcentaje_exacto. simpl. field. assumption.
  - rewrite IH. unfold porcentaje_exacto.
    rewrite Nat2Z.inj_add, inject_Z_plus. field. assumption.
Qed.

Lemma suma_por_alelo (alelos genotipos : list string) :
  0 < total_ocurrencias alelos genotipos ->
  (suma_Q (porcentajes_exactos (total_ocurrencias alelos genotipos)
             (lineas_por_alelo alelos genotipos)) == 100)%Q.
Proof.
  intros Hpos. unfold lineas_por_alelo, porcentajes_exactos.
  rewrite map_map. cbn [fst snd].
  rewrite (suma_de_porcentajes (fun a => ocurrencias a genotipos)) by lia.
  fold (total_ocurrencias alelos genotipos).
  apply porcentaje_exacto_todo. lia.
Qed.

Lemma suma_indicador (l : list string) (t : string) :
  NoDup l -> In t l ->
  list_sum (map (fun a => if (a =? t)%string then 1 else 0) l) = 1.
Proof.
  intros Hnd. induction Hnd as [|x l Hx _ IH]; intros Hin; [destruct Hin|].
  cbn [map list_sum fold_right].
  change (fold_right Nat.add 0 ?m) with (list_sum m).
  destruct (String.eqb_spec x t) as [->|Hne].
  - assert (E : list_sum (map (fun a => if (a =? t)%string then 1 else 0) l) = 0).
    { clear IH Hin. induction l as [|y l IHl]; [reflexivity|].
      cbn [map list_sum fold_right].
      change (fold_right Nat.add 0 ?m) with (list_sum m).
      destruct (String.eqb_spec y t) as [->|_]; [exfalso; apply Hx; now left|].
      apply IHl. intros H. apply Hx. now right. }
    rewrite E. reflexivity.
  - destruct Hin as [->|Hin]; [congruence|]. now rewrite IH.
Qed.

Lemma list_sum_mas {A} (f g : A -> nat) (l : list A) :
  list_sum (map (fun a => f a + g a) l)
  = list_sum (map f l) + list_sum (map g l).
Proof.
  induction l as [|a l IH]; [reflexivity|]. cbn [map list_sum fold_right].
  change (fold_right Nat.add 0 ?m) with (list_sum m) in *. rewrite IH. lia.
Qed.

Lemma suma_veces (l ts : list string) :
  NoDup l -> (forall t, In t ts -> In t l) ->
  list_sum (map (fun a => veces a ts) l) = List.length ts.
Proof.
  intros Hnd. induction ts as [|t ts IH]; intros Hin.
  - cbn [List.length]. induction l as [|a l IHl]; [reflexivity|].
    inversion Hnd; subst. cbn [map list_sum fold_right].
    change (fold_right Nat.add 0 ?m) with (list_sum m). now rewrite IHl.
  - rewrite (map_ext _ (fun a => (if (a =? t)%string then 1 else 0)
                                 + veces a ts))
      by (intros a; apply veces_cons).
    rewrite list_sum_mas, suma_indicador, IH; auto.
    + intros t' Ht'. apply Hin. now right.
    + apply Hin. now left.
Qed.

Lemma tokens_desde_alelos (n : nat) (es : list string) (idx : nat) :
  idx + List.length es <= n ->
  (forall e, In e es -> In e ESTADOS) ->
  forall t, In t (tokens_desde idx es) -> In t (alelos_posibles n).
Proof.
  revert idx. induction es as [|e es IH]; intros idx Hlen Hes t Ht;
    [destruct Ht|].
  cbn [List.length] in Hlen. cbn [tokens_desde] in Ht.
  destruct Ht as [<-|Ht].
  - apply In_alelos_posibles.
    destruct (Hes e (or_introl eq_refl)) as [<-|[<-|[<-|[]]]].
    + now left.
    + right. exists (idx + 1). split; [lia|]. now left.
    + right. exists (idx + 1). split; [lia|]. now right.
  - apply (IH (S idx)); [lia| |assumption].
    intros e' He'. apply Hes. now right.
Qed.

Lemma cadenas_determinadas (estados : list value) :
  (forall v, In v estados ->
             v = VNone \/ exists e, v = VStr e /\ In e ESTADOS) ->
  existsb es_None estados = false ->
  List.length (cadenas estados) = List.length estados.
Proof.
  unfold cadenas. induction estados as [|v estados IH]; intros H E;
    [reflexivity|].
  cbn [existsb] in E. apply orb_false_elim in E. destruct E as (E1 & E2).
  destruct (H v (or_introl eq_refl)) as [->|(e & -> & _)]; [discriminate|].
  cbn [flat_map app List.length]. rewrite IH; auto.
  intros w Hw. apply H. now right.
Qed.

(** Every sample with all its states determined has one token for each
    locus, and the tokens are among those of the per-allele table. *)
Lemma suma_tokens (n : nat) (muestras : list (list value)) :
  (forall estados, In estados muestras ->
     List.length estados = n
     /\ forall v, In v estados ->
                  v = VNone \/ exists e, v = VStr e /\ In e ESTADOS) ->
  list_sum (map (fun a => tokens_iguales a muestras) (alelos_posibles n))
  = n * List.length
          (filter (fun estados => negb (existsb es_None estados)) muestras).
Proof.
  induction muestras as [|m ms IH]; intros H.
  - cbn [filter List.length]. rewrite Nat.mul_0_r. unfold tokens_iguales.
    cbn [map list_sum fold_right].
    induction (alelos_posibles n) as [|a l IHl]; [reflexivity|].
    cbn [map list_sum fold_right]. exact IHl.
  - destruct (H m (or_introl eq_refl)) as (Hlen & Hval).
    rewrite (map_ext _ (fun a => veces a (tokens_de_muestra m)
                                 + tokens_iguales a ms))
      by reflexivity.
    rewrite list_sum_mas, IH by (intros es Hes; apply H; now right).
    cbn [filter]. unfold tokens_de_muestra.
    destruct (existsb es_None m) eqn:E; cbn [negb List.length].
    + rewrite suma_veces; [reflexivity | apply NoDup_alelos_posibles|].
      intros t [].
    + destruct (cadenas_validas m Hval) as (_ & Hes).
      rewrite suma_veces; [|apply NoDup_alelos_posibles|].
      * rewrite length_tokens_desde, (cadenas_determinadas m Hval E), Hlen.
        lia.
      * apply tokens_desde_alelos; [|assumption].
        rewrite (cadenas_determinadas m Hval E). lia.
Qed.

Lemma length_filter_map {A B} (f : A -> B) (p : B -> bool) (l : list A) :
  List.length (filter p (map f l))
  = List.length (filter (fun a => p (f a)) l).
Proof.
  induction l as [|a l IH]; [reflexivity|]. cbn [map filter].
  destruct (p (f a)); cbn [List.length]; now rewrite IH.
Qed.

Lemma resumen_simple_lineas (pos : string) (tm_dict : dict float)
  (df : DataFrame) (col : list value) :
  columna (columna_estado pos) df = Ok col ->
  columna_de_estados col ->
  resumen [(pos, tm_dict)] df
  = Ok (ResumenEstados pos
          (lineas_de (List.length df) (Counter (cadenas col)))).
Proof.
  intros Hcol Hest.
  assert (Hlen : List.length col = List.length df)
    by (eapply mapM_length; exact Hcol).
  unfold resumen, resumen_simple. simpl. rewrite Hcol. simpl.
  rewrite (as_str_dropna col Hest). simpl.
  destruct (Nat.eq_dec (List.length df) 0) as [Hz|Hnz].
  - assert (col = []) by (destruct col; [reflexivity | simpl in Hlen; lia]).
    subst col. reflexivity.
  - rewrite (distribucion_Ok _ _ Hnz). reflexivity.
Qed.

(** ** Columns of the table written *)

Lemma columna_seleccionada (cols : list string) (df res : DataFrame)
  (c : string) (P : value -> Prop) :
  Forall2 (fun fila row => seleccionar_fila cols fila = Ok row) df res ->
  In c cols ->
  (forall fila, In fila df -> exists v, dict_get c fila = Some v /\ P v) ->
  columna c df = Ok (map (celda c) res)
  /\ forall v, In v (map (celda c) res) -> P v.
Proof.
  unfold columna. intros H Hc.
  induction H as [|fila row df res Hs _ IH]; intros Hcells.
  - split; [reflexivity | intros v []].
  - destruct IH as (IH1 & IH2); [intros f Hf; apply Hcells; now right|].
    destruct (Hcells fila (or_introl eq_refl)) as (v & Hv & HP).
    assert (E : celda c row = v).
    { unfold celda. now rewrite (seleccionar_fila_get _ _ _ _ Hs Hc), Hv. }
    split.
    + cbn [mapM map]. unfold fila_get at 1. rewrite Hv. cbn [bind].
      rewrite IH1. cbn [bind]. now rewrite E.
    + cbn [map]. intros w [<-|Hw]; [now rewrite E | now apply IH2].
Qed.

Lemma as_str_cadenas (col : list value) :
  (forall v, In v col -> exists g, v = VStr g) ->
  mapM as_str col = Ok (cadenas col)
  /\ List.length (cadenas col) = List.length col.
Proof.
  unfold cadenas. induction col as [|v col IH]; intros H.
  - split; reflexivity.
  - destruct IH as (IH1 & IH2); [intros w Hw; apply H; now right|].
    destruct (H v (or_introl eq_refl)) as (g & ->).
    cbn [mapM as_str bind flat_map app]. rewrite IH1. cbn [bind].
    split; [reflexivity|]. cbn [List.length]. now rewrite IH2.
Qed.

(** ** Rows that are processed to the end *)

Lemma mapM_total {A B} (f : A -> result B) (xs : list A) :
  (forall x, In x xs -> exists y, f x = Ok y) -> exists ys, mapM f xs = Ok ys.
Proof.
  induction xs as [|x xs IH]; intros H; [now exists []|].
  destruct (H x (or_introl eq_refl)) as (y & Hy).
  destruct IH as (ys & Hys); [intros z Hz; apply H; now right|].
  exists (y :: ys). cbn [mapM]. rewrite Hy. cbn [bind]. now rewrite Hys.
Qed.

Lemma seleccionar_fila_total (cols : list string) (row : fila) :
  (forall c, In c cols -> exists v, dict_get c row = Some v) ->
  exists row', seleccionar_fila cols row = Ok row'.
Proof.
  intros H. apply mapM_total. intros c Hc. destruct (H c Hc) as (v & Hv).
  exists (c, v). unfold fila_get. now rewrite Hv.
Qed.

Lemma referencias_In (posiciones : dict (dict float))
  (x : string * (string * float)) :
  In x (referencias posiciones) ->
  exists tm_dict, In (fst x, tm_dict) posiciones /\ In (snd x) tm_dict.
Proof.
  unfold referencias. intros H. apply in_flat_map in H.
  destruct H as ((pos & tm_dict) & Hp & Hx). apply in_map_iff in Hx.
  destruct Hx as (er & <- & Her). exists tm_dict. auto.
Qed.

(** The differences do not fail on measured columns that hold numbers:
    whatever column they overwrite, they overwrite it with a number. *)
Lemma fila_diferencias_total (refs : list (string * (string * float)))
  (row : fila) :
  (forall x, In x refs ->
     exists t, dict_get (columna_tm (fst x)) row = Some (VFloat t)) ->
  exists row', foldM (fun row x => paso_diferencia x row) refs row = Ok row'.
Proof.
  revert row. induction refs as [|x refs IH]; intros row H; [now exists row|].
  destruct (H x (or_introl eq_refl)) as (t & Ht).
  cbn [foldM]. unfold paso_diferencia at 1, paso, diferencia_absoluta, fila_get.
  rewrite Ht. cbn [bind as_float].
  apply IH. intros y Hy. destruct (H y (or_intror Hy)) as (t' & Ht').
  destruct (String.eqb_spec (columna_tm (fst y))
              (columna_diff (fst x) (fst (snd x)))) as [E|E].
  - rewrite E, dict_get_set_eq. eauto.
  - rewrite dict_get_set_ne by assumption. eauto.
Qed.

Lemma genotipo_por_posicion_total (posiciones : dict (dict float)) (r : fila)
  (pos : string) (tm_dict : dict float) (t : float) :
  dict_get pos posiciones = Some tm_dict -> tm_dict <> [] ->
  dict_get (columna_tm pos) r = Some (VFloat t) ->
  (forall e ref, In (e, ref) tm_dict ->
     dict_get (columna_diff pos e) r = Some (VFloat (abs_diff t ref))) ->
  exists v, genotipo_por_posicion posiciones r pos = Ok v.
Proof.
  intros Hd Hne Ht Hdiff. unfold genotipo_por_posicion, fila_get.
  rewrite Ht. cbn [bind isna]. destruct (isnan t); [eauto|].
  rewrite Hd. cbn [bind].
  pose proof (diffs_flotantes pos r t tm_dict Hdiff) as Hm.
  unfold fila_get in Hm. rewrite Hm. cbn [bind].
  destruct (min_por_valor_flotantes
              (map (fun '(e, ref) => (e, abs_diff t ref)) tm_dict))
    as (pre & e & d & post & _ & Hmin & _).
  { destruct tm_dict as [|[e ref] l]; [congruence | discriminate]. }
  rewrite Hmin. cbn [bind]. eauto.
Qed.

Lemma fila_estados_total (posiciones : dict (dict float)) (poss : list string)
  (row : fila) :
  (forall pos, In pos poss ->
     exists tm_dict t,
       dict_get pos posiciones = Some tm_dict /\ tm_dict <> []
       /\ dict_get (columna_tm pos) row = Some (VFloat t)
       /\ forall e ref, In (e, ref) tm_dict ->
            dict_get (columna_diff pos e) row
            = Some (VFloat (abs_diff t ref))) ->
  (forall p q tm_dict e,
     In p poss -> In q poss -> dict_get q posiciones = Some tm_dict ->
     In e (keys tm_dict) -> columna_diff q e <> columna_estado p) ->
  exists row', fila_estados posiciones poss row = Ok row'.
Proof.
  unfold fila_estados. revert row.
  induction poss as [|pos poss IH]; intros row H Hne; [now exists row|].
  destruct (H pos (or_introl eq_refl)) as (tm_dict & t & Hd & Hnv & Ht & Hdiff).
  destruct (genotipo_por_posicion_total _ _ _ _ _ Hd Hnv Ht Hdiff) as (v & Hv).
  cbn [foldM]. unfold paso_estado at 1, paso. rewrite Hv. cbn [bind].
  apply IH.
  - intros q Hq.
    destruct (H q (or_intror Hq)) as (d & t' & Hd' & Hnv' & Ht' & Hdiff').
    exists d, t'. split; [assumption|]. split; [assumption|]. split.
    + rewrite dict_get_set_ne by apply columna_tm_estado. assumption.
    + intros e ref He. rewrite dict_get_set_ne; [now apply Hdiff'|].
      apply (Hne pos q d e); [now left | now right | assumption|].
      change e with (fst (e, ref)). now apply in_map.
  - intros p q d e Hp Hq. apply Hne; now right.
Qed.

Lemma apariciones_crecen (xs acc : list string) :
  List.length acc <= List.length (fold_left paso_aparicion xs acc).
Proof.
  revert acc. induction xs as [|x xs IH]; intros acc; [reflexivity|].
  cbn [fold_left]. etransitivity; [|apply IH]. unfold paso_aparicion.
  destruct (existsb (String.eqb x) acc); [reflexivity|].
  rewrite length_app. lia.
Qed.

Lemma NoDup_map_iny {A B} (f : A -> B) (l : list A) :
  (forall a b, f a = f b -> a = b) -> NoDup l -> NoDup (map f l).
Proof.
  intros Hf H. induction H as [|x l Hx _ IH]; cbn [map]; constructor;
    [|assumption].
  intros Hin. apply in_map_iff in Hin. destruct Hin as (y & Hy & Hin).
  apply Hf in Hy. now subst y.
Qed.

Lemma NoDup_cols_resultado (posiciones : dict (dict float)) :
  NoDup (keys posiciones) -> NoDup (cols_resultado posiciones).
Proof.
  intros Hnd. unfold cols_resultado.
  apply NoDup_app; [apply NoDup_map_iny; [apply columna_tm_inj | assumption]| |].
  - apply NoDup_app;
      [apply NoDup_map_iny; [apply columna_estado_inj | assumption]| |].
    + destruct (1 <? List.length posiciones)%nat; repeat constructor.
      intros [].
    + intros c Hc Hg. apply in_map_iff in Hc. destruct Hc as (p & <- & _).
      destruct (1 <? List.length posiciones)%nat; [|destruct Hg].
      destruct Hg as [Hg|[]]. symmetry in Hg.
      now apply columna_estado_genotipo in Hg.
  - intros c Hc Hc'. apply in_map_iff in Hc. destruct Hc as (p & <- & _).
    apply in_app_or in Hc'. destruct Hc' as [Hc'|Hc'].
    + apply in_map_iff in Hc'. destruct Hc' as (q & Hq & _). symmetry in Hq.
      now apply columna_tm_estado in Hq.
    + destruct (1 <? List.length posiciones)%nat; [|destruct Hc'].
      destruct Hc' as [Hg|[]]. symmetry in Hg.
      now apply columna_tm_genotipo in Hg.
Qed.

Lemma seleccionar_fila_celdas (cols : list string) (row row' : fila) :
  seleccionar_fila cols row = Ok row' ->
  row' = map (fun c => (c, celda c row)) cols.
Proof.
  unfold seleccionar_fila. revert row'.
  induction cols as [|c cols IH]; intros row' H; cbn [mapM] in H.
  - now injection H as <-.
  - inv_bind H. inv_bind H. inv_bind Ha. injection Ha as <-.
    injection H as <-. cbn [map]. rewrite <- (IH _ Ha0).
    apply fila_get_Ok in Ha1. unfold celda. now rewrite Ha1.
Qed.

Lemma Forall2_trasladar {A A' B} (Q : A -> A' -> Prop) (R : A -> B -> Prop)
  (R' : A' -> B -> Prop) (xs : list A) (xs' : list A') (ys : list B) :
  (forall x x' y, Q x x' -> R x y -> R' x' y) ->
  Forall2 Q xs xs' -> Forall2 R xs ys -> Forall2 R' xs' ys.
Proof.
  intros H HQ. revert ys. induction HQ as [|x x' xs xs' Hx _ IH]; intros ys HR;
    inversion HR; subst; constructor; eauto.
Qed.

(** ** Splitting *)

Lemma split_sin (c : ascii) (a : string) :
  sin_caracter c a = true -> split c a = [a].
Proof.
  induction a as [|x a IH]; intros H; [reflexivity|].
  cbn [sin_caracter] in H. apply andb_prop in H. destruct H as (Hx & Ha).
  cbn [split]. apply negb_true_iff in Hx. rewrite Hx, (IH Ha). reflexivity.
Qed.

Lemma split_app (c : ascii) (a b : string) :
  sin_caracter c a = true ->
  split c (a ++ String c b) = a :: split c b.
Proof.
  induction a as [|x a IH]; intros H.
  - cbn. now rewrite Ascii.eqb_refl.
  - cbn [sin_caracter] in H. apply andb_prop in H. destruct H as (Hx & Ha).
    cbn [append split]. apply negb_true_iff in Hx. rewrite Hx, (IH Ha).
    reflexivity.
Qed.

Lemma split1_app (c : ascii) (a b : string) :
  sin_caracter c a = true ->
  split1 c (a ++ String c b) = [a; b].
Proof.
  induction a as [|x a IH]; intros H.
  - cbn. now rewrite Ascii.eqb_refl.
  - cbn [sin_caracter] in H. apply andb_prop in H. destruct H as (Hx & Ha).
    cbn [append split1]. apply negb_true_iff in Hx. rewrite Hx, (IH Ha).
    reflexivity.
Qed.

(** ** Labels that keep the columns apart *)

Lemma append_sin_iny (c : ascii) (a a' b b' : string) :
  sin_caracter c a = true -> sin_caracter c a' = true ->
  (a ++ String c b)%string = (a' ++ String c b')%string ->
  a = a' /\ b = b'.
Proof.
  revert a'. induction a as [|x a IH]; intros [|x' a'] Ha Ha' E;
    cbn [append sin_caracter] in *.
  - injection E as <-. auto.
  - injection E as <- _. rewrite Ascii.eqb_refl in Ha'. discriminate.
  - injection E as -> _. rewrite Ascii.eqb_refl in Ha. discriminate.
  - injection E as <- E. apply andb_prop in Ha, Ha'.
    destruct (IH a' (proj2 Ha) (proj2 Ha') E) as (-> & ->). auto.
Qed.

Lemma columna_diff_iny (pos pos' e e' : string) :
  sin_caracter "_" pos = true -> sin_caracter "_" pos' = true ->
  columna_diff pos e = columna_diff pos' e' -> pos = pos' /\ e = e'.
Proof. intros H H'. unfold columna_diff. cbn. now apply append_sin_iny. Qed.

Lemma NoDup_referencias (posiciones : dict (dict float)) :
  NoDup (keys posiciones) ->
  (forall pos d, In (pos, d) posiciones -> NoDup (keys d)) ->
  (forall pos, In pos (keys posiciones) -> sin_caracter "_" pos = true) ->
  NoDup (map columna_de_referencia (referencias posiciones)).
Proof.
  induction posiciones as [|[pos d] rest IH]; intros Hnd Hd Hsin;
    [constructor|].
  cbn [keys map fst] in Hnd, Hsin. inversion Hnd as [|? ? Hpos Hrest]; subst.
  unfold referencias. cbn [flat_map]. rewrite map_app.
  fold (referencias rest). apply NoDup_app.
  - rewrite map_map.
    rewrite (map_ext _ (fun x => columna_diff pos (fst x)))
      by (now intros [e r]).
    rewrite <- (map_map fst (columna_diff pos)).
    apply NoDup_map_iny; [|apply (Hd pos d); now left].
    intros e e' E.
    apply (columna_diff_iny pos pos e e') in E; [tauto| |];
      apply Hsin; now left.
  - apply IH; [assumption| |].
    + intros p d' Hp. apply (Hd p d'). now right.
    + intros p Hp. apply Hsin. now right.
  - intros c Hc Hc'. apply in_map_iff in Hc. destruct Hc as (x & <- & Hx).
    apply in_map_iff in Hx. destruct Hx as ([e r] & <- & _).
    apply in_map_iff in Hc'. destruct Hc' as (y & Hy & Hin).
    destruct (referencias_In _ _ Hin) as (d' & Hd' & _).
    assert (Hq : In (fst y) (keys rest))
      by (change (fst y) with (fst (fst y, d')); now apply in_map).
    unfold columna_de_referencia in Hy. cbn [fst snd] in Hy.
    apply columna_diff_iny in Hy;
      [|apply Hsin; now right | apply Hsin; now left].
    destruct Hy as (Hy & _). rewrite Hy in Hq. contradiction.
Qed.

(** X15.  Position labels that have no underscore and are neither "Tm"
    nor "Estado", such as the numbers of the help text, keep the measured
    columns, the difference columns and the state columns of the table
    apart: no column written by the script overwrites another. *)
Theorem etiquetas_llanas (posiciones : dict (dict float)) :
  bien_formado posiciones ->
  (forall pos, In pos (keys posiciones) -> etiqueta_llana pos) ->
  sin_homonimas posiciones.
Proof.
  intros (Hnd & Hbf) Hll. unfold sin_homonimas, columnas.
  assert (Hsin : forall pos, In pos (keys posiciones) ->
                   sin_caracter "_" pos = true)
    by (intros pos Hpos; apply (Hll pos Hpos)).
  assert (Href : forall x, In x (referencias posiciones) ->
                   etiqueta_llana (fst x)).
  { intros x Hx. destruct (referencias_In _ _ Hx) as (d & Hd & _).
    apply Hll. change (fst x) with (fst (fst x, d)). now apply in_map. }
  apply NoDup_app; [apply NoDup_map_iny; [apply columna_tm_inj | assumption]| |].
  - apply NoDup_app.
    + apply NoDup_referencias; try assumption.
      intros pos d Hd. now apply (Hbf pos d Hd).
    + apply NoDup_map_iny; [apply columna_estado_inj | assumption].
    + intros c Hc Hc'. apply in_map_iff in Hc. destruct Hc as (x & <- & Hx).
      apply in_map_iff in Hc'. destruct Hc' as (q & Hq & _).
      destruct (Href x Hx) as (Hs & _ & Hne). apply Hne.
      unfold columna_de_referencia, columna_diff, columna_estado in Hq.
      change ("Estado_" ++ q)%string with ("Estado" ++ String "_" q)%string in Hq.
      change (fst x ++ "_" ++ fst (snd x))%string
        with (fst x ++ String "_" (fst (snd x)))%string in Hq.
      symmetry in Hq. apply append_sin_iny in Hq; [tauto | assumption|].
      reflexivity.
  - intros c Hc Hc'. apply in_map_iff in Hc. destruct Hc as (p & <- & _).
    apply in_app_or in Hc'. destruct Hc' as [Hc'|Hc'].
    + apply in_map_iff in Hc'. destruct Hc' as (x & Hq & Hx).
      destruct (Href x Hx) as (Hs & Hne & _). apply Hne.
      unfold columna_de_referencia, columna_diff, columna_tm in Hq.
      change ("Tm_" ++ p)%string with ("Tm" ++ String "_" p)%string in Hq.
      change (fst x ++ "_" ++ fst (snd x))%string
        with (fst x ++ String "_" (fst (snd x)))%string in Hq.
      apply append_sin_iny in Hq; [tauto | assumption|]. reflexivity.
    + apply in_map_iff in Hc'. destruct Hc' as (q & Hq & _). symmetry in Hq.
      now apply columna_tm_estado in Hq.
Qed.

Section Referencias.

Variable py_float : string -> option float.

Set Default Proof Using "Type".


Lemma procesar_estado_Ok (tm_dict tm_dict' : dict float) (est : string) :
  procesar_estado py_float tm_dict est = Ok tm_dict' ->
  exists estado valor f clave,
    split ":" est = [estado; valor]
    /\ py_float valor = Some f
    /\ normalizar_estado (strip estado) = Ok clave
    /\ tm_dict' = dict_set clave f tm_dict.
Proof.
  unfold procesar_estado, desempaquetar2, float_.
  destruct (split ":" est) as [|estado [|valor [|? ?]]]; simpl; try discriminate.
  destruct (py_float valor) as [f|] eqn:Ef; simpl; [|discriminate].
  destruct (normalizar_estado (strip estado)) as [clave|] eqn:E; simpl;
    [|discriminate].
  intros [= <-]. exists estado, valor, f, clave. auto.
Qed.

Lemma procesar_estados_keys (ests : list string) (d d' : dict float) :
  foldM (procesar_estado py_float) ests d = Ok d' ->
  NoDup (keys d) -> (forall k, In k (keys d) -> In k ESTADOS) ->
  NoDup (keys d') /\ (forall k, In k (keys d') -> In k ESTADOS)
  /\ (forall k, In k (keys d) -> In k (keys d')).
Proof.
  revert d; induction ests as [|est ests IH]; intros d H Hnd Hk; simpl in H.
  - injection H as <-. auto.
  - inv_bind H. apply procesar_estado_Ok in Ha.
    destruct Ha as (estado & valor & f & clave & _ & _ & Hn & ->).
    apply IH in H.
    + destruct H as (H1 & H2 & H3). split; [assumption|]. split; [assumption|].
      intros k Hin. apply H3. apply In_keys_dict_set. now right.
    + now apply NoDup_keys_dict_set.
    + intros k Hin. apply In_keys_dict_set in Hin. destruct Hin as [->|Hin].
      * eapply normalizar_estado_ESTADOS; eauto.
      * auto.
Qed.

Lemma procesar_tm_entry_Ok (posiciones posiciones' : dict (dict float))
  (tm_entry : string) :
  procesar_tm_entry py_float posiciones tm_entry = Ok posiciones' ->
  exists estados_str tm_dict,
    split1 ":" tm_entry = [etiqueta tm_entry; estados_str]
    /\ foldM (procesar_estado py_float) (split "," estados_str) [] = Ok tm_dict
    /\ posiciones' = dict_set (etiqueta tm_entry) tm_dict posiciones.
Proof.
  unfold procesar_tm_entry, procesar_tm_entry_try, desempaquetar2, etiqueta.
  destruct (split1 ":" tm_entry) as [|pos [|estados_str [|? ?]]]; simpl;
    try discriminate.
  destruct (foldM (procesar_estado py_float) (split "," estados_str) [])
    as [tm_dict|] eqn:E; simpl; [|discriminate].
  intros [= <-]. exists estados_str, tm_dict. auto.
Qed.

Lemma procesar_estados_mono (ests : list string) (d d' : dict float) (k : string) :
  foldM (procesar_estado py_float) ests d = Ok d' ->
  In k (keys d) -> In k (keys d').
Proof.
  revert d; induction ests as [|est ests IH]; intros d H Hin; simpl in H.
  - now injection H as <-.
  - inv_bind H. apply procesar_estado_Ok in Ha.
    destruct Ha as (estado & valor & f & clave & _ & _ & _ & ->).
    eapply IH; [exact H|]. apply In_keys_dict_set. now right.
Qed.

Lemma procesar_estados_no_vacio (ests : list string) (d d' : dict float) :
  foldM (procesar_estado py_float) ests d = Ok d' -> ests <> [] -> d' <> [].
Proof.
  destruct ests as [|est ests]; [congruence|]. intros H _. simpl in H.
  inv_bind H. apply procesar_estado_Ok in Ha.
  destruct Ha as (estado & valor & f & clave & _ & _ & _ & ->).
  assert (Hin : In clave (keys d')).
  { eapply procesar_estados_mono; [exact H|]. apply In_keys_dict_set. now left. }
  intros ->. exact Hin.
Qed.

Lemma procesar_tm_desde (tm : list string) (acc posiciones : dict (dict float)) :
  foldM (procesar_tm_entry py_float) tm acc = Ok posiciones ->
  bien_formado acc ->
  bien_formado posiciones
  /\ keys posiciones = fold_left paso_aparicion (map etiqueta tm) (keys acc).
Proof.
  revert acc; induction tm as [|tm_entry tm IH]; intros acc H Hbf; simpl in H.
  - injection H as <-. auto.
  - inv_bind H. apply procesar_tm_entry_Ok in Ha.
    destruct Ha as (estados_str & tm_dict & _ & Hd & ->).
    apply IH in H.
    + destruct H as (H1 & H2). split; [assumption|].
      rewrite H2. simpl. now rewrite keys_dict_set.
    + destruct Hbf as (Hnd & Hin). split.
      * now apply NoDup_keys_dict_set.
      * intros pos d Hpd. apply In_dict_set in Hpd.
        destruct Hpd as [[-> ->]|Hpd]; [|exact (Hin _ _ Hpd)].
        assert (Hne : tm_dict <> []).
        { eapply procesar_estados_no_vacio; [exact Hd | apply split_no_vacio]. }
        apply procesar_estados_keys in Hd; [|constructor | simpl; tauto].
        destruct Hd as (Hd1 & Hd2 & _). auto.
Qed.

Lemma procesar_tm_bien_formado (tm : list string) (posiciones : dict (dict float)) :
  procesar_tm py_float tm = Ok posiciones -> bien_formado posiciones.
Proof.
  intros H. apply procesar_tm_desde in H; [tauto|].
  split; [constructor | intros ? ? []].
Qed.

(** C3 (as amended).  When the [-t] arguments parse, the loci of the mapping
    are the distinct position labels of the arguments in the order of their
    first appearance: there are at most as many loci as arguments, and
    exactly as many if and only if no label is repeated.  The mapping is a
    function of the argument sequence. *)
Theorem numero_de_loci (tm : list string) (posiciones : dict (dict float)) :
  procesar_tm py_float tm = Ok posiciones ->
  keys posiciones = primeras_apariciones (map etiqueta tm)
  /\ List.length posiciones <= List.length tm
  /\ (List.length posiciones = List.length tm <-> NoDup (map etiqueta tm))
  /\ (forall posiciones', procesar_tm py_float tm = Ok posiciones' ->
        posiciones' = posiciones).
Proof.
  intros H.
  assert (Hk : keys posiciones = primeras_apariciones (map etiqueta tm)).
  { apply procesar_tm_desde in H; [tauto|].
    split; [constructor | intros ? ? []]. }
  assert (Hl : List.length posiciones = List.length (keys posiciones))
    by (unfold keys; now rewrite length_map).
  destruct (primeras_apariciones_spec (map etiqueta tm)) as (_ & H2 & H3).
  rewrite length_map in H2, H3. rewrite <- Hk in H2, H3.
  split; [assumption|]. split; [lia|]. split; [now rewrite Hl|].
  intros posiciones' H'. congruence.
Qed.

Lemma procesar_estado_no_reconocido (tm_dict : dict float)
  (est estado valor : string) (f : float) :
  split ":" est = [estado; valor] ->
  py_float valor = Some f ->
  clave_por_inicial (strip estado) = None ->
  procesar_estado py_float tm_dict est = Err (EstadoNoReconocido (strip estado)).
Proof.
  intros Hs Hf Hc. unfold procesar_estado, float_. rewrite Hs. simpl.
  rewrite Hf. simpl. rewrite normalizar_estado_spec, Hc. reflexivity.
Qed.

(** C5 (as amended).  A state token is normalised by its first letter,
    whatever its case: s gives "Sensible", h "Heterocigoto", r "Resistente",
    and any other token is refused.  When the parser reaches such a token
    (everything before it parsed, and the value paired with it is a number),
    the run fails with the format error that names the [-t] entry and the
    token as typed, without its surrounding blanks. *)
Theorem estado_por_primera_letra :
  (forall estado,
      normalizar_estado estado
      = match clave_por_inicial estado with
        | Some clave => Ok clave
        | None => Err (EstadoNoReconocido estado)
        end)
  /\ forall (antes despues : list string) (acc : dict (dict float))
       (tm_entry pos estados_str : string) (previos resto : list string)
       (tm_dict : dict float) (est estado valor : string) (f : float),
      foldM (procesar_tm_entry py_float) antes [] = Ok acc ->
      split1 ":" tm_entry = [pos; estados_str] ->
      split "," estados_str = (previos ++ est :: resto)%list ->
      foldM (procesar_estado py_float) previos [] = Ok tm_dict ->
      split ":" est = [estado; valor] ->
      py_float valor = Some f ->
      clave_por_inicial (strip estado) = None ->
      let e := ErrorFormato tm_entry (EstadoNoReconocido (strip estado)) in
      procesar_tm py_float (antes ++ tm_entry :: despues)%list = Err e
      /\ mensaje e
         = Some ("Error en formato de -t '" ++ tm_entry ++ "': Estado '"
                 ++ strip estado ++ "' no reconocido.").
Proof.
  split; [exact normalizar_estado_spec|].
  intros antes despues acc tm_entry pos estados_str previos resto tm_dict
         est estado valor f Hantes Hs1 Hs Hprev Hest Hf Hc e.
  split; [|reflexivity].
  unfold procesar_tm. rewrite foldM_app, Hantes. simpl.
  unfold procesar_tm_entry, procesar_tm_entry_try. rewrite Hs1. simpl.
  rewrite Hs, foldM_app, Hprev. simpl.
  rewrite (procesar_estado_no_reconocido _ _ _ _ _ Hest Hf Hc). reflexivity.
Qed.

(** ** Where the states of a locus come from *)

Lemma procesar_estados_origen (ests : list string) (d0 d : dict float)
  (e : string) :
  foldM (procesar_estado py_float) ests d0 = Ok d ->
  In e (keys d) ->
  In e (keys d0)
  \/ exists est token valor,
      In est ests /\ split ":" est = [token; valor]
      /\ clave_por_inicial (strip token) = Some e.
Proof.
  revert d0; induction ests as [|est ests IH]; intros d0 H Hin; cbn [foldM] in H.
  - injection H as <-. now left.
  - inv_bind H. apply procesar_estado_Ok in Ha.
    destruct Ha as (token & valor & f & clave & Hs & _ & Hn & ->).
    destruct (IH _ H Hin) as [Hk|(est' & token' & valor' & H1 & H2 & H3)].
    + apply In_keys_dict_set in Hk. destruct Hk as [->|Hk]; [|now left].
      right. exists est, token, valor. split; [now left|]. split; [assumption|].
      rewrite normalizar_estado_spec in Hn.
      destruct (clave_por_inicial (strip token)); [congruence | discriminate].
    + right. exists est', token', valor'. split; [now right | auto].
Qed.

Lemma procesar_tm_origen (tm : list string) (acc posiciones : dict (dict float))
  (pos : string) (d : dict float) :
  foldM (procesar_tm_entry py_float) tm acc = Ok posiciones ->
  In (pos, d) posiciones ->
  In (pos, d) acc
  \/ exists tm_entry estados_str,
      In tm_entry tm /\ split1 ":" tm_entry = [pos; estados_str]
      /\ foldM (procesar_estado py_float) (split "," estados_str) [] = Ok d.
Proof.
  revert acc; induction tm as [|tm_entry tm IH]; intros acc H Hin;
    cbn [foldM] in H.
  - injection H as <-. now left.
  - inv_bind H. apply procesar_tm_entry_Ok in Ha.
    destruct Ha as (estados_str & tm_dict & Hs & Hd & ->).
    destruct (IH _ H Hin) as [Hk|(tm_entry' & estados_str' & H1 & H2)].
    + apply In_dict_set in Hk. destruct Hk as [[-> ->]|Hk]; [|now left].
      right. exists tm_entry, estados_str. split; [now left | auto].
    + right. exists tm_entry', estados_str'. split; [now right | auto].
Qed.

Lemma procesar_tm_suministrado (tm : list string)
  (posiciones : dict (dict float)) (pos e : string) (tm_dict : dict float) :
  procesar_tm py_float tm = Ok posiciones ->
  In (pos, tm_dict) posiciones -> In e (keys tm_dict) ->
  suministrado tm pos e.
Proof.
  intros H Hin He.
  destruct (procesar_tm_origen _ _ _ _ _ H Hin)
    as [[]|(tm_entry & estados_str & H1 & H2 & H3)].
  destruct (procesar_estados_origen _ _ _ _ H3 He)
    as [[]|(est & token & valor & H4 & H5 & H6)].
  exists tm_entry, estados_str, est, token, valor. auto.
Qed.

Lemma procesar_tm_entry_try_acc (acc acc' : dict (dict float))
  (tm_entry : string) (e : error) :
  procesar_tm_entry_try py_float acc tm_entry = Err e ->
  procesar_tm_entry_try py_float acc' tm_entry = Err e.
Proof.
  unfold procesar_tm_entry_try.
  destruct (desempaquetar2 (split1 ":" tm_entry)) as [[pos estados_str]|e'];
    cbn [bind]; [|auto].
  destruct (foldM (procesar_estado py_float) (split "," estados_str) []);
    cbn [bind]; [discriminate | auto].
Qed.

Lemma procesar_tm_entry_try_Ok (acc acc' : dict (dict float))
  (tm_entry : string) (p : dict (dict float)) :
  procesar_tm_entry_try py_float acc tm_entry = Ok p ->
  exists p', procesar_tm_entry_try py_float acc' tm_entry = Ok p'.
Proof.
  unfold procesar_tm_entry_try.
  destruct (desempaquetar2 (split1 ":" tm_entry)) as [[pos estados_str]|e'];
    cbn [bind]; [|discriminate].
  destruct (foldM (procesar_estado py_float) (split "," estados_str) []);
    cbn [bind]; [eauto | discriminate].
Qed.

Lemma procesar_tm_Err (tm : list string) (acc : dict (dict float)) (e : error) :
  foldM (procesar_tm_entry py_float) tm acc = Err e ->
  exists tm_entry e', In tm_entry tm /\ e = ErrorFormato tm_entry e'.
Proof.
  revert acc; induction tm as [|tm_entry tm IH]; intros acc; cbn [foldM];
    [discriminate|].
  intros H. apply bind_Err in H. destruct H as [H|(p & _ & H)].
  - unfold procesar_tm_entry in H.
    destruct (procesar_tm_entry_try py_float acc tm_entry); [discriminate|].
    injection H as <-. exists tm_entry, e0. split; [now left | reflexivity].
  - destruct (IH _ H) as (t & e' & H1 & H2). exists t, e'.
    split; [now right | assumption].
Qed.

Lemma procesar_tm_mal_formada (tm : list string) (acc : dict (dict float)) :
  (exists tm_entry, In tm_entry tm /\ mal_formada py_float tm_entry) ->
  exists tm_entry e,
    In tm_entry tm
    /\ foldM (procesar_tm_entry py_float) tm acc = Err (ErrorFormato tm_entry e).
Proof.
  revert acc; induction tm as [|t tm IH]; intros acc (t0 & Hin & e0 & Hmal);
    [destruct Hin|]. cbn [foldM]. unfold procesar_tm_entry at 1.
  destruct (procesar_tm_entry_try py_float acc t) as [p|e] eqn:E; cbn [bind].
  - destruct Hin as [->|Hin].
    + apply (procesar_tm_entry_try_acc _ acc) in Hmal. congruence.
    + destruct (IH p) as (t1 & e1 & H1 & H2).
      { exists t0. split; [assumption | exists e0; assumption]. }
      exists t1, e1. split; [now right | assumption].
  - exists t, e. split; [now left | reflexivity].
Qed.

Lemma procesar_tm_no_vacio (tm : list string) (posiciones : dict (dict float)) :
  procesar_tm py_float tm = Ok posiciones -> tm <> [] -> posiciones <> [].
Proof.
  intros H Hne Hp. apply procesar_tm_desde in H;
    [|split; [constructor | intros ? ? []]].
  destruct H as (_ & Hk). subst posiciones. cbn in Hk.
  destruct tm as [|x tm]; [congruence|]. cbn [map fold_left] in Hk.
  pose proof (apariciones_crecen (map etiqueta tm)
                (paso_aparicion [] (etiqueta x))) as L.
  rewrite <- Hk in L. cbn in L. lia.
Qed.

(** ** Which argument and which pair a reference value comes from *)

Lemma procesar_estados_ultimo (ests : list string) (d0 d : dict float)
  (e : string) (f : float) :
  foldM (procesar_estado py_float) ests d0 = Ok d ->
  dict_get e d = Some f ->
  (dict_get e d0 = Some f /\ forall est, In est ests -> ~ nombra est e)
  \/ exists previos est resto token valor,
      ests = (previos ++ est :: resto)%list
      /\ split ":" est = [token; valor]
      /\ clave_por_inicial (strip token) = Some e
      /\ py_float valor = Some f
      /\ forall est', In est' resto -> ~ nombra est' e.
Proof.
  revert d0. induction ests as [|est ests IH]; intros d0 H Hget;
    cbn [foldM] in H.
  - injection H as <-. left. split; [assumption | intros est []].
  - inv_bind H. apply procesar_estado_Ok in Ha.
    destruct Ha as (estado & valor & f1 & clave & Hs & Hf & Hn & ->).
    rewrite normalizar_estado_spec in Hn.
    destruct (clave_por_inicial (strip estado)) as [k|] eqn:Hk;
      [injection Hn as ->|discriminate].
    destruct (IH _ H Hget) as [(Hget1 & Hno)|
                               (previos & est' & resto & token & valor' & -> & R)].
    + destruct (String.eqb_spec e clave) as [->|Hne].
      * rewrite dict_get_set_eq in Hget1. injection Hget1 as <-.
        right. exists [], est, ests, estado, valor. auto.
      * rewrite dict_get_set_ne in Hget1 by assumption.
        left. split; [assumption|]. intros x [<-|Hx]; [|now apply Hno].
        intros (token & valor' & Hs' & Hk').
        rewrite Hs in Hs'. injection Hs' as <- <-. congruence.
    + right. exists (est :: previos), est', resto, token, valor'.
      split; [reflexivity | exact R].
Qed.

Lemma procesar_tm_ultima (tm : list string) (acc posiciones : dict (dict float))
  (pos : string) (d : dict float) :
  foldM (procesar_tm_entry py_float) tm acc = Ok posiciones ->
  dict_get pos posiciones = Some d ->
  (dict_get pos acc = Some d /\ ~ In pos (map etiqueta tm))
  \/ exists antes tm_entry despues estados_str,
      tm = (antes ++ tm_entry :: despues)%list
      /\ split1 ":" tm_entry = [pos; estados_str]
      /\ ~ In pos (map etiqueta despues)
      /\ foldM (procesar_estado py_float) (split "," estados_str) [] = Ok d.
Proof.
  revert acc. induction tm as [|x tm IH]; intros acc H Hget; cbn [foldM] in H.
  - injection H as <-. left. split; [assumption | intros []].
  - inv_bind H. apply procesar_tm_entry_Ok in Ha.
    destruct Ha as (estados_str & dx & Hs & Hd & ->).
    destruct (IH _ H Hget) as [(Hget1 & Hno)|
                               (antes & y & despues & str & -> & R)].
    + destruct (String.eqb_spec pos (etiqueta x)) as [E|Hne].
      * rewrite E, dict_get_set_eq in Hget1. injection Hget1 as <-.
        right. exists [], x, tm, estados_str. rewrite E.
        split; [reflexivity|]. split; [assumption|].
        split; [now rewrite <- E | assumption].
      * rewrite dict_get_set_ne in Hget1 by assumption.
        left. split; [assumption|]. cbn [map]. intros [Hx|Hx]; auto.
    + right. exists (x :: antes), y, despues, str.
      split; [reflexivity | exact R].
Qed.

(** X5.  The reference value of a state at a locus comes from the last
    [-t] argument that carries the position label of the locus, and in it
    from the last pair whose token names the state: an earlier argument for
    the same position is dropped whole, and an earlier pair for the same
    state is replaced. *)
Theorem valor_de_referencia (tm : list string) (posiciones : dict (dict float))
  (pos : string) (tm_dict : dict float) :
  procesar_tm py_float tm = Ok posiciones ->
  In (pos, tm_dict) posiciones ->
  exists antes tm_entry despues estados_str,
    tm = (antes ++ tm_entry :: despues)%list
    /\ split1 ":" tm_entry = [pos; estados_str]
    /\ ~ In pos (map etiqueta despues)
    /\ forall e f, In (e, f) tm_dict ->
         exists previos est resto token valor,
           split "," estados_str = (previos ++ est :: resto)%list
           /\ split ":" est = [token; valor]
           /\ clave_por_inicial (strip token) = Some e
           /\ py_float valor = Some f
           /\ forall est', In est' resto -> ~ nombra est' e.
Proof.
  intros H Hin.
  pose proof (procesar_tm_bien_formado _ _ H) as (Hnd & Hbf).
  pose proof (In_dict_get _ _ _ Hnd Hin) as Hget.
  destruct (procesar_tm_ultima _ _ _ _ _ H Hget)
    as [(Habs & _)|(antes & x & despues & str & -> & Hs & Hno & Hd)];
    [discriminate|].
  exists antes, x, despues, str. split; [reflexivity|].
  split; [assumption|]. split; [assumption|].
  intros e f Hef.
  destruct (Hbf pos tm_dict Hin) as (Hnd' & _).
  pose proof (In_dict_get _ _ _ Hnd' Hef) as Hget'.
  destruct (procesar_estados_ultimo _ _ _ _ _ Hd Hget')
    as [(Habs & _)|R]; [discriminate | exact R].
Qed.

(** ** How the parser fails *)

Lemma procesar_estado_Err (d : dict float) (est : string) (e : error) :
  procesar_estado py_float d est = Err e -> error_de_parser e.
Proof.
  unfold procesar_estado, float_, normalizar_estado.
  destruct (split ":" est) as [|a [|b [|c l]]]; cbn;
    try (intros [= <-]; cbn; lia).
  destruct (py_float b); cbn; [|intros [= <-]; exact I].
  repeat match goal with
         | |- context [if ?c then _ else _] => destruct c; cbn
         end; try discriminate.
  intros [= <-]. exact I.
Qed.

Lemma procesar_estados_Err (ests : list string) (d : dict float) (e : error) :
  foldM (procesar_estado py_float) ests d = Err e -> error_de_parser e.
Proof.
  revert d. induction ests as [|est ests IH]; intros d H; cbn [foldM] in H;
    [discriminate|].
  apply bind_Err in H. destruct H as [H|(d' & _ & H)];
    [eapply procesar_estado_Err | eapply IH]; eauto.
Qed.

Lemma procesar_tm_entry_try_Err (acc : dict (dict float)) (tm_entry : string)
  (e : error) :
  procesar_tm_entry_try py_float acc tm_entry = Err e -> error_de_parser e.
Proof.
  unfold procesar_tm_entry_try.
  destruct (split1 ":" tm_entry) as [|a [|b [|c l]]]; cbn;
    try (intros [= <-]; cbn; lia).
  destruct (foldM (procesar_estado py_float) (split "," b) []) eqn:E; cbn;
    [discriminate|].
  intros [= <-]. eapply procesar_estados_Err; eauto.
Qed.

Lemma procesar_tm_primera_falla (tm : list string) (acc0 : dict (dict float))
  (e : error) :
  foldM (procesar_tm_entry py_float) tm acc0 = Err e ->
  exists antes tm_entry despues acc e',
    tm = (antes ++ tm_entry :: despues)%list
    /\ foldM (procesar_tm_entry py_float) antes acc0 = Ok acc
    /\ procesar_tm_entry_try py_float acc tm_entry = Err e'
    /\ e = ErrorFormato tm_entry e'.
Proof.
  revert acc0. induction tm as [|x tm IH]; intros acc0 H; cbn [foldM] in H;
    [discriminate|].
  apply bind_Err in H. destruct H as [H|(acc1 & H1 & H)].
  - unfold procesar_tm_entry in H.
    destruct (procesar_tm_entry_try py_float acc0 x) as [|e'] eqn:E;
      [discriminate|].
    injection H as <-. exists [], x, tm, acc0, e'. auto.
  - destruct (IH _ H) as (antes & y & despues & acc & e' & -> & Ha & R).
    exists (x :: antes), y, despues, acc, e'. split; [reflexivity|].
    split; [|exact R]. cbn [foldM]. now rewrite H1.
Qed.

(** X6.  When the parser fails, it fails at the first [-t] argument it
    cannot read: the arguments before it parse, that argument fails by
    itself, and the error is the format error that carries the argument and
    the error raised inside, which is an unpacking of other than two parts,
    a value that is no number or a state that is not recognised. *)
Theorem error_de_formato (tm : list string) (e : error) :
  procesar_tm py_float tm = Err e ->
  exists antes tm_entry despues acc e',
    tm = (antes ++ tm_entry :: despues)%list
    /\ procesar_tm py_float antes = Ok acc
    /\ procesar_tm_entry_try py_float [] tm_entry = Err e'
    /\ error_de_parser e'
    /\ e = ErrorFormato tm_entry e'.
Proof.
  intros H. destruct (procesar_tm_primera_falla _ _ _ H)
    as (antes & x & despues & acc & e' & -> & Ha & He & ->).
  exists antes, x, despues, acc, e'. split; [reflexivity|].
  split; [exact Ha|]. split; [eapply procesar_tm_entry_try_acc; eauto|].
  split; [eapply procesar_tm_entry_try_Err; eauto | reflexivity].
Qed.

(** ** The documented format *)

Lemma procesar_estado_par (d : dict float) (letra : ascii) (valor clave : string)
  (f : float) :
  sin_caracter ":" (String letra "") = true ->
  sin_caracter ":" valor = true ->
  py_float valor = Some f ->
  clave_por_inicial (strip (String letra "")) = Some clave ->
  procesar_estado py_float d (String letra (String ":" valor))
  = Ok (dict_set clave f d).
Proof.
  intros Hl Hv Hf Hk. unfold procesar_estado, float_.
  change (String letra (String ":" valor))
    with (String letra "" ++ String ":" valor).
  rewrite (split_app ":" _ _ Hl), (split_sin ":" _ Hv).
  cbn [desempaquetar2 bind]. rewrite Hf. cbn [bind].
  rewrite normalizar_estado_spec, Hk. reflexivity.
Qed.

(** X14.  An argument in the format the help text gives,
    POS:S:VAL,H:VAL,R:VAL, with a position label that has no colon and
    values that [float] reads, is parsed: the locus POS gets the three states
    with these values, in this order. *)
Theorem formato_documentado (acc : dict (dict float)) (pos v1 v2 v3 : string)
  (f1 f2 f3 : float) :
  sin_caracter ":" pos = true ->
  sin_caracter ":" v1 = true -> sin_caracter "," v1 = true ->
  sin_caracter ":" v2 = true -> sin_caracter "," v2 = true ->
  sin_caracter ":" v3 = true -> sin_caracter "," v3 = true ->
  py_float v1 = Some f1 -> py_float v2 = Some f2 -> py_float v3 = Some f3 ->
  procesar_tm_entry py_float acc
    (pos ++ ":S:" ++ v1 ++ ",H:" ++ v2 ++ ",R:" ++ v3)
  = Ok (dict_set pos
          [("Sensible", f1); ("Heterocigoto", f2); ("Resistente", f3)] acc).
Proof.
  intros Hpos H1 H1' H2 H2' H3 H3' Hf1 Hf2 Hf3.
  unfold procesar_tm_entry, procesar_tm_entry_try.
  change (pos ++ ":S:" ++ v1 ++ ",H:" ++ v2 ++ ",R:" ++ v3)
    with (pos ++ String ":" ("S:" ++ v1 ++ ",H:" ++ v2 ++ ",R:" ++ v3)).
  rewrite (split1_app ":" _ _ Hpos). cbn [desempaquetar2 bind].
  change ("S:" ++ v1 ++ ",H:" ++ v2 ++ ",R:" ++ v3)
    with (("S:" ++ v1) ++ String "," (("H:" ++ v2) ++ String "," ("R:" ++ v3))).
  rewrite !split_app by (cbn; assumption).
  rewrite split_sin.
  - cbn [foldM append].
    rewrite (procesar_estado_par [] "S" v1 "Sensible" f1); auto.
    cbn [bind].
    rewrite (procesar_estado_par _ "H" v2 "Heterocigoto" f2); auto.
    cbn [bind].
    rewrite (procesar_estado_par _ "R" v3 "Resistente" f3); auto.
  - cbn. assumption.
Qed.

End Referencias.

Section Tabla.

Variable to_numeric_texto : string -> option float.

Set Default Proof Using "Type".

Lemma verificar_columnas_desde (columns poss : list string) (df df' : DataFrame)
  (usadas usadas' : list string) :
  foldM (verificar_columna to_numeric_texto columns) poss (df, usadas)
  = Ok (df', usadas')
  <-> (forall pos, In pos poss -> In (columna_tm pos) columns)
      /\ usadas' = (usadas ++ map columna_tm poss)%list
      /\ foldM (fun d pos =>
                  asignar (columna_tm pos)
                          (a_numerico to_numeric_texto (columna_tm pos)) d)
               poss df = Ok df'.
Proof.
  revert df usadas; induction poss as [|pos poss IH]; intros df usadas;
    cbn [foldM map In].
  - rewrite app_nil_r. split.
    + intros [= <- <-]. tauto.
    + intros (_ & -> & [= <-]). reflexivity.
  - unfold verificar_columna at 1.
    destruct (existsb (String.eqb (columna_tm pos)) columns) eqn:E;
      cbn [negb bind].
    + apply existsb_eqb_In in E.
      destruct (asignar (columna_tm pos)
                  (a_numerico to_numeric_texto (columna_tm pos)) df)
        as [df1|e]; cbn [bind].
      * rewrite IH. rewrite <- app_assoc. cbn [app].
        split; intros (H1 & H2 & H3); (split; [|split]); auto.
        intros p [<-|Hp]; auto.
      * split; [discriminate | intros (_ & _ & [=])].
    + split; [discriminate|]. intros (H & _). exfalso.
      assert (Hin : In (columna_tm pos) columns) by (apply H; now left).
      apply existsb_eqb_In in Hin. congruence.
Qed.

(** The script on the table is the script on each of its rows. *)
Lemma clasificar_filas (posiciones : dict (dict float)) (h : Hoja)
  (df : DataFrame) (cols : list string) :
  clasificar to_numeric_texto posiciones h = Ok (df, cols)
  <-> (forall pos, In pos (keys posiciones) ->
                   In (columna_tm pos) (encabezado h))
      /\ cols = cols_resultado posiciones
      /\ Forall2 (fun row0 row =>
                    procesar_fila to_numeric_texto posiciones row0 = Ok row)
                 (read_excel h) df.
Proof.
  set (f1 := fila_numerica to_numeric_texto (keys posiciones)).
  set (f2 := seleccionar_fila (map columna_tm (keys posiciones))).
  set (f3 := fila_diferencias posiciones).
  set (f4 := fila_estados posiciones (keys posiciones)).
  set (f5 := fila_genotipo posiciones).
  assert (Hp : forall row0,
             procesar_fila to_numeric_texto posiciones row0
             = bind (f1 row0) (fun r1 => bind (f2 r1) (fun r2 =>
                 bind (f3 r2) (fun r3 => bind (f4 r3) f5))))
    by reflexivity.
  assert (E1 : forall d d',
             foldM (fun d pos =>
                      asignar (columna_tm pos)
                        (a_numerico to_numeric_texto (columna_tm pos)) d)
                   (keys posiciones) d = Ok d'
             <-> Forall2 (fun x y => f1 x = Ok y) d d').
  { intros d d'. apply (foldM_mapM (paso_numerico to_numeric_texto)). }
  assert (E2 : forall d d',
             seleccionar (map columna_tm (keys posiciones)) d = Ok d'
             <-> Forall2 (fun x y => f2 x = Ok y) d d').
  { intros d d'. apply mapM_Forall2. }
  assert (E3 : forall d d',
             calcular_diferencias posiciones d = Ok d'
             <-> Forall2 (fun x y => f3 x = Ok y) d d').
  { intros d d'. rewrite calcular_diferencias_plano. apply foldM_mapM. }
  assert (E4 : forall d d',
             asignar_estados posiciones d = Ok d'
             <-> Forall2 (fun x y => f4 x = Ok y) d d').
  { intros d d'. apply (foldM_mapM (paso_estado posiciones)). }
  assert (E5 : forall d d',
             (if (1 <? List.length posiciones)%nat
              then asignar GENOTIPO_RESULTANTE (genotipo_fila posiciones) d
              else Ok d) = Ok d'
             <-> Forall2 (fun x y => f5 x = Ok y) d d').
  { intros d d'. unfold f5, fila_genotipo.
    destruct (1 <? List.length posiciones)%nat.
    - apply mapM_Forall2.
    - rewrite Forall2_eq_Ok. split; [now intros [= ->] | now intros ->]. }
  unfold clasificar, verificar_columnas, cols_resultado.
  split.
  - intros H. apply bind_Ok in H. destruct H as ([df1 usadas] & H1 & H).
    apply verificar_columnas_desde in H1. destruct H1 as (Hcols & -> & H1).
    cbn [app] in H. apply bind_Ok in H. destruct H as (df2 & H2 & H).
    apply bind_Ok in H. destruct H as (df3 & H3 & H).
    apply bind_Ok in H. destruct H as (df4 & H4 & H).
    split; [assumption|].
    assert (H5 : (if (1 <? List.length posiciones)%nat
                  then asignar GENOTIPO_RESULTANTE (genotipo_fila posiciones) df4
                  else Ok df4) = Ok df
                 /\ cols = (map columna_tm (keys posiciones)
                            ++ map columna_estado (keys posiciones)
                            ++ (if (1 <? List.length posiciones)%nat
                                then [GENOTIPO_RESULTANTE] else []))%list).
    { destruct (1 <? List.length posiciones)%nat.
      - apply bind_Ok in H. destruct H as (df5 & H5 & [= <- <-]).
        split; [assumption | now rewrite <- app_assoc].
      - injection H as <- <-. split; [reflexivity | now rewrite app_nil_r]. }
    destruct H5 as (H5 & ->). split; [reflexivity|].
    apply E1 in H1. apply E2 in H2. apply E3 in H3. apply E4 in H4.
    apply E5 in H5.
    eapply Forall2_impl; [intros a b Hab; rewrite Hp; exact Hab|].
    apply Forall2_bind. exists df1. split; [assumption|].
    apply Forall2_bind. exists df2. split; [assumption|].
    apply Forall2_bind. exists df3. split; [assumption|].
    apply Forall2_bind. exists df4. split; assumption.
  - intros (Hcols & -> & H).
    eapply Forall2_impl in H; [|intros a b Hab; rewrite Hp in Hab; exact Hab].
    apply Forall2_bind in H. destruct H as (df1 & H1 & H).
    apply Forall2_bind in H. destruct H as (df2 & H2 & H).
    apply Forall2_bind in H. destruct H as (df3 & H3 & H).
    apply Forall2_bind in H. destruct H as (df4 & H4 & H5).
    apply E1 in H1. apply E2 in H2. apply E3 in H3. apply E4 in H4.
    apply E5 in H5.
    assert (Hv : foldM (verificar_columna to_numeric_texto (encabezado h))
                   (keys posiciones) (read_excel h, [])
                 = Ok (df1, map columna_tm (keys posiciones))).
    { apply verificar_columnas_desde. auto. }
    rewrite Hv. cbn [bind]. rewrite H2. cbn [bind]. rewrite H3. cbn [bind].
    rewrite H4. cbn [bind].
    destruct (1 <? List.length posiciones)%nat.
    + rewrite H5. cbn [bind]. now rewrite <- app_assoc.
    + injection H5 as ->. now rewrite app_nil_r.
Qed.

Lemma procesar_fila_estado (posiciones : dict (dict float)) (row0 row : fila)
  (pos : string) :
  procesar_fila to_numeric_texto posiciones row0 = Ok row ->
  NoDup (keys posiciones) -> In pos (keys posiciones) ->
  exists v, dict_get (columna_estado pos) row = Some v
            /\ estado_valido posiciones pos v.
Proof.
  unfold procesar_fila. intros H Hnd Hin.
  apply bind_Ok in H. destruct H as (r1 & _ & H).
  apply bind_Ok in H. destruct H as (r2 & _ & H).
  apply bind_Ok in H. destruct H as (r3 & _ & H).
  apply bind_Ok in H. destruct H as (r4 & H4 & H).
  destruct (fila_estados_celdas _ _ _ _ _ H4 Hnd Hin) as (v & Hv & Hval).
  exists v. split; [|assumption].
  unfold fila_genotipo in H. destruct (1 <? List.length posiciones)%nat.
  - apply paso_Ok in H. destruct H as (g & _ & ->).
    rewrite dict_get_set_ne by apply columna_estado_genotipo. assumption.
  - now injection H as <-.
Qed.

Lemma asignar_numerico_Ok (columns : list string) (df : DataFrame) (pos : string) :
  tiene_columnas columns df -> In (columna_tm pos) columns ->
  exists df', asignar (columna_tm pos)
                (a_numerico to_numeric_texto (columna_tm pos)) df = Ok df'
              /\ tiene_columnas columns df'.
Proof.
  unfold tiene_columnas, asignar. intros H Hin.
  induction H as [|row df Hrow _ (df' & IH1 & IH2)].
  - exists []. split; [reflexivity | constructor].
  - pose proof (Hrow _ Hin) as Hk. apply dict_get_In_keys in Hk.
    destruct Hk as (v & Hv).
    exists (dict_set (columna_tm pos) (VFloat (to_numeric to_numeric_texto v)) row
            :: df').
    split.
    + cbn [mapM]. rewrite IH1. unfold paso, a_numerico, fila_get. rewrite Hv.
      reflexivity.
    + constructor; [|assumption]. intros c Hc.
      apply In_keys_dict_set. right. now apply Hrow.
Qed.

Lemma verificar_columnas_falta (columns antes despues : list string)
  (pos : string) (df : DataFrame) (usadas : list string) :
  tiene_columnas columns df ->
  (forall p, In p antes -> In (columna_tm p) columns) ->
  ~ In (columna_tm pos) columns ->
  foldM (verificar_columna to_numeric_texto columns)
        (antes ++ pos :: despues)%list (df, usadas)
  = Err (ColumnaFaltante (columna_tm pos)).
Proof.
  revert df usadas; induction antes as [|p antes IH]; intros df usadas Hdf Ha Hn;
    cbn [app foldM]; unfold verificar_columna at 1.
  - assert (E : existsb (String.eqb (columna_tm pos)) columns = false).
    { apply not_true_is_false. intros E. now apply existsb_eqb_In in E. }
    rewrite E. reflexivity.
  - assert (E : existsb (String.eqb (columna_tm p)) columns = true)
      by (apply existsb_eqb_In, Ha; now left).
    rewrite E. cbn [negb].
    destruct (asignar_numerico_Ok columns df p Hdf) as (df' & H1 & H2);
      [apply Ha; now left|].
    rewrite H1. cbn [bind]. apply IH; auto.
    intros q Hq. apply Ha. now right.
Qed.

Lemma clasificar_columna_faltante (posiciones : dict (dict float)) (h : Hoja) :
  (exists pos, In pos (keys posiciones)
               /\ ~ In (columna_tm pos) (encabezado h)) ->
  exists pos,
    In pos (keys posiciones) /\ ~ In (columna_tm pos) (encabezado h)
    /\ clasificar to_numeric_texto posiciones h
       = Err (ColumnaFaltante (columna_tm pos)).
Proof.
  intros H. apply primera_falta in H.
  destruct H as (antes & pos & despues & E & H1 & H2).
  exists pos. split; [rewrite E; apply in_elt|]. split; [assumption|].
  unfold clasificar, verificar_columnas. rewrite E.
  rewrite (verificar_columnas_falta _ _ _ _ _ _
             (tiene_columnas_read_excel h) H1 H2).
  reflexivity.
Qed.

(** ** The state of a sample at a locus *)

Lemma fila_numerica_marco (poss : list string) (row row' : fila) (c : string) :
  fila_numerica to_numeric_texto poss row = Ok row' ->
  (forall pos, In pos poss -> c <> columna_tm pos) ->
  dict_get c row' = dict_get c row.
Proof.
  unfold fila_numerica.
  revert row; induction poss as [|p poss IH]; intros row H Hc; cbn [foldM] in H.
  - now injection H as <-.
  - inv_bind H. unfold paso_numerico in Ha.
    apply paso_Ok in Ha. destruct Ha as (v & _ & ->).
    rewrite (IH _ H) by (intros q Hq; apply Hc; now right).
    apply dict_get_set_ne. apply Hc. now left.
Qed.

Lemma fila_numerica_celdas (poss : list string) (row row' : fila) (pos : string) :
  fila_numerica to_numeric_texto poss row = Ok row' ->
  NoDup poss -> In pos poss ->
  dict_get (columna_tm pos) row'
  = Some (VFloat (medido to_numeric_texto row pos)).
Proof.
  unfold fila_numerica, medido, celda.
  revert row; induction poss as [|p poss IH]; intros row H Hnd Hin;
    [destruct Hin|]. cbn [foldM] in H.
  inversion Hnd as [|? ? Hnotin Hnd']; subst.
  inv_bind H. unfold paso_numerico in Ha.
  apply paso_Ok in Ha. destruct Ha as (v & Hv & ->).
  unfold a_numerico in Hv. apply bind_Ok in Hv. destruct Hv as (w & Hw & [= <-]).
  apply fila_get_Ok in Hw.
  destruct Hin as [->|Hin].
  - rewrite (fila_numerica_marco poss _ row' _ H).
    + rewrite dict_get_set_eq, Hw. reflexivity.
    + intros q Hq E. apply columna_tm_inj in E. congruence.
  - rewrite (IH _ H Hnd' Hin). rewrite dict_get_set_ne; [reflexivity|].
    intros E. apply columna_tm_inj in E. congruence.
Qed.

(** For position labels that keep the columns apart, the script leaves
    under Tm_<pos> the measured Tm, and puts under Estado_<pos> nothing when
    the Tm is missing and otherwise the first of the nearest states. *)
Lemma fila_clasificada (posiciones : dict (dict float)) (row0 row : fila)
  (pos : string) (tm_dict : dict float) :
  bien_formado posiciones -> sin_homonimas posiciones ->
  procesar_fila to_numeric_texto posiciones row0 = Ok row ->
  In (pos, tm_dict) posiciones ->
  let t := medido to_numeric_texto row0 pos in
  dict_get (columna_tm pos) row = Some (VFloat t)
  /\ (isnan t = true -> dict_get (columna_estado pos) row = Some VNone)
  /\ (isnan t = false ->
      exists e, dict_get (columna_estado pos) row = Some (VStr e)
                /\ mas_cercano t tm_dict e).
Proof.
  intros (Hnd & Hbf) Hsin H Hpos t.
  destruct (sin_homonimas_inv _ Hsin) as (Hnd_refs & Htm_ref & Href_est).
  assert (Hk : In pos (keys posiciones))
    by (change pos with (fst (pos, tm_dict)); now apply in_map).
  pose proof (In_dict_get _ _ _ Hnd Hpos) as Hget.
  unfold procesar_fila in H.
  apply bind_Ok in H. destruct H as (r1 & H1 & H).
  apply bind_Ok in H. destruct H as (r2 & H2 & H).
  apply bind_Ok in H. destruct H as (r3 & H3 & H).
  apply bind_Ok in H. destruct H as (r4 & H4 & H5).
  assert (T2 : dict_get (columna_tm pos) r2 = Some (VFloat t)).
  { rewrite (seleccionar_fila_get _ _ _ _ H2) by now apply in_map.
    now apply fila_numerica_celdas with (poss := keys posiciones). }
  assert (T3 : dict_get (columna_tm pos) r3 = Some (VFloat t)).
  { unfold fila_diferencias in H3.
    rewrite (fila_diferencias_marco _ _ _ _ H3); [assumption|].
    intros x Hx. now apply Htm_ref. }
  assert (D3 : forall e ref, In (e, ref) tm_dict ->
                 dict_get (columna_diff pos e) r3
                 = Some (VFloat (abs_diff t ref))).
  { intros e ref He. unfold fila_diferencias in H3.
    apply (fila_diferencias_celda _ _ _ (pos, (e, ref)) t H3 Hnd_refs).
    - intros y Hy. now apply Htm_ref.
    - eapply In_referencias; eauto.
    - exact T2. }
  destruct (fila_estados_valor _ _ _ _ pos H4 Hnd Hk) as (v & Hv & Hcell).
  { intros p _. apply columna_tm_estado. }
  { intros p d e Hp Hd He. rewrite Hget in Hd. injection Hd as <-.
    apply in_map_iff in He. destruct He as ([e' ref] & <- & He).
    apply (Href_est (pos, (e', ref)) p); [|assumption].
    eapply In_referencias; eauto. }
  destruct (genotipo_por_posicion_cercano _ _ _ _ _ _ Hget T3 D3 Hv)
    as (Hnan & Hnum).
  assert (T4 : dict_get (columna_tm pos) r4 = Some (VFloat t)).
  { rewrite (fila_estados_marco _ _ _ _ _ H4); [assumption|].
    intros p _. apply columna_tm_estado. }
  assert (E5 : dict_get (columna_tm pos) row = dict_get (columna_tm pos) r4
               /\ dict_get (columna_estado pos) row
                  = dict_get (columna_estado pos) r4).
  { unfold fila_genotipo in H5. destruct (1 <? List.length posiciones)%nat.
    - apply paso_Ok in H5. destruct H5 as (g & _ & ->).
      rewrite !dict_get_set_ne;
        [auto | apply columna_estado_genotipo | apply columna_tm_genotipo].
    - injection H5 as <-. auto. }
  destruct E5 as (-> & ->). rewrite Hcell.
  split; [assumption|]. split.
  - intros Hn. now rewrite (Hnan Hn).
  - intros Hn. destruct (Hnum Hn) as (e & -> & He). eauto.
Qed.

Lemma fila_compuesta (posiciones : dict (dict float)) (row0 row : fila) :
  bien_formado posiciones -> 1 < List.length posiciones ->
  procesar_fila to_numeric_texto posiciones row0 = Ok row ->
  dict_get GENOTIPO_RESULTANTE row
  = Some (VStr (componer (map (fun pos => celda (columna_estado pos) row)
                              (keys posiciones)))).
Proof.
  intros Hbf Hn H. pose proof Hbf as (Hnd & _).
  unfold procesar_fila in H.
  apply bind_Ok in H. destruct H as (r1 & _ & H).
  apply bind_Ok in H. destruct H as (r2 & _ & H).
  apply bind_Ok in H. destruct H as (r3 & _ & H).
  apply bind_Ok in H. destruct H as (r4 & H4 & H5).
  unfold fila_genotipo in H5. apply Nat.ltb_lt in Hn. rewrite Hn in H5.
  apply paso_Ok in H5. destruct H5 as (g & Hg & ->).
  rewrite genotipo_fila_componer in Hg.
  - injection Hg as <-. rewrite dict_get_set_eq. do 3 f_equal.
    apply map_ext. intros pos. unfold celda.
    rewrite dict_get_set_ne by apply columna_estado_genotipo. reflexivity.
  - assumption.
  - intros pos Hpos. eapply fila_estados_celdas; eauto.
Qed.

(** ** Rows of a well-formed run *)

Lemma fila_numerica_total (poss : list string) (row : fila) :
  (forall pos, In pos poss -> In (columna_tm pos) (keys row)) ->
  exists row', fila_numerica to_numeric_texto poss row = Ok row'.
Proof.
  unfold fila_numerica. revert row.
  induction poss as [|pos poss IH]; intros row H; [now exists row|].
  destruct (proj1 (dict_get_In_keys _ _) (H pos (or_introl eq_refl)))
    as (v & Hv).
  cbn [foldM]. unfold paso_numerico at 1, paso, a_numerico, fila_get.
  rewrite Hv. cbn [bind]. apply IH. intros q Hq.
  apply In_keys_dict_set. right. apply H. now right.
Qed.

(** With position labels that keep the columns apart, a record that has
    the measured columns is processed to the end. *)
Lemma procesar_fila_total (posiciones : dict (dict float)) (row0 : fila) :
  bien_formado posiciones -> sin_homonimas posiciones ->
  (forall pos, In pos (keys posiciones) -> In (columna_tm pos) (keys row0)) ->
  exists row, procesar_fila to_numeric_texto posiciones row0 = Ok row.
Proof.
  intros Hbf Hsin Hcols. pose proof Hbf as (Hnd & Hbf').
  destruct (sin_homonimas_inv _ Hsin) as (Hnd_refs & Htm_ref & Href_est).
  destruct (fila_numerica_total _ _ Hcols) as (r1 & H1).
  assert (T1 : forall pos, In pos (keys posiciones) ->
                 dict_get (columna_tm pos) r1
                 = Some (VFloat (medido to_numeric_texto row0 pos)))
    by (intros pos Hpos; now apply fila_numerica_celdas
                               with (poss := keys posiciones)).
  destruct (seleccionar_fila_total (map columna_tm (keys posiciones)) r1)
    as (r2 & H2).
  { intros c Hc. apply in_map_iff in Hc. destruct Hc as (pos & <- & Hpos).
    rewrite (T1 pos Hpos). eauto. }
  assert (T2 : forall pos, In pos (keys posiciones) ->
                 dict_get (columna_tm pos) r2
                 = Some (VFloat (medido to_numeric_texto row0 pos))).
  { intros pos Hpos.
    rewrite (seleccionar_fila_get _ _ _ _ H2) by now apply in_map.
    now apply T1. }
  destruct (fila_diferencias_total (referencias posiciones) r2) as (r3 & H3).
  { intros x Hx. destruct (referencias_In _ _ Hx) as (d & Hd & _).
    rewrite T2; [eauto|]. change (fst x) with (fst (fst x, d)).
    now apply in_map. }
  destruct (fila_estados_total posiciones (keys posiciones) r3) as (r4 & H4).
  { intros pos Hpos. apply dict_get_In_keys in Hpos.
    destruct Hpos as (d & Hd). pose proof (dict_get_In _ _ _ Hd) as Hin.
    assert (Hk : In pos (keys posiciones))
      by (change pos with (fst (pos, d)); now apply in_map).
    exists d, (medido to_numeric_texto row0 pos).
    split; [assumption|]. split; [now apply (Hbf' pos d Hin)|]. split.
    - rewrite (fila_diferencias_marco _ _ _ _ H3); [now apply T2|].
      intros x Hx. now apply Htm_ref.
    - intros e ref He.
      apply (fila_diferencias_celda _ _ _ (pos, (e, ref)) _ H3 Hnd_refs).
      + intros y Hy. now apply Htm_ref.
      + eapply In_referencias; eauto.
      + now apply T2. }
  { intros p q d e Hp Hq Hd He. apply in_map_iff in He.
    destruct He as ([e' ref] & <- & He).
    apply (Href_est (q, (e', ref)) p); [|assumption].
    eapply In_referencias; [apply dict_get_In|]; eauto. }
  unfold procesar_fila. rewrite H1. cbn [bind]. rewrite H2. cbn [bind].
  fold (fila_diferencias posiciones r2) in H3. rewrite H3. cbn [bind].
  rewrite H4. cbn [bind]. unfold fila_genotipo.
  destruct (1 <? List.length posiciones)%nat; [|eauto].
  unfold paso. rewrite (genotipo_fila_componer posiciones r4 Hbf).
  - cbn [bind]. eauto.
  - intros pos Hpos. exact (fila_estados_celdas _ _ _ _ _ H4 Hnd Hpos).
Qed.

Lemma clasificar_total (posiciones : dict (dict float)) (h : Hoja) :
  bien_formado posiciones -> sin_homonimas posiciones ->
  (forall pos, In pos (keys posiciones) -> In (columna_tm pos) (encabezado h)) ->
  exists df,
    clasificar to_numeric_texto posiciones h = Ok (df, cols_resultado posiciones).
Proof.
  intros Hbf Hsin Hcols.
  destruct (mapM_total (procesar_fila to_numeric_texto posiciones)
              (read_excel h)) as (df & Hdf).
  { intros row0 Hrow0. unfold read_excel in Hrow0. apply in_map_iff in Hrow0.
    destruct Hrow0 as (reg & <- & _).
    apply procesar_fila_total; try assumption.
    intros pos Hpos. rewrite keys_armar_fila. now apply Hcols. }
  exists df. apply clasificar_filas. split; [assumption|].
  split; [reflexivity|]. now apply mapM_Forall2.
Qed.

Lemma seleccionar_resultado_total (posiciones : dict (dict float))
  (df0 df : DataFrame) :
  bien_formado posiciones -> sin_homonimas posiciones ->
  Forall2 (fun row0 row =>
             procesar_fila to_numeric_texto posiciones row0 = Ok row) df0 df ->
  exists res, seleccionar (cols_resultado posiciones) df = Ok res.
Proof.
  intros Hbf Hsin Hfilas. apply mapM_total. intros fila Hfila.
  destruct (Forall2_In_r _ _ _ _ Hfilas Hfila) as (row0 & _ & Hp).
  apply seleccionar_fila_total. intros c Hc. unfold cols_resultado in Hc.
  apply in_app_or in Hc. destruct Hc as [Hc|Hc].
  - apply in_map_iff in Hc. destruct Hc as (pos & <- & Hpos).
    pose proof Hpos as Hpos'. apply dict_get_In_keys in Hpos'.
    destruct Hpos' as (d & Hd). apply dict_get_In in Hd.
    destruct (fila_clasificada _ _ _ _ _ Hbf Hsin Hp Hd) as (Ht & _). eauto.
  - apply in_app_or in Hc. destruct Hc as [Hc|Hc].
    + apply in_map_iff in Hc. destruct Hc as (pos & <- & Hpos).
      destruct (procesar_fila_estado _ _ _ _ Hp (proj1 Hbf) Hpos)
        as (v & Hv & _).
      eauto.
    + destruct (Nat.ltb_spec 1 (List.length posiciones)) as [Hn|Hn];
        [|destruct Hc].
      destruct Hc as [<-|[]]. rewrite (fila_compuesta _ _ _ Hbf Hn Hp). eauto.
Qed.

(** ** What a row is processed from *)

Lemma fila_medida (poss : list string) (row0 r1 r2 : fila) :
  NoDup poss ->
  fila_numerica to_numeric_texto poss row0 = Ok r1 ->
  seleccionar_fila (map columna_tm poss) r1 = Ok r2 ->
  r2 = map (fun pos => (columna_tm pos,
                        VFloat (medido to_numeric_texto row0 pos))) poss.
Proof.
  intros Hnd H1 H2. apply seleccionar_fila_celdas in H2. subst r2.
  rewrite map_map. apply map_ext_in. intros pos Hpos. f_equal.
  unfold celda. now rewrite (fila_numerica_celdas _ _ _ _ H1 Hnd Hpos).
Qed.

(** A record is processed from the numeric reading of its measured
    columns and from nothing else. *)
Lemma procesar_fila_ext (posiciones : dict (dict float))
  (row0 row0' fila : fila) :
  NoDup (keys posiciones) ->
  (forall pos, In pos (keys posiciones) -> In (columna_tm pos) (keys row0')) ->
  (forall pos, In pos (keys posiciones) ->
     medido to_numeric_texto row0 pos = medido to_numeric_texto row0' pos) ->
  procesar_fila to_numeric_texto posiciones row0 = Ok fila ->
  procesar_fila to_numeric_texto posiciones row0' = Ok fila.
Proof.
  intros Hnd Hcols Hmed H. unfold procesar_fila in *.
  apply bind_Ok in H. destruct H as (r1 & H1 & H).
  apply bind_Ok in H. destruct H as (r2 & H2 & H).
  destruct (fila_numerica_total _ _ Hcols) as (r1' & H1').
  destruct (seleccionar_fila_total (map columna_tm (keys posiciones)) r1')
    as (r2' & H2').
  { intros c Hc. apply in_map_iff in Hc. destruct Hc as (pos & <- & Hpos).
    rewrite (fila_numerica_celdas _ _ _ _ H1' Hnd Hpos). eauto. }
  assert (E : r2' = r2).
  { rewrite (fila_medida _ _ _ _ Hnd H1 H2), (fila_medida _ _ _ _ Hnd H1' H2').
    apply map_ext_in. intros pos Hpos. now rewrite (Hmed pos Hpos). }
  rewrite H1'. cbn [bind]. rewrite H2'. cbn [bind]. now rewrite E.
Qed.

End Tabla.

Section Corrida.

Variable py_float : string -> option float.
Variable to_numeric_texto : string -> option float.

Set Default Proof Using "Type".

Lemma analizar_Ok (args : Args) (h : Hoja) (posiciones : dict (dict float))
  (df resultados_df : DataFrame) :
  analizar py_float to_numeric_texto args h = Ok (posiciones, df, resultados_df)
  <-> procesar_tm py_float (tm args) = Ok posiciones
      /\ clasificar to_numeric_texto posiciones h
         = Ok (df, cols_resultado posiciones)
      /\ seleccionar (cols_resultado posiciones) df = Ok resultados_df.
Proof.
  unfold analizar. split.
  - intros H. inv_bind H. apply bind_Ok in H. destruct H as ([df' cols] & Hc & H).
    inv_bind H. injection H as <- <- <-.
    pose proof (proj1 (clasificar_filas _ _ _ _ _) Hc) as (_ & -> & _). auto.
  - intros (H1 & H2 & H3). rewrite H1. cbn [bind]. rewrite H2. cbn [bind].
    rewrite H3. reflexivity.
Qed.

(** C9.  In the table the run writes, the cell of a sample under the state
    column of a locus is empty or holds a key of that locus's reference
    values: one of the three state names, and one that the [-t] argument of
    the locus supplied. *)
Theorem estado_asignado_configurado (args : Args) (h : Hoja)
  (posiciones : dict (dict float)) (df resultados_df : DataFrame) :
  analizar py_float to_numeric_texto args h = Ok (posiciones, df, resultados_df) ->
  forall row pos tm_dict,
    In row resultados_df -> In (pos, tm_dict) posiciones ->
    dict_get (columna_estado pos) row = Some VNone
    \/ exists e,
        dict_get (columna_estado pos) row = Some (VStr e)
        /\ In e (keys tm_dict) /\ In e ESTADOS
        /\ suministrado (tm args) pos e.
Proof.
  intros H row pos tm_dict Hrow Hpos.
  apply analizar_Ok in H. destruct H as (Htm & Hc & Hsel).
  pose proof (procesar_tm_bien_formado _ _ _ Htm) as (Hnd & Hbf).
  apply clasificar_filas in Hc. destruct Hc as (_ & _ & Hfilas).
  unfold seleccionar in Hsel. apply mapM_Forall2 in Hsel.
  destruct (Forall2_In_r _ _ _ _ Hsel Hrow) as (row5 & Hin5 & Hs).
  destruct (Forall2_In_r _ _ _ _ Hfilas Hin5) as (row0 & _ & Hp).
  assert (Hk : In pos (keys posiciones))
    by (change pos with (fst (pos, tm_dict)); now apply in_map).
  destruct (procesar_fila_estado _ _ _ _ _ Hp Hnd Hk) as (v & Hv & Hval).
  rewrite (seleccionar_fila_get _ _ _ _ Hs (In_cols_resultado_estado _ _ Hk)).
  destruct Hval as [->|(e & tm_dict' & -> & Hget & He)]; [now left|].
  right. exists e. split; [assumption|].
  rewrite (In_dict_get _ _ _ Hnd Hpos) in Hget. injection Hget as <-.
  split; [assumption|]. split.
  - now apply (Hbf pos tm_dict Hpos).
  - eapply procesar_tm_suministrado; eauto.
Qed.

Lemma main_analizar_Err (args : Args) (fs : Entorno) (h : Hoja)
  (e : error) :
  num_mutaciones args = Z.of_nat (List.length (tm args)) ->
  fs (file args) = Some h ->
  analizar py_float to_numeric_texto args h = Err e ->
  main py_float to_numeric_texto args fs
  = ([EvExists (file args); EvReadExcel (file args)], Err e).
Proof.
  intros Hn Hfs Ha. unfold main. rewrite Hn, Z.eqb_refl. cbn [negb].
  rewrite Hfs, Ha. reflexivity.
Qed.

(** C6.  A count of [-t] arguments other than [-n] ends the run with the
    count error before anything is read; a missing input file, a [-t]
    argument the parser refuses and a missing Tm column end it with their
    own errors after the existence test and the reading only.  Whenever the
    run ends with one of these four errors, nothing has been written: no
    table and no summary file. *)
Theorem fallo_sin_salida (args : Args) (fs : Entorno) :
  let n := num_mutaciones args in
  let k := List.length (tm args) in
  let leido := [EvExists (file args); EvReadExcel (file args)] in
  (n <> Z.of_nat k ->
   main py_float to_numeric_texto args fs = ([], Err (ErrorCantidad n k))
   /\ mensaje (ErrorCantidad n k)
      = Some ("Error: -n=" ++ str_Z n ++ " pero se definieron " ++ str_nat k
              ++ " mutaciones con -t."))
  /\ (n = Z.of_nat k -> fs (file args) = None ->
      main py_float to_numeric_texto args fs
      = ([EvExists (file args)], Err (ArchivoNoEncontrado (file args)))
      /\ mensaje (ArchivoNoEncontrado (file args))
         = Some ("Archivo '" ++ file args ++ "' no encontrado."))
  /\ (forall h, n = Z.of_nat k -> fs (file args) = Some h ->
      (exists tm_entry, In tm_entry (tm args) /\ mal_formada py_float tm_entry) ->
      exists tm_entry e,
        In tm_entry (tm args)
        /\ main py_float to_numeric_texto args fs
           = (leido, Err (ErrorFormato tm_entry e)))
  /\ (forall h posiciones, n = Z.of_nat k -> fs (file args) = Some h ->
      procesar_tm py_float (tm args) = Ok posiciones ->
      (exists pos, In pos (keys posiciones)
                   /\ ~ In (columna_tm pos) (encabezado h)) ->
      exists pos,
        In pos (keys posiciones) /\ ~ In (columna_tm pos) (encabezado h)
        /\ main py_float to_numeric_texto args fs
           = (leido, Err (ColumnaFaltante (columna_tm pos)))
        /\ mensaje (ColumnaFaltante (columna_tm pos))
           = Some ("No se encontr" ++ String (ascii_of_nat 243) " la columna '"
                   ++ columna_tm pos ++ "' en el archivo."))
  /\ (forall traza e,
      main py_float to_numeric_texto args fs = (traza, Err e) ->
      es_validacion e = true ->
      filter es_salida traza = []).
Proof.
  intros n k leido. split; [|split; [|split; [|split]]].
  - intros Hn. split; [|reflexivity]. unfold main. fold n k.
    destruct (Z.eqb_spec n (Z.of_nat k)); [contradiction | reflexivity].
  - intros Hn Hfs. split; [|reflexivity]. unfold main. fold n k.
    rewrite Hn, Z.eqb_refl. cbn [negb]. rewrite Hfs. reflexivity.
  - intros h Hn Hfs Hmal.
    destruct (procesar_tm_mal_formada _ (tm args) [] Hmal) as (t & e & Hin & He).
    exists t, e. split; [assumption|].
    apply (main_analizar_Err args fs h); auto.
    unfold analizar, procesar_tm. rewrite He. reflexivity.
  - intros h posiciones Hn Hfs Htm Hfalta.
    destruct (clasificar_columna_faltante to_numeric_texto posiciones h Hfalta)
      as (pos & H1 & H2 & H3).
    exists pos. split; [assumption|]. split; [assumption|].
    split; [|reflexivity].
    apply (main_analizar_Err args fs h); auto.
    unfold analizar. rewrite Htm. cbn [bind]. rewrite H3. reflexivity.
  - intros traza e H Hval. unfold main in H. fold n k in H.
    destruct (negb (n =? Z.of_nat k)%Z); [now injection H as <- _|].
    destruct (fs (file args)) as [h|]; [|now injection H as <- _].
    destruct (analizar py_float to_numeric_texto args h)
      as [[[posiciones df] resultados_df]|e']; [|now injection H as <- _].
    destruct (escribir fs (output args));
      try (injection H as _ <-; discriminate).
    destruct (txt args) as [[|c path]|]; try discriminate.
    destruct (escribir fs (String c path));
      try (injection H as _ <-; discriminate).
    destruct (resumen posiciones df) as [r|e'] eqn:Er; [discriminate|].
    injection H as _ <-. apply resumen_Err in Er. congruence.
Qed.

Lemma analizar_filas (args : Args) (h : Hoja) (posiciones : dict (dict float))
  (df resultados_df : DataFrame) :
  analizar py_float to_numeric_texto args h = Ok (posiciones, df, resultados_df) ->
  bien_formado posiciones
  /\ Forall2 (fun reg row =>
                exists fila,
                  procesar_fila to_numeric_texto posiciones
                    (armar_fila (encabezado h) reg) = Ok fila
                  /\ seleccionar_fila (cols_resultado posiciones) fila = Ok row)
             (registros h) resultados_df.
Proof.
  intros H. apply analizar_Ok in H. destruct H as (Htm & Hc & Hsel).
  split; [eapply procesar_tm_bien_formado; eauto|].
  apply clasificar_filas in Hc. destruct Hc as (_ & _ & Hfilas).
  unfold read_excel in Hfilas. apply Forall2_map_l in Hfilas.
  unfold seleccionar in Hsel. apply mapM_Forall2 in Hsel.
  exact (Forall2_comp _ _ _ _ _ Hfilas Hsel).
Qed.

(** X1.  For position labels that keep the columns apart: in the table the
    run writes, the Tm of a sample at a locus is the measured one, its state
    is empty when that Tm is missing, and is otherwise the first of the
    states nearest to it. *)
Lemma corrida_sin_homonimas (args : Args) (h : Hoja)
  (posiciones : dict (dict float)) (df resultados_df : DataFrame) :
  analizar py_float to_numeric_texto args h = Ok (posiciones, df, resultados_df) ->
  sin_homonimas posiciones ->
  Forall2 (fun reg row =>
             forall pos tm_dict, In (pos, tm_dict) posiciones ->
               let t := medido to_numeric_texto (armar_fila (encabezado h) reg) pos in
               dict_get (columna_tm pos) row = Some (VFloat t)
               /\ (isnan t = true ->
                   dict_get (columna_estado pos) row = Some VNone)
               /\ (isnan t = false ->
                   exists e, dict_get (columna_estado pos) row = Some (VStr e)
                             /\ mas_cercano t tm_dict e))
          (registros h) resultados_df.
Proof.
  intros H Hsin. apply analizar_filas in H. destruct H as (Hbf & H).
  eapply Forall2_impl; [|exact H]. cbv beta.
  intros reg row (fila & Hp & Hs) pos tm_dict Hpos.
  assert (Hk : In pos (keys posiciones))
    by (change pos with (fst (pos, tm_dict)); now apply in_map).
  rewrite (seleccionar_fila_get _ _ _ _ Hs (In_cols_resultado_tm _ _ Hk)).
  rewrite (seleccionar_fila_get _ _ _ _ Hs (In_cols_resultado_estado _ _ Hk)).
  exact (fila_clasificada to_numeric_texto _ _ _ _ _ Hbf Hsin Hp Hpos).
Qed.

(** Whatever the position labels: with more than one locus, the genotype
    the run writes for a sample is the composition of the states it writes
    for it. *)
Lemma corrida_compuesta (args : Args) (h : Hoja)
  (posiciones : dict (dict float)) (df resultados_df : DataFrame) (row : fila) :
  analizar py_float to_numeric_texto args h = Ok (posiciones, df, resultados_df) ->
  1 < List.length posiciones ->
  In row resultados_df ->
  dict_get GENOTIPO_RESULTANTE row
  = Some (VStr (componer (map (fun pos => celda (columna_estado pos) row)
                              (keys posiciones)))).
Proof.
  intros H Hn Hrow. apply analizar_filas in H. destruct H as (Hbf & H).
  destruct (Forall2_In_r _ _ _ _ H Hrow) as (reg & _ & fila & Hp & Hs).
  rewrite (seleccionar_fila_get _ _ _ _ Hs (In_cols_resultado_genotipo _ Hn)).
  rewrite (fila_compuesta to_numeric_texto _ _ _ Hbf Hn Hp).
  do 3 f_equal. apply map_ext_in. intros pos Hpos. unfold celda.
  now rewrite (seleccionar_fila_get _ _ _ _ Hs (In_cols_resultado_estado _ _ Hpos)).
Qed.

(** ** The summary of a run *)

Lemma analizar_tablas (args : Args) (h : Hoja) (posiciones : dict (dict float))
  (df resultados_df : DataFrame) :
  analizar py_float to_numeric_texto args h = Ok (posiciones, df, resultados_df) ->
  bien_formado posiciones
  /\ Forall2 (fun row0 fila =>
                procesar_fila to_numeric_texto posiciones row0 = Ok fila)
             (read_excel h) df
  /\ Forall2 (fun fila row =>
                seleccionar_fila (cols_resultado posiciones) fila = Ok row)
             df resultados_df
  /\ List.length df = List.length (registros h)
  /\ List.length resultados_df = List.length (registros h).
Proof.
  intros H. apply analizar_Ok in H. destruct H as (Htm & Hc & Hsel).
  split; [eapply procesar_tm_bien_formado; eauto|].
  apply clasificar_filas in Hc. destruct Hc as (_ & _ & Hfilas).
  unfold seleccionar in Hsel. apply mapM_Forall2 in Hsel.
  split; [assumption|]. split; [assumption|].
  pose proof (Forall2_length Hfilas) as L1.
  pose proof (Forall2_length Hsel) as L2.
  unfold read_excel in L1. rewrite length_map in L1. split; congruence.
Qed.

Lemma analizar_columna_estado (args : Args) (h : Hoja)
  (posiciones : dict (dict float)) (df resultados_df : DataFrame) (pos : string) :
  analizar py_float to_numeric_texto args h = Ok (posiciones, df, resultados_df) ->
  In pos (keys posiciones) ->
  columna (columna_estado pos) df
  = Ok (map (celda (columna_estado pos)) resultados_df)
  /\ columna_de_estados (map (celda (columna_estado pos)) resultados_df).
Proof.
  intros H Hpos. apply analizar_tablas in H.
  destruct H as ((Hnd & Hbf) & Hfilas & Hsel & _).
  destruct (columna_seleccionada _ _ _ (columna_estado pos)
              (fun v => v = VNone \/ exists estado, v = VStr estado) Hsel
              (In_cols_resultado_estado _ _ Hpos)) as (H1 & H2).
  - intros fila Hf.
    destruct (Forall2_In_r _ _ _ _ Hfilas Hf) as (row0 & _ & Hp).
    destruct (procesar_fila_estado to_numeric_texto _ _ _ _ Hp Hnd Hpos)
      as (v & Hv & Hval).
    exists v. split; [assumption|].
    destruct Hval as [->|(e & d & -> & _)]; eauto.
  - split; assumption.
Qed.

Lemma analizar_columna_genotipo (args : Args) (h : Hoja)
  (posiciones : dict (dict float)) (df resultados_df : DataFrame) :
  analizar py_float to_numeric_texto args h = Ok (posiciones, df, resultados_df) ->
  1 < List.length posiciones ->
  let col := map (celda GENOTIPO_RESULTANTE) resultados_df in
  columna GENOTIPO_RESULTANTE df = Ok col
  /\ mapM as_str col = Ok (cadenas col)
  /\ List.length (cadenas col) = List.length (registros h).
Proof.
  intros H Hn col. apply analizar_tablas in H.
  destruct H as (Hbf & Hfilas & Hsel & _ & L).
  destruct (columna_seleccionada _ _ _ GENOTIPO_RESULTANTE
              (fun v => exists g, v = VStr g) Hsel
              (In_cols_resultado_genotipo _ Hn)) as (H1 & H2).
  - intros fila Hf.
    destruct (Forall2_In_r _ _ _ _ Hfilas Hf) as (row0 & _ & Hp).
    rewrite (fila_compuesta to_numeric_texto _ _ _ Hbf Hn Hp). eauto.
  - split; [assumption|]. destruct (as_str_cadenas col H2) as (H3 & H4).
    split; [assumption|]. rewrite H4. unfold col. now rewrite length_map.
Qed.

Lemma main_con_resumen (args : Args) (fs : Entorno) (h : Hoja)
  (posiciones : dict (dict float)) (df resultados_df : DataFrame)
  (path : string) (r : Resumen) :
  num_mutaciones args = Z.of_nat (List.length (tm args)) ->
  fs (file args) = Some h ->
  analizar py_float to_numeric_texto args h = Ok (posiciones, df, resultados_df) ->
  txt args = Some path -> path <> "" ->
  escribir fs (output args) = Escribe -> escribir fs path = Escribe ->
  resumen posiciones df = Ok r ->
  exists traza,
    main py_float to_numeric_texto args fs = (traza, Ok tt)
    /\ In (EvToExcel (output args) resultados_df) traza
    /\ In (EvWrite path r) traza.
Proof.
  intros Hn Hfs Ha Htxt Hpath Hout Hsal Hr. unfold main.
  rewrite Hn, Z.eqb_refl. cbn [negb]. rewrite Hfs, Ha, Hout, Htxt.
  destruct path as [|c path]; [congruence|]. rewrite Hsal, Hr.
  eexists. split; [reflexivity|]. split.
  - apply in_or_app. left. cbn. auto.
  - apply in_or_app. right. cbn. auto.
Qed.

(** C7 (as amended).  With one locus, a run that writes the summary
    writes one line per state observed in the table, with the number of
    samples given that state and, written with two decimals, the binary64
    value of that number over the number of all samples, times 100.
    Undetermined samples are in no count but are in the divisor, so with at
    least one of them the exact quotients count / samples * 100 add to less
    than 100. *)
Theorem resumen_de_un_locus (args : Args) (fs : Entorno)
  (h : Hoja) (pos : string) (tm_dict : dict float)
  (df resultados_df : DataFrame) (path : string) :
  num_mutaciones args = Z.of_nat (List.length (tm args)) ->
  fs (file args) = Some h ->
  analizar py_float to_numeric_texto args h
  = Ok ([(pos, tm_dict)], df, resultados_df) ->
  txt args = Some path -> path <> "" ->
  escribir fs (output args) = Escribe -> escribir fs path = Escribe ->
  let col := map (celda (columna_estado pos)) resultados_df in
  let muestras := List.length (registros h) in
  exists traza dist,
    main py_float to_numeric_texto args fs = (traza, Ok tt)
    /\ In (EvToExcel (output args) resultados_df) traza
    /\ In (EvWrite path (ResumenEstados pos dist)) traza
    /\ NoDup (map (fun l => fst (fst l)) dist)
    /\ (forall estado c t,
          In (estado, c, t) dist <->
          c = determinadas estado col /\ 0 < c
          /\ t = campo_porcentaje (porcentaje_binario c muestras))
    /\ list_sum (map (fun l => snd (fst l)) dist) + indeterminadas col
       = muestras
    /\ (0 < indeterminadas col ->
        (suma_Q (porcentajes_exactos muestras dist) < 100)%Q).
Proof.
  intros Hn Hfs Ha Htxt Hpath Hout Hsal col muestras.
  destruct (analizar_columna_estado _ _ _ _ _ pos Ha) as (Hcol & Hest);
    [now left|].
  pose proof (analizar_tablas _ _ _ _ _ Ha) as (_ & _ & _ & Ldf & _).
  destruct (resumen_de_estados pos tm_dict df col Hcol Hest)
    as (dist & Hr & H1 & H2 & H3 & H4).
  destruct (main_con_resumen _ _ _ _ _ _ _ _ Hn Hfs Ha Htxt Hpath Hout Hsal Hr)
    as (traza & Hm & Hx & Hw).
  exists traza, dist. rewrite Ldf in H2, H3, H4. auto 10.
Qed.

Lemma analizar_estados_de (args : Args) (h : Hoja)
  (posiciones : dict (dict float)) (df resultados_df : DataFrame) (row : fila) :
  analizar py_float to_numeric_texto args h = Ok (posiciones, df, resultados_df) ->
  In row resultados_df ->
  forall v, In v (estados_de posiciones row) ->
            v = VNone \/ exists e, v = VStr e /\ In e ESTADOS.
Proof.
  intros H Hrow v Hv. apply analizar_tablas in H.
  destruct H as (Hbf & Hfilas & Hsel & _).
  destruct (Forall2_In_r _ _ _ _ Hsel Hrow) as (fila & Hfila & Hs).
  destruct (Forall2_In_r _ _ _ _ Hfilas Hfila) as (row0 & _ & Hp).
  unfold estados_de in Hv. apply in_map_iff in Hv.
  destruct Hv as (pos & <- & Hpos).
  destruct (procesar_fila_estado to_numeric_texto _ _ _ _ Hp (proj1 Hbf) Hpos)
    as (w & Hw & Hval).
  unfold celda.
  rewrite (seleccionar_fila_get _ _ _ _ Hs (In_cols_resultado_estado _ _ Hpos)).
  rewrite Hw. eapply estado_valido_ESTADOS; eauto.
Qed.

Lemma analizar_genotipos (args : Args) (h : Hoja)
  (posiciones : dict (dict float)) (df resultados_df : DataFrame) :
  analizar py_float to_numeric_texto args h = Ok (posiciones, df, resultados_df) ->
  1 < List.length posiciones ->
  cadenas (map (celda GENOTIPO_RESULTANTE) resultados_df)
  = map componer (map (estados_de posiciones) resultados_df).
Proof.
  intros H Hn. rewrite map_map. apply cadenas_celdas. intros row Hrow.
  exact (corrida_compuesta _ _ _ _ _ _ H Hn Hrow).
Qed.

Lemma analizar_tokens (args : Args) (h : Hoja)
  (posiciones : dict (dict float)) (df resultados_df : DataFrame) :
  analizar py_float to_numeric_texto args h = Ok (posiciones, df, resultados_df) ->
  1 < List.length posiciones -> List.length posiciones <= 9 ->
  let genotipos := cadenas (map (celda GENOTIPO_RESULTANTE) resultados_df) in
  let alelos := alelos_posibles (List.length posiciones) in
  (forall a, In a alelos ->
     ocurrencias a genotipos
     = tokens_iguales a (map (estados_de posiciones) resultados_df))
  /\ total_ocurrencias alelos genotipos
     = List.length posiciones
       * List.length (determinados posiciones resultados_df).
Proof.
  intros Ha Hlen H9 genotipos alelos.
  assert (Hm : forall estados,
             In estados (map (estados_de posiciones) resultados_df) ->
             List.length estados = List.length posiciones
             /\ forall v, In v estados ->
                  v = VNone \/ exists e, v = VStr e /\ In e ESTADOS).
  { intros estados Hest. apply in_map_iff in Hest.
    destruct Hest as (row & <- & Hrow). split.
    - unfold estados_de, keys. now rewrite !length_map.
    - exact (analizar_estados_de _ _ _ _ _ _ Ha Hrow). }
  assert (Hoc : forall a, In a alelos ->
             ocurrencias a genotipos
             = tokens_iguales a (map (estados_de posiciones) resultados_df)).
  { intros a Hin. unfold genotipos.
    rewrite (analizar_genotipos _ _ _ _ _ Ha Hlen).
    apply ocurrencias_tokens; [|exact (alelos_posibles_mono _ _ _ H9 Hin)].
    intros estados Hest. destruct (Hm estados Hest) as (L & Hv).
    split; [lia | exact Hv]. }
  split; [exact Hoc|]. unfold total_ocurrencias.
  rewrite (map_ext_in _ _ _ Hoc). unfold alelos.
  rewrite suma_tokens by exact Hm.
  unfold determinados. now rewrite length_filter_map.
Qed.

(** X16.  With two to nine loci, a run that writes the summary writes a
    per-allele table with one line for each token H<i> and R<i>, i from 1 to
    the number of loci, and one for "S"; the count of a token is the number
    of tokens of the fully determined samples that are that token, and its
    percentage, written with two decimals, is the binary64 value of that
    count over the count of all their tokens, times 100. *)
Theorem alelos_hasta_nueve_loci (args : Args) (fs : Entorno)
  (h : Hoja) (posiciones : dict (dict float)) (df resultados_df : DataFrame)
  (path : string) :
  num_mutaciones args = Z.of_nat (List.length (tm args)) ->
  fs (file args) = Some h ->
  analizar py_float to_numeric_texto args h = Ok (posiciones, df, resultados_df) ->
  1 < List.length posiciones -> List.length posiciones <= 9 ->
  txt args = Some path -> path <> "" ->
  escribir fs (output args) = Escribe -> escribir fs path = Escribe ->
  let alelos := alelos_posibles (List.length posiciones) in
  let muestras := map (estados_de posiciones) resultados_df in
  let total :=
    List.length posiciones
    * List.length (determinados posiciones resultados_df) in
  (forall a, In a alelos <->
             a = "S"
             \/ exists i, 1 <= i <= List.length posiciones
                          /\ (a = ("H" ++ str_nat i)%string
                              \/ a = ("R" ++ str_nat i)%string))
  /\ NoDup alelos
  /\ exists traza dist ale,
      main py_float to_numeric_texto args fs = (traza, Ok tt)
      /\ In (EvToExcel (output args) resultados_df) traza
      /\ In (EvWrite path (ResumenGenotipos dist ale)) traza
      /\ map (fun l => fst (fst l)) ale = alelos
      /\ forall a c t, In (a, c, t) ale ->
           c = tokens_iguales a muestras
           /\ (0 < total ->
               t = campo_porcentaje (porcentaje_binario c total))
           /\ (total = 0 -> t = "0.00%").
Proof.
  intros Hn Hfs Ha Hlen H9 Htxt Hpath Hout Hsal alelos muestras total.
  destruct (analizar_columna_genotipo _ _ _ _ _ Ha Hlen) as (Hcol & Hstr & L).
  destruct (resumen_de_alelos posiciones df _ _ Hlen Hcol Hstr)
    as (H1 & H2 & dist & ale & Hr & H3 & H4).
  destruct (main_con_resumen _ _ _ _ _ _ _ _ Hn Hfs Ha Htxt Hpath Hout Hsal Hr)
    as (traza & Hm & Hx & Hw).
  destruct (analizar_tokens _ _ _ _ _ Ha Hlen H9) as (Hoc & Htot).
  split; [exact H1|]. split; [exact H2|].
  exists traza, dist, ale. split; [exact Hm|]. split; [exact Hx|].
  split; [exact Hw|]. split; [exact H3|].
  intros a c t Hin. destruct (H4 a c t Hin) as (Hc & Hp & Hz).
  assert (Hal : In a alelos).
  { unfold alelos. rewrite <- H3. apply in_map_iff.
    exists (a, c, t). auto. }
  rewrite Htot in Hp, Hz. fold total in Hp, Hz.
  split; [rewrite Hc; now apply Hoc | auto].
Qed.

(** C10.  When no token occurs at all, as when every genotype is the
    undetermined one, the division by the total is not attempted, though it
    would raise: the run, where its files can be written, ends well and
    writes the per-allele table with count 0 and percentage 0.00% on every
    line. *)
Theorem porcentaje_sin_ocurrencias (args : Args) (fs : Entorno)
  (h : Hoja) (posiciones : dict (dict float)) (df resultados_df : DataFrame)
  (path : string) :
  num_mutaciones args = Z.of_nat (List.length (tm args)) ->
  fs (file args) = Some h ->
  analizar py_float to_numeric_texto args h = Ok (posiciones, df, resultados_df) ->
  1 < List.length posiciones ->
  txt args = Some path -> path <> "" ->
  escribir fs (output args) = Escribe -> escribir fs path = Escribe ->
  let alelos := alelos_posibles (List.length posiciones) in
  let genotipos := cadenas (map (celda GENOTIPO_RESULTANTE) resultados_df) in
  (forall c, porcentaje c 0 = Err ZeroDivisionError)
  /\ ((forall row, In row resultados_df ->
         dict_get GENOTIPO_RESULTANTE row = Some (VStr NO_DETERMINADO)) ->
      total_ocurrencias alelos genotipos = 0)
  /\ (total_ocurrencias alelos genotipos = 0 ->
      exists traza dist,
        main py_float to_numeric_texto args fs = (traza, Ok tt)
        /\ In (EvToExcel (output args) resultados_df) traza
        /\ In (EvWrite path
                 (ResumenGenotipos dist
                    (map (fun a => (a, 0, "0.00%")) alelos)))
              traza).
Proof.
  intros Hn Hfs Ha Hlen Htxt Hpath Hout Hsal alelos genotipos.
  destruct (analizar_columna_genotipo _ _ _ _ _ Ha Hlen) as (Hcol & Hstr & L).
  split; [reflexivity|]. split.
  - intros Hind. unfold total_ocurrencias.
    assert (E : forall a, ocurrencias a genotipos = 0).
    { intros a. apply ocurrencias_indeterminados. intros g Hg.
      unfold genotipos, cadenas in Hg. apply in_flat_map in Hg.
      destruct Hg as (v & Hv & Hg). apply in_map_iff in Hv.
      destruct Hv as (row & <- & Hrow). unfold celda in Hg.
      rewrite (Hind row Hrow) in Hg. destruct Hg as [<-|[]]. reflexivity. }
    induction alelos as [|a l IH]; [reflexivity|].
    cbn [map list_sum fold_right]. rewrite E. exact IH.
  - intros Htotal.
    destruct (resumen_sin_ocurrencias posiciones df _ _ Hlen Hcol Hstr Htotal)
      as (_ & dist & Hr).
    destruct (main_con_resumen _ _ _ _ _ _ _ _ Hn Hfs Ha Htxt Hpath Hout Hsal Hr)
      as (traza & Hm & Hx & Hw).
    exists traza, dist. auto.
Qed.

(** ** Runs that end well, runs that fail *)

Lemma analizar_total (args : Args) (h : Hoja) (posiciones : dict (dict float)) :
  procesar_tm py_float (tm args) = Ok posiciones ->
  sin_homonimas posiciones ->
  (forall pos, In pos (keys posiciones) -> In (columna_tm pos) (encabezado h)) ->
  exists df resultados_df,
    analizar py_float to_numeric_texto args h = Ok (posiciones, df, resultados_df).
Proof.
  intros Htm Hsin Hcols.
  pose proof (procesar_tm_bien_formado _ _ _ Htm) as Hbf.
  destruct (clasificar_total to_numeric_texto _ _ Hbf Hsin Hcols) as (df & Hc).
  pose proof (proj1 (clasificar_filas to_numeric_texto _ _ _ _) Hc)
    as (_ & _ & Hfilas).
  destruct (seleccionar_resultado_total to_numeric_texto _ _ _ Hbf Hsin Hfilas)
    as (res & Hres).
  exists df, res. apply analizar_Ok. auto.
Qed.

(** Once the table is there the summary cannot fail. *)
Lemma resumen_total (args : Args) (h : Hoja) (posiciones : dict (dict float))
  (df resultados_df : DataFrame) :
  analizar py_float to_numeric_texto args h = Ok (posiciones, df, resultados_df) ->
  posiciones <> [] ->
  exists r, resumen posiciones df = Ok r.
Proof.
  intros Ha Hne. destruct (Nat.ltb_spec 1 (List.length posiciones)) as [Hn|Hn].
  - destruct (analizar_columna_genotipo _ _ _ _ _ Ha Hn) as (Hcol & Hstr & _).
    destruct (resumen_de_alelos posiciones df _ _ Hn Hcol Hstr)
      as (_ & _ & dist & ale & Hr & _).
    eauto.
  - destruct posiciones as [|[pos d] [|x l]]; [congruence| |cbn in Hn; lia].
    destruct (analizar_columna_estado _ _ _ _ _ pos Ha) as (Hcol & Hest);
      [now left|].
    destruct (resumen_de_estados pos d df _ Hcol Hest) as (dist & Hr & _).
    eauto.
Qed.

(** X8.  A run on well-formed input, in an environment that lets it write
    its files, ends well.  When the count of [-t] arguments is the declared
    one, the file exists and holds at least one sample, the arguments parse,
    their position labels keep the columns of the table apart, every locus
    has its measured column, and the output path and the summary path, if
    one is given, can be written, then the table is written with one row
    per sample, the message naming it is printed, and with a summary path
    the summary is written too; nothing fails. *)
Theorem corrida_completa (args : Args) (fs : Entorno) (h : Hoja)
  (posiciones : dict (dict float)) :
  num_mutaciones args = Z.of_nat (List.length (tm args)) ->
  fs (file args) = Some h ->
  tm args <> [] -> registros h <> [] ->
  procesar_tm py_float (tm args) = Ok posiciones ->
  sin_homonimas posiciones ->
  (forall pos, In pos (keys posiciones) -> In (columna_tm pos) (encabezado h)) ->
  escribir fs (output args) = Escribe ->
  (forall path, txt args = Some path -> escribir fs path = Escribe) ->
  exists df resultados_df,
    analizar py_float to_numeric_texto args h = Ok (posiciones, df, resultados_df)
    /\ List.length resultados_df = List.length (registros h)
    /\ match txt args with
       | Some (String c s) =>
           exists r msg,
             main py_float to_numeric_texto args fs
             = ((eventos_de_tabla args resultados_df
                 ++ [EvOpen (String c s); EvWrite (String c s) r; EvPrint msg])%list,
                Ok tt)
       | _ =>
           main py_float to_numeric_texto args fs
           = (eventos_de_tabla args resultados_df, Ok tt)
       end.
Proof.
  intros Hn Hfs Htm_ne _ Htm Hsin Hcols Hout Hsal.
  destruct (analizar_total args h posiciones Htm Hsin Hcols) as (df & res & Ha).
  exists df, res. split; [assumption|].
  pose proof (analizar_tablas _ _ _ _ _ Ha) as (_ & _ & _ & _ & L).
  split; [assumption|].
  unfold main. rewrite Hn, Z.eqb_refl. cbn [negb]. rewrite Hfs, Ha, Hout.
  destruct (txt args) as [[|c s]|]; try reflexivity.
  rewrite (Hsal _ eq_refl).
  destruct (resumen_total _ _ _ _ _ Ha (procesar_tm_no_vacio _ _ _ Htm Htm_ne))
    as (r & Hr).
  rewrite Hr. eauto.
Qed.

(** X9.  How a run can fail.  A run that ends with an error ended at the
    count test with nothing done, at the existence test, or in the analysis
    with the file read and nothing else, and then it has written nothing; or
    the analysis ended well and a file could not be written: the table, with
    nothing written, or the summary, after the table was written and its
    message printed.  Once the table is written the computations of the
    script do not fail, and no failing run has written a summary. *)
Theorem error_sin_escritura (args : Args) (fs : Entorno)
  (traza : list evento) (e : error) :
  tm args <> [] ->
  main py_float to_numeric_texto args fs = (traza, Err e) ->
  ((traza = [] /\ e = ErrorCantidad (num_mutaciones args) (List.length (tm args))
    /\ num_mutaciones args <> Z.of_nat (List.length (tm args)))
   \/ (traza = [EvExists (file args)] /\ e = ArchivoNoEncontrado (file args)
       /\ fs (file args) = None)
   \/ (exists h, fs (file args) = Some h
                 /\ traza = [EvExists (file args); EvReadExcel (file args)]
                 /\ (analizar py_float to_numeric_texto args h = Err e
                     \/ (exists t, analizar py_float to_numeric_texto args h = Ok t)
                        /\ escribir fs (output args) <> Escribe
                        /\ e = ErrorDeEscritura (output args)))
   \/ (exists h posiciones df resultados_df path,
         fs (file args) = Some h
         /\ analizar py_float to_numeric_texto args h
            = Ok (posiciones, df, resultados_df)
         /\ escribir fs (output args) = Escribe
         /\ txt args = Some path /\ path <> ""
         /\ escribir fs path <> Escribe
         /\ e = ErrorDeEscritura path
         /\ traza = (eventos_de_tabla args resultados_df
                     ++ match escribir fs path with
                        | FallaAlEscribir => [EvOpen path]
                        | _ => []
                        end)%list))
  /\ (forall path r, ~ In (EvWrite path r) traza)
  /\ ((forall path, e <> ErrorDeEscritura path) ->
      forall ev, In ev traza ->
        ev = EvExists (file args) \/ ev = EvReadExcel (file args)).
Proof.
  intros Htm_ne H.
  assert (D : (traza = [] /\ e = ErrorCantidad (num_mutaciones args)
                                   (List.length (tm args))
               /\ num_mutaciones args <> Z.of_nat (List.length (tm args)))
              \/ (traza = [EvExists (file args)]
                  /\ e = ArchivoNoEncontrado (file args)
                  /\ fs (file args) = None)
              \/ (exists h, fs (file args) = Some h
                    /\ traza = [EvExists (file args); EvReadExcel (file args)]
                    /\ (analizar py_float to_numeric_texto args h = Err e
                        \/ (exists t, analizar py_float to_numeric_texto args h
                                      = Ok t)
                           /\ escribir fs (output args) <> Escribe
                           /\ e = ErrorDeEscritura (output args)))
              \/ (exists h posiciones df resultados_df path,
                    fs (file args) = Some h
                    /\ analizar py_float to_numeric_texto args h
                       = Ok (posiciones, df, resultados_df)
                    /\ escribir fs (output args) = Escribe
                    /\ txt args = Some path /\ path <> ""
                    /\ escribir fs path <> Escribe
                    /\ e = ErrorDeEscritura path
                    /\ traza = (eventos_de_tabla args resultados_df
                                ++ match escribir fs path with
                                   | FallaAlEscribir => [EvOpen path]
                                   | _ => []
                                   end)%list)).
  { unfold main in H.
    destruct (Z.eqb_spec (num_mutaciones args)
                (Z.of_nat (List.length (tm args)))) as [Hn|Hn]; cbn [negb] in H.
    - destruct (fs (file args)) as [h|] eqn:Hfs.
      + destruct (analizar py_float to_numeric_texto args h)
          as [[[posiciones df] res]|e'] eqn:Ha.
        * pose proof (proj1 (analizar_Ok _ _ _ _ _) Ha) as (Htm & _).
          destruct (resumen_total _ _ _ _ _ Ha
                      (procesar_tm_no_vacio _ _ _ Htm Htm_ne)) as (r & Hr).
          rewrite Hr in H.
          destruct (escribir fs (output args)) eqn:Hout.
          -- destruct (txt args) as [[|c s]|] eqn:Htxt; try discriminate.
             destruct (escribir fs (String c s)) eqn:Hsal; try discriminate;
               injection H as <- <-; right; right; right;
               exists h, posiciones, df, res, (String c s); rewrite Hsal;
               repeat split; try reflexivity; try assumption; discriminate.
          -- injection H as <- <-. right. right. left. exists h.
             repeat split; try reflexivity. right.
             repeat split; [eauto | discriminate].
          -- injection H as <- <-. right. right. left. exists h.
             repeat split; try reflexivity. right.
             repeat split; [eauto | discriminate].
        * injection H as <- <-. right. right. left. eauto.
      + injection H as <- <-. right. left. auto.
    - injection H as <- <-. left. auto. }
  split; [exact D|]. split.
  - intros path r Hin.
    destruct D as [(-> & _)|[(-> & _)|[(h & _ & -> & _)
      |(h & posiciones & df & res & p & _ & _ & _ & _ & _ & _ & _ & ->)]]];
      [cbn in Hin; intuition discriminate ..|].
    apply in_app_or in Hin. destruct Hin as [Hin|Hin].
    + cbn in Hin. intuition discriminate.
    + destruct (escribir fs p); cbn in Hin; intuition discriminate.
  - intros He ev Hev.
    destruct D as [(-> & _)|[(-> & _)|[(h & _ & -> & _)
      |(h & posiciones & df & res & p & _ & _ & _ & _ & _ & _ & -> & _)]]];
      [cbn in Hev; intuition ..|].
    now destruct (He p).
Qed.

(** X3.  The table a run writes has one row per sample of the sheet,
    and every row has the same columns, no two alike: the measured Tm of
    every locus in the order of configuration, then the state of every
    locus, then, with more than one locus, the resulting genotype. *)
Theorem tabla_de_resultados (args : Args) (h : Hoja)
  (posiciones : dict (dict float)) (df resultados_df : DataFrame) :
  analizar py_float to_numeric_texto args h = Ok (posiciones, df, resultados_df) ->
  List.length resultados_df = List.length (registros h)
  /\ forall row, In row resultados_df ->
       keys row
       = (map columna_tm (keys posiciones)
          ++ map columna_estado (keys posiciones)
          ++ (if (1 <? List.length posiciones)%nat
              then [GENOTIPO_RESULTANTE] else []))%list
       /\ NoDup (keys row).
Proof.
  intros Ha. pose proof (analizar_tablas _ _ _ _ _ Ha)
    as ((Hnd & _) & _ & Hsel & _ & L).
  split; [assumption|]. intros row Hrow.
  destruct (Forall2_In_r _ _ _ _ Hsel Hrow) as (fila & _ & Hs).
  unfold seleccionar_fila in Hs. apply mapM_keys in Hs.
  rewrite Hs. split; [reflexivity|]. now apply NoDup_cols_resultado.
Qed.

(** X2.  With more than one locus, the genotype written for a sample is
    the undetermined one exactly when one of the states written for it is
    empty.  Otherwise every locus has a state, and the genotype is the
    string of their tokens, one per locus and in the order of the loci. *)
Theorem genotipo_de_una_muestra (args : Args) (h : Hoja)
  (posiciones : dict (dict float)) (df resultados_df : DataFrame) (row : fila) :
  analizar py_float to_numeric_texto args h = Ok (posiciones, df, resultados_df) ->
  1 < List.length posiciones ->
  In row resultados_df ->
  exists g,
    dict_get GENOTIPO_RESULTANTE row = Some (VStr g)
    /\ (g = NO_DETERMINADO <->
        exists pos, In pos (keys posiciones)
                    /\ dict_get (columna_estado pos) row = Some VNone)
    /\ (g <> NO_DETERMINADO ->
        exists es,
          map (fun pos => dict_get (columna_estado pos) row) (keys posiciones)
          = map (fun e => Some (VStr e)) es
          /\ (forall e, In e es -> In e ESTADOS)
          /\ g = String.concat "" (tokens_desde 0 es)
          /\ List.length (tokens_desde 0 es) = List.length posiciones).
Proof.
  intros Ha Hn Hrow.
  pose proof (corrida_compuesta _ _ _ _ _ _ Ha Hn Hrow) as Hg.
  fold (estados_de posiciones row) in Hg.
  pose proof (analizar_estados_de _ _ _ _ _ _ Ha Hrow) as Hval.
  pose proof (analizar_tablas _ _ _ _ _ Ha) as (Hbf & Hfilas & Hsel & _).
  assert (Hcell : forall pos, In pos (keys posiciones) ->
            dict_get (columna_estado pos) row
            = Some (celda (columna_estado pos) row)).
  { intros pos Hpos.
    destruct (Forall2_In_r _ _ _ _ Hsel Hrow) as (fila & Hfila & Hs).
    destruct (Forall2_In_r _ _ _ _ Hfilas Hfila) as (row0 & _ & Hp).
    destruct (procesar_fila_estado to_numeric_texto _ _ _ _ Hp (proj1 Hbf) Hpos)
      as (w & Hw & _).
    unfold celda.
    rewrite (seleccionar_fila_get _ _ _ _ Hs
               (In_cols_resultado_estado _ _ Hpos)).
    now rewrite Hw. }
  exists (componer (estados_de posiciones row)). split; [assumption|].
  unfold componer.
  destruct (existsb es_None (estados_de posiciones row)) eqn:E.
  - split; [|congruence]. split; [|reflexivity]. intros _.
    apply existsb_exists in E. destruct E as (v & Hv & Hnone).
    unfold estados_de in Hv. apply in_map_iff in Hv.
    destruct Hv as (pos & <- & Hpos). exists pos. split; [assumption|].
    rewrite (Hcell pos Hpos).
    destruct (celda (columna_estado pos) row); try discriminate. reflexivity.
  - destruct (cadenas_validas _ Hval) as (_ & Hes).
    destruct (estados_determinados row (keys posiciones) Hcell Hval E)
      as (Hmap & Hlen).
    split.
    + split.
      * intros Hc. exfalso.
        pose proof (tokens_no_indeterminado _ 0 Hes) as Hne.
        rewrite Hc, String.eqb_refl in Hne. discriminate.
      * intros (pos & Hpos & Hnone). exfalso.
        assert (Hin : In (celda (columna_estado pos) row)
                         (estados_de posiciones row))
          by (unfold estados_de;
              exact (in_map (fun p => celda (columna_estado p) row) _ _ Hpos)).
        rewrite (Hcell pos Hpos) in Hnone. injection Hnone as Hnone.
        rewrite Hnone in Hin.
        assert (existsb es_None (estados_de posiciones row) = true)
          by (apply existsb_exists; exists VNone; auto).
        congruence.
    + intros _. exists (cadenas (estados_de posiciones row)).
      split; [assumption|]. split; [assumption|]. split; [reflexivity|].
      rewrite length_tokens_desde. unfold estados_de. rewrite Hlen.
      unfold keys. now rewrite length_map.
Qed.

(** ** The tables of the multi-locus summary *)

Lemma analizar_resumen_multiple (args : Args) (h : Hoja)
  (posiciones : dict (dict float)) (df resultados_df : DataFrame) :
  analizar py_float to_numeric_texto args h = Ok (posiciones, df, resultados_df) ->
  1 < List.length posiciones ->
  let genotipos := cadenas (map (celda GENOTIPO_RESULTANTE) resultados_df) in
  resumen posiciones df
  = Ok (ResumenGenotipos
          (lineas_de (List.length (registros h)) (Counter genotipos))
          (lineas_por_alelo (alelos_posibles (List.length posiciones))
                            genotipos))
  /\ List.length genotipos = List.length (registros h).
Proof.
  intros Ha Hn genotipos.
  destruct (analizar_columna_genotipo _ _ _ _ _ Ha Hn) as (Hcol & Hstr & L).
  pose proof (analizar_tablas _ _ _ _ _ Ha) as (_ & _ & _ & Ldf & _).
  split; [|exact L]. unfold resumen.
  destruct (Nat.ltb_spec 1 (List.length posiciones)) as [_|]; [|lia].
  rewrite (resumen_multiple_lineas posiciones df _ _ Hcol Hstr), Ldf.
  reflexivity.
Qed.

(** X4.  With several loci, a run that writes the summary writes a
    table of genotypes with one line for each distinct genotype string of
    the table written, the undetermined one included, in the order of their
    first appearance; the count of a line is the number of samples with that
    genotype and its percentage, written with two decimals, the binary64
    value of that count over the number of samples, times 100.  The counts
    add up to the number of samples and, when there is a sample, the exact
    quotients count / samples * 100 to 100. *)
Theorem distribucion_de_genotipos (args : Args) (fs : Entorno)
  (h : Hoja) (posiciones : dict (dict float)) (df resultados_df : DataFrame)
  (path : string) :
  num_mutaciones args = Z.of_nat (List.length (tm args)) ->
  fs (file args) = Some h ->
  analizar py_float to_numeric_texto args h = Ok (posiciones, df, resultados_df) ->
  1 < List.length posiciones ->
  txt args = Some path -> path <> "" ->
  escribir fs (output args) = Escribe -> escribir fs path = Escribe ->
  let genotipos := cadenas (map (celda GENOTIPO_RESULTANTE) resultados_df) in
  let muestras := List.length (registros h) in
  exists traza dist ale,
    main py_float to_numeric_texto args fs = (traza, Ok tt)
    /\ In (EvWrite path (ResumenGenotipos dist ale)) traza
    /\ map (fun l => fst (fst l)) dist = primeras_apariciones genotipos
    /\ (forall g c t,
          In (g, c, t) dist <->
          c = veces g genotipos /\ 0 < c
          /\ t = campo_porcentaje (porcentaje_binario c muestras))
    /\ list_sum (map (fun l => snd (fst l)) dist) = muestras
    /\ (0 < muestras ->
        (suma_Q (porcentajes_exactos muestras dist) == 100)%Q).
Proof.
  intros Hn Hfs Ha Hlen Htxt Hpath Hout Hsal genotipos muestras.
  destruct (analizar_resumen_multiple _ _ _ _ _ Ha Hlen) as (Hr & L).
  fold genotipos in Hr, L. fold muestras in Hr, L.
  destruct (main_con_resumen _ _ _ _ _ _ _ _ Hn Hfs Ha Htxt Hpath Hout Hsal Hr)
    as (traza & Hm & _ & Hw).
  destruct (Counter_spec genotipos) as (_ & Hc & Hs).
  eexists traza, _, _. split; [exact Hm|]. split; [exact Hw|].
  split; [|split; [|split]].
  - unfold lineas_de. rewrite map_map, <- Counter_keys. unfold keys.
    apply map_ext. now intros [k c].
  - intros g c t. unfold lineas_de. rewrite in_map_iff. split.
    + intros ([k c'] & [= -> -> <-] & Hin). apply Hc in Hin. tauto.
    + intros (-> & Hpos & ->). exists (g, veces g genotipos).
      split; [reflexivity|]. apply Hc. auto.
  - unfold lineas_de. rewrite map_map, <- L, <- Hs. f_equal.
    apply map_ext. now intros [k c].
  - intros Hpos. rewrite suma_porcentajes by lia. rewrite Hs, L.
    apply porcentaje_exacto_todo. lia.
Qed.

(** X10.  In the per-allele table of that summary the counts add up to
    the total the percentages are taken of; each percentage is written with
    two decimals from the binary64 value of count / total * 100, and the
    exact quotients count / total * 100 of the lines add up to 100 whenever
    a token occurs (the two-decimal texts need not).  With at most nine loci
    the total is the number of loci times the number of samples whose states
    are all determined: such a sample has one token for each locus. *)
Theorem total_por_alelo (args : Args) (fs : Entorno)
  (h : Hoja) (posiciones : dict (dict float)) (df resultados_df : DataFrame)
  (path : string) :
  num_mutaciones args = Z.of_nat (List.length (tm args)) ->
  fs (file args) = Some h ->
  analizar py_float to_numeric_texto args h = Ok (posiciones, df, resultados_df) ->
  1 < List.length posiciones ->
  txt args = Some path -> path <> "" ->
  escribir fs (output args) = Escribe -> escribir fs path = Escribe ->
  let genotipos := cadenas (map (celda GENOTIPO_RESULTANTE) resultados_df) in
  let total :=
    total_ocurrencias (alelos_posibles (List.length posiciones)) genotipos in
  exists traza dist ale,
    main py_float to_numeric_texto args fs = (traza, Ok tt)
    /\ In (EvWrite path (ResumenGenotipos dist ale)) traza
    /\ list_sum (map (fun l => snd (fst l)) ale) = total
    /\ (0 < total ->
        (forall a c t, In (a, c, t) ale ->
           t = campo_porcentaje (porcentaje_binario c total))
        /\ (suma_Q (porcentajes_exactos total ale) == 100)%Q)
    /\ (List.length posiciones <= 9 ->
        total = List.length posiciones
                * List.length (determinados posiciones resultados_df)).
Proof.
  intros Hn Hfs Ha Hlen Htxt Hpath Hout Hsal genotipos total.
  destruct (analizar_resumen_multiple _ _ _ _ _ Ha Hlen) as (Hr & L).
  fold genotipos in Hr, L.
  destruct (main_con_resumen _ _ _ _ _ _ _ _ Hn Hfs Ha Htxt Hpath Hout Hsal Hr)
    as (traza & Hm & _ & Hw).
  eexists traza, _, _. split; [exact Hm|]. split; [exact Hw|].
  split; [|split].
  - unfold lineas_por_alelo. rewrite map_map. reflexivity.
  - intros Hpos. split; [|now apply suma_por_alelo].
    intros a c t Hin. unfold lineas_por_alelo in Hin.
    apply in_map_iff in Hin. destruct Hin as (a' & [= <- <- <-] & _).
    fold total. now destruct (Nat.ltb_spec 0 total); [|lia].
  - intros H9. exact (proj2 (analizar_tokens _ _ _ _ _ Ha Hlen H9)).
Qed.

(** ** What the analysis depends on *)

(** X7.  When Tm columns are missing, the error names the column of the
    first locus, in the order of configuration, that has none; the run ends
    there with the file read and nothing written. *)
Theorem primera_columna_faltante (args : Args) (fs : Entorno)
  (h : Hoja) (posiciones : dict (dict float)) (antes despues : list string)
  (pos : string) :
  num_mutaciones args = Z.of_nat (List.length (tm args)) ->
  fs (file args) = Some h ->
  procesar_tm py_float (tm args) = Ok posiciones ->
  keys posiciones = (antes ++ pos :: despues)%list ->
  (forall p, In p antes -> In (columna_tm p) (encabezado h)) ->
  ~ In (columna_tm pos) (encabezado h) ->
  main py_float to_numeric_texto args fs
  = ([EvExists (file args); EvReadExcel (file args)],
     Err (ColumnaFaltante (columna_tm pos))).
Proof.
  intros Hn Hfs Htm Hk Hantes Hpos. apply (main_analizar_Err _ _ h); auto.
  unfold analizar. rewrite Htm. cbn [bind].
  unfold clasificar, verificar_columnas. rewrite Hk.
  rewrite (verificar_columnas_falta to_numeric_texto _ _ _ _ _ _
             (tiene_columnas_read_excel h) Hantes Hpos).
  reflexivity.
Qed.

(** X11.  The analysis reads a sheet through the numeric readings of
    the measured columns of the configured loci and through nothing else:
    a second sheet that has those columns and gives, sample by sample, the
    same readings is analysed into the same tables, whatever its other
    columns, the order of its columns, or the texts it holds where the first
    has none. *)
Theorem columnas_ignoradas (args : Args) (h h' : Hoja)
  (posiciones : dict (dict float)) (df resultados_df : DataFrame) :
  analizar py_float to_numeric_texto args h = Ok (posiciones, df, resultados_df) ->
  (forall pos, In pos (keys posiciones) -> In (columna_tm pos) (encabezado h')) ->
  Forall2 (fun reg reg' =>
             forall pos, In pos (keys posiciones) ->
               medido to_numeric_texto (armar_fila (encabezado h) reg) pos
               = medido to_numeric_texto (armar_fila (encabezado h') reg') pos)
          (registros h) (registros h') ->
  analizar py_float to_numeric_texto args h' = Ok (posiciones, df, resultados_df).
Proof.
  intros Ha Hcols Hregs. apply analizar_Ok in Ha.
  destruct Ha as (Htm & Hc & Hsel).
  pose proof (procesar_tm_bien_formado _ _ _ Htm) as (Hnd & _).
  apply analizar_Ok. split; [assumption|]. split; [|assumption].
  apply clasificar_filas in Hc. destruct Hc as (_ & _ & Hfilas).
  apply clasificar_filas. split; [assumption|]. split; [reflexivity|].
  unfold read_excel in *. apply Forall2_map_l in Hfilas. apply Forall2_map_l.
  refine (Forall2_trasladar _ _ _ _ _ _ _ Hregs Hfilas).
  intros reg reg' fila Hmed Hp.
  apply (procesar_fila_ext to_numeric_texto _ _ _ _ Hnd) with (3 := Hp).
  - intros pos Hpos. rewrite keys_armar_fila. now apply Hcols.
  - exact Hmed.
Qed.

(** X12.  Samples are analysed one by one: a sheet whose records are
    those of one sheet followed by those of another is analysed into the
    rows of the first followed by the rows of the second, and it is analysed
    exactly when both are. *)
Theorem muestras_independientes (args : Args) (enc : list string)
  (r1 r2 : list (list value)) (posiciones : dict (dict float))
  (df resultados_df : DataFrame) :
  r1 <> [] -> r2 <> [] ->
  (analizar py_float to_numeric_texto args
     {| encabezado := enc; registros := (r1 ++ r2)%list |}
   = Ok (posiciones, df, resultados_df)
   <-> exists df1 res1 df2 res2,
        analizar py_float to_numeric_texto args
          {| encabezado := enc; registros := r1 |} = Ok (posiciones, df1, res1)
        /\ analizar py_float to_numeric_texto args
             {| encabezado := enc; registros := r2 |} = Ok (posiciones, df2, res2)
        /\ df = (df1 ++ df2)%list
        /\ resultados_df = (res1 ++ res2)%list).
Proof.
  intros _ _. split.
  - intros Ha. apply analizar_Ok in Ha. destruct Ha as (Htm & Hc & Hsel).
    apply clasificar_filas in Hc. destruct Hc as (Hcols & _ & Hfilas).
    unfold read_excel in Hfilas. cbn [encabezado registros] in Hfilas.
    rewrite map_app in Hfilas. apply Forall2_app_inv_l in Hfilas.
    destruct Hfilas as (df1 & df2 & F1 & F2 & ->).
    unfold seleccionar in Hsel. apply mapM_Forall2 in Hsel.
    apply Forall2_app_inv_l in Hsel.
    destruct Hsel as (res1 & res2 & S1 & S2 & ->).
    exists df1, res1, df2, res2.
    split; [|split; [|split; reflexivity]];
      apply analizar_Ok; (split; [assumption|]);
      (split; [apply clasificar_filas; auto | now apply mapM_Forall2]).
  - intros (df1 & res1 & df2 & res2 & H1 & H2 & -> & ->).
    apply analizar_Ok in H1. destruct H1 as (Htm & Hc1 & Hs1).
    apply analizar_Ok in H2. destruct H2 as (_ & Hc2 & Hs2).
    apply clasificar_filas in Hc1. destruct Hc1 as (Hcols & _ & F1).
    apply clasificar_filas in Hc2. destruct Hc2 as (_ & _ & F2).
    unfold seleccionar in Hs1, Hs2.
    apply mapM_Forall2 in Hs1. apply mapM_Forall2 in Hs2.
    apply analizar_Ok. split; [assumption|]. split.
    + apply clasificar_filas. split; [assumption|]. split; [reflexivity|].
      unfold read_excel in *. cbn [encabezado registros] in *.
      rewrite map_app. now apply Forall2_app.
    + apply mapM_Forall2. now apply Forall2_app.
Qed.

(** ** The lines of the single-locus summary *)

Lemma analizar_celda_valida (args : Args) (h : Hoja)
  (posiciones : dict (dict float)) (df resultados_df : DataFrame)
  (row : fila) (pos : string) :
  analizar py_float to_numeric_texto args h = Ok (posiciones, df, resultados_df) ->
  In row resultados_df -> In pos (keys posiciones) ->
  estado_valido posiciones pos (celda (columna_estado pos) row).
Proof.
  intros H Hrow Hpos. apply analizar_tablas in H.
  destruct H as (Hbf & Hfilas & Hsel & _).
  destruct (Forall2_In_r _ _ _ _ Hsel Hrow) as (fila & Hfila & Hs).
  destruct (Forall2_In_r _ _ _ _ Hfilas Hfila) as (row0 & _ & Hp).
  destruct (procesar_fila_estado to_numeric_texto _ _ _ _ Hp (proj1 Hbf) Hpos)
    as (w & Hw & Hval).
  unfold celda.
  rewrite (seleccionar_fila_get _ _ _ _ Hs (In_cols_resultado_estado _ _ Hpos)).
  now rewrite Hw.
Qed.

(** X13.  With one locus, the lines of the summary come in the order in
    which the states first appear in the table, every line is for a state
    configured for the locus, so there are at most as many lines as
    configured states, and, when there is a sample, the exact quotients
    count / samples * 100 of the lines add up to the share of the samples
    with a determined state, times 100. *)
Theorem estados_en_orden (args : Args) (fs : Entorno)
  (h : Hoja) (pos : string) (tm_dict : dict float)
  (df resultados_df : DataFrame) (path : string) :
  num_mutaciones args = Z.of_nat (List.length (tm args)) ->
  fs (file args) = Some h ->
  analizar py_float to_numeric_texto args h
  = Ok ([(pos, tm_dict)], df, resultados_df) ->
  txt args = Some path -> path <> "" ->
  escribir fs (output args) = Escribe -> escribir fs path = Escribe ->
  let col := map (celda (columna_estado pos)) resultados_df in
  let muestras := List.length (registros h) in
  exists traza dist,
    main py_float to_numeric_texto args fs = (traza, Ok tt)
    /\ In (EvWrite path (ResumenEstados pos dist)) traza
    /\ map (fun l => fst (fst l)) dist = primeras_apariciones (cadenas col)
    /\ (forall estado, In estado (map (fun l => fst (fst l)) dist) ->
                       In estado (keys tm_dict))
    /\ List.length dist <= List.length tm_dict
    /\ (0 < muestras ->
        (suma_Q (porcentajes_exactos muestras dist)
         == porcentaje_exacto (muestras - indeterminadas col) muestras)%Q).
Proof.
  intros Hn Hfs Ha Htxt Hpath Hout Hsal col muestras.
  destruct (analizar_columna_estado _ _ _ _ _ pos Ha) as (Hcol & Hest);
    [now left|].
  pose proof (analizar_tablas _ _ _ _ _ Ha) as ((_ & Hbf) & _ & _ & Ldf & Lres).
  pose proof (resumen_simple_lineas pos tm_dict df col Hcol Hest) as Hr.
  destruct (main_con_resumen _ _ _ _ _ _ _ _ Hn Hfs Ha Htxt Hpath Hout Hsal Hr)
    as (traza & Hm & _ & Hw).
  destruct (Counter_spec (cadenas col)) as (Hnd & _ & Hs).
  pose proof (length_cadenas col Hest) as Lc.
  assert (Lcol : List.length col = muestras)
    by (unfold col; now rewrite length_map).
  assert (Hk : map (fun l : string * nat * string => fst (fst l))
                   (lineas_de (List.length df) (Counter (cadenas col)))
               = keys (Counter (cadenas col))).
  { unfold lineas_de. rewrite map_map. unfold keys. apply map_ext.
    now intros [k c]. }
  assert (Hin : forall estado, In estado (keys (Counter (cadenas col))) ->
                               In estado (keys tm_dict)).
  { intros estado He. rewrite Counter_keys in He.
    assert (Hc : In estado (cadenas col)).
    { revert He. unfold primeras_apariciones.
      assert (G : forall xs acc, In estado (fold_left paso_aparicion xs acc) ->
                                 In estado acc \/ In estado xs).
      { induction xs as [|x xs IH]; intros acc Hx; [now left|].
        cbn [fold_left] in Hx. apply IH in Hx. destruct Hx as [Hx|Hx].
        - unfold paso_aparicion in Hx.
          destruct (existsb (String.eqb x) acc); [now left|].
          apply in_app_or in Hx. destruct Hx as [Hx|[<-|[]]];
            [now left | right; now left].
        - right. now right. }
      intros He. destruct (G _ _ He) as [[]|Hx]. exact Hx. }
    unfold cadenas in Hc. apply in_flat_map in Hc.
    destruct Hc as (v & Hv & Hc). unfold col in Hv. apply in_map_iff in Hv.
    destruct Hv as (row & <- & Hrow).
    destruct (analizar_celda_valida _ _ _ _ _ row pos Ha Hrow)
      as [Hnone|(e & d & Hstr & Hget & Hkeys)]; [now left| |].
    - rewrite Hnone in Hc. destruct Hc.
    - rewrite Hstr in Hc. destruct Hc as [<-|[]].
      cbn [dict_get] in Hget. rewrite String.eqb_refl in Hget.
      now injection Hget as <-. }
  eexists traza, _. split; [exact Hm|]. split; [exact Hw|].
  split; [|split; [|split]].
  - rewrite Hk. apply Counter_keys.
  - intros estado He. rewrite Hk in He. now apply Hin.
  - unfold lineas_de. rewrite length_map.
    replace (List.length (Counter (cadenas col)))
      with (List.length (keys (Counter (cadenas col))))
      by (unfold keys; apply length_map).
    replace (List.length tm_dict) with (List.length (keys tm_dict))
      by (unfold keys; apply length_map).
    apply NoDup_incl_length; [assumption | exact Hin].
  - intros Hpos. rewrite Ldf. fold muestras.
    rewrite suma_porcentajes by lia.
    rewrite Hs. replace (List.length (cadenas col))
      with (muestras - indeterminadas col) by lia.
    reflexivity.
Qed.

End Corrida.

(** * Worked runs *)

(** The example of the specification: against 1016:S:73.2,H:72.66,R:72.21
    a sample measured at 72.70 is heterozygous, and with the second locus
    the sample measured at 73.19 and 82.35 is "SR2". *)
Example corrida_de_ejemplo :
  exists df,
    analizar float_decimal float_decimal (args_con 2 tm_ejemplo None) hoja_ejemplo
    = Ok (posiciones_ejemplo, df,
          [[("Tm_1016", VFloat 73.19); ("Tm_1534", VFloat 82.35);
            ("Estado_1016", VStr "Sensible"); ("Estado_1534", VStr "Resistente");
            ("Genotipo_Resultante", VStr "SR2")];
           [("Tm_1016", VFloat 72.70); ("Tm_1534", VFloat nan);
            ("Estado_1016", VStr "Heterocigoto"); ("Estado_1534", VNone);
            ("Genotipo_Resultante", VStr "No se pudo determinar")];
           [("Tm_1016", VFloat 72.2); ("Tm_1534", VFloat nan);
            ("Estado_1016", VStr "Resistente"); ("Estado_1534", VNone);
            ("Genotipo_Resultante", VStr "No se pudo determinar")];
           [("Tm_1016", VFloat 73.0); ("Tm_1534", VFloat nan);
            ("Estado_1016", VStr "Sensible"); ("Estado_1534", VNone);
            ("Genotipo_Resultante", VStr "No se pudo determinar")]]).
Proof. eexists. vm_compute. reflexivity. Qed.

(** The labels 1016 and 1534 keep the columns of the table apart, and so
    every state of that run is the first of the nearest ones. *)
Example etiquetas_de_ejemplo : sin_homonimas posiciones_ejemplo.
Proof. apply sin_repetidos_NoDup. vm_compute. reflexivity. Qed.

(** C1 at two loci labelled "Tm" and "Sensible".  The sample measures 90
    at the locus "Sensible", which is 10 from the reference of Resistente
    and 88 from that of Sensible; the run writes Sensible for it, and 49,
    the difference column of the locus "Tm", as its measured Tm. *)
Lemma estado_lejano_con_columnas_homonimas :
  main float_decimal float_decimal (args_con 2 tm_homonimas None)
       (fs_con (hoja_homonimas (VFloat 50) (VFloat 90)))
  = ([EvExists "muestras.xlsx"; EvReadExcel "muestras.xlsx";
      EvToExcel "resultados.xlsx"
        [[("Tm_Tm", VFloat 50); ("Tm_Sensible", VFloat 49);
          ("Estado_Tm", VStr "Sensible"); ("Estado_Sensible", VStr "Sensible");
          ("Genotipo_Resultante", VStr "SS")]];
      EvPrint "Resultados guardados en 'resultados.xlsx'."], Ok tt)
  /\ procesar_tm float_decimal tm_homonimas
     = Ok [("Tm", [("Sensible", 1%float)]);
           ("Sensible", [("Sensible", 2%float); ("Resistente", 100%float)])]
  /\ (abs_diff 90 100 <? abs_diff 90 2)%float = true.
Proof. vm_compute. auto. Qed.

(** C2 at the same two loci.  The sample has no Tm at the locus
    "Sensible"; the run writes the state Sensible for it and the genotype
    "SS". *)
Lemma estado_sin_medida_con_columnas_homonimas :
  isna (VFloat (to_numeric float_decimal (VFloat nan))) = true
  /\ main float_decimal float_decimal (args_con 2 tm_homonimas None)
          (fs_con (hoja_homonimas (VFloat 50) (VFloat nan)))
     = ([EvExists "muestras.xlsx"; EvReadExcel "muestras.xlsx";
         EvToExcel "resultados.xlsx"
           [[("Tm_Tm", VFloat 50); ("Tm_Sensible", VFloat 49);
             ("Estado_Tm", VStr "Sensible"); ("Estado_Sensible", VStr "Sensible");
             ("Genotipo_Resultante", VStr "SS")]];
         EvPrint "Resultados guardados en 'resultados.xlsx'."], Ok tt).
Proof. vm_compute. auto. Qed.

(** C4 at such two loci.  The sample measures 50 at the locus "Sensible",
    10 from the reference of Sensible, given first, and 10 from that of
    Resistente; the run writes Resistente. *)
Lemma empate_con_columnas_homonimas :
  procesar_tm float_decimal tm_homonimas_empate
  = Ok [("Tm", [("Sensible", 1%float)]);
        ("Sensible", [("Sensible", 40%float); ("Resistente", 60%float)])]
  /\ (abs_diff 50 40 =? abs_diff 50 60)%float = true
  /\ main float_decimal float_decimal (args_con 2 tm_homonimas_empate None)
          (fs_con (hoja_homonimas (VFloat 91) (VFloat 50)))
     = ([EvExists "muestras.xlsx"; EvReadExcel "muestras.xlsx";
         EvToExcel "resultados.xlsx"
           [[("Tm_Tm", VFloat 91); ("Tm_Sensible", VFloat 90);
             ("Estado_Tm", VStr "Sensible"); ("Estado_Sensible", VStr "Resistente");
             ("Genotipo_Resultante", VStr "SR2")]];
         EvPrint "Resultados guardados en 'resultados.xlsx'."], Ok tt).
Proof. vm_compute. auto. Qed.

(** C3: two arguments for the same position give one locus, the second
    argument replacing the first. *)
Lemma numero_de_loci_contraejemplo :
  procesar_tm float_decimal
    ["1016:S:73.2,H:72.66,R:72.21"; "1016:S:81.71,H:81.81"]
  = Ok [("1016", [("Sensible", 81.71); ("Heterocigoto", 81.81)]%float)]
  /\ List.length [("1016", [("Sensible", 81.71); ("Heterocigoto", 81.81)]%float)]
     <> List.length ["1016:S:73.2,H:72.66,R:72.21"; "1016:S:81.71,H:81.81"].
Proof. split; [vm_compute; reflexivity | discriminate]. Qed.

Lemma numero_de_loci_witness :
  keys posiciones_ejemplo = primeras_apariciones (map etiqueta tm_ejemplo)
  /\ List.length posiciones_ejemplo <= List.length tm_ejemplo
  /\ (List.length posiciones_ejemplo = List.length tm_ejemplo
      <-> NoDup (map etiqueta tm_ejemplo))
  /\ (forall posiciones',
        procesar_tm float_decimal tm_ejemplo = Ok posiciones' ->
        posiciones' = posiciones_ejemplo).
Proof.
  apply (numero_de_loci float_decimal tm_ejemplo posiciones_ejemplo).
  vm_compute. reflexivity.
Defined.

(** C5: the token X comes with a value that is no number, and the run
    fails on the value; the error does not carry the token. *)
Lemma estado_por_primera_letra_contraejemplo :
  clave_por_inicial (strip "X") = None
  /\ procesar_tm float_decimal ["1016:X:abc"]
     = Err (ErrorFormato "1016:X:abc" (ValorNoNumerico "abc")).
Proof. split; vm_compute; reflexivity. Qed.

Lemma estado_por_primera_letra_witness :
  procesar_tm float_decimal ["1016:S:73.2"; "1534:s:81.71, X :81.81,R:82.36"]
  = Err (ErrorFormato "1534:s:81.71, X :81.81,R:82.36" (EstadoNoReconocido "X"))
  /\ mensaje (ErrorFormato "1534:s:81.71, X :81.81,R:82.36"
                (EstadoNoReconocido "X"))
     = Some "Error en formato de -t '1534:s:81.71, X :81.81,R:82.36': Estado 'X' no reconocido.".
Proof.
  apply (proj2 (estado_por_primera_letra float_decimal)
           ["1016:S:73.2"] [] [("1016", [("Sensible", 73.2%float)])]
           "1534:s:81.71, X :81.81,R:82.36" "1534" "s:81.71, X :81.81,R:82.36"
           ["s:81.71"] ["R:82.36"] [("Sensible", 81.71%float)]
           " X :81.81" " X " "81.81" 81.81%float);
    vm_compute; reflexivity.
Defined.

(** C6: [-n 2] with one [-t]. *)
Lemma fallo_sin_salida_witness :
  main float_decimal float_decimal (args_con 2 ["1016:S:73.2,H:72.66,R:72.21"] None)
       (fs_con hoja_ejemplo)
  = ([], Err (ErrorCantidad 2 1))
  /\ mensaje (ErrorCantidad 2 1)
     = Some "Error: -n=2 pero se definieron 1 mutaciones con -t.".
Proof.
  apply (proj1 (fallo_sin_salida float_decimal float_decimal
                  (args_con 2 ["1016:S:73.2,H:72.66,R:72.21"] None)
                  (fs_con hoja_ejemplo))).
  vm_compute. discriminate.
Defined.

(** C7: four samples at one locus, one of them undetermined.  The run
    writes Sensible 2, 50.00% and Resistente 1, 25.00%. *)
Example resumen_de_un_locus_ejemplo :
  exists traza,
    main float_decimal float_decimal
         (args_con 1 tm_un_locus (Some "resumen.txt")) (fs_con hoja_un_locus)
    = (traza, Ok tt)
    /\ In (EvToExcel "resultados.xlsx" tabla_un_locus) traza
    /\ In (EvWrite "resumen.txt"
             (ResumenEstados "1016"
                [("Sensible", 2, "50.00%"); ("Resistente", 1, "25.00%")]))
          traza
    /\ (suma_Q (porcentajes_exactos 4%nat
                  [("Sensible", 2%nat, "50.00%");
                   ("Resistente", 1%nat, "25.00%")])
        == 75)%Q.
Proof.
  eexists. split; [vm_compute; reflexivity|].
  repeat split; try (cbn; auto 12).
Qed.

Lemma resumen_de_un_locus_witness :
  exists traza dist,
    main float_decimal float_decimal
         (args_con 1 tm_un_locus (Some "resumen.txt")) (fs_con hoja_un_locus)
    = (traza, Ok tt)
    /\ In (EvToExcel (output (args_con 1 tm_un_locus (Some "resumen.txt")))
             tabla_un_locus) traza
    /\ In (EvWrite "resumen.txt" (ResumenEstados "1016" dist)) traza
    /\ NoDup (map (fun l => fst (fst l)) dist)
    /\ (forall estado c t,
          In (estado, c, t) dist <->
          c = determinadas estado
                (map (celda (columna_estado "1016")) tabla_un_locus)
          /\ 0 < c
          /\ t = campo_porcentaje
                   (porcentaje_binario c
                      (List.length (registros hoja_un_locus))))
    /\ list_sum (map (fun l => snd (fst l)) dist)
       + indeterminadas (map (celda (columna_estado "1016")) tabla_un_locus)
       = List.length (registros hoja_un_locus)
    /\ (0 < indeterminadas (map (celda (columna_estado "1016")) tabla_un_locus)
        -> (suma_Q (porcentajes_exactos
                      (List.length (registros hoja_un_locus)) dist)
            < 100)%Q).
Proof.
  eapply (resumen_de_un_locus float_decimal float_decimal
            (args_con 1 tm_un_locus (Some "resumen.txt")) (fs_con hoja_un_locus)
            hoja_un_locus "1016" _ _ tabla_un_locus "resumen.txt").
  - reflexivity.
  - reflexivity.
  - vm_compute. reflexivity.
  - reflexivity.
  - discriminate.
  - reflexivity.
  - reflexivity.
Defined.

(** C7, the percentages as written: of 6669 samples at one locus one is
    undetermined, 1905 are Sensible, 1905 Heterocigoto and 2858 Resistente.
    The run writes 28.57%, 28.57% and 42.86%, which add up to 100, not to
    less. *)
Lemma resumen_de_un_locus_contraejemplo :
  snd (main float_decimal float_decimal
            (args_con 1 tm_un_locus (Some "resumen.txt")) (fs_con hoja_redondeo))
  = Ok tt
  /\ resumenes_escritos
       (fst (main float_decimal float_decimal
                  (args_con 1 tm_un_locus (Some "resumen.txt"))
                  (fs_con hoja_redondeo)))
     = [ResumenEstados "1016"
          [("Sensible", 1905, "28.57%"); ("Heterocigoto", 1905, "28.57%");
           ("Resistente", 2858, "42.86%")]]
  /\ match analizar float_decimal float_decimal
                    (args_con 1 tm_un_locus (Some "resumen.txt")) hoja_redondeo
     with
     | Ok (_, _, resultados_df) =>
         indeterminadas (map (celda (columna_estado "1016")) resultados_df)
     | Err _ => 0
     end = 1
  /\ (suma_Q (map porcentaje_escrito ["28.57%"; "28.57%"; "42.86%"]) == 100)%Q
  /\ ~ (suma_Q (map porcentaje_escrito ["28.57%"; "28.57%"; "42.86%"])
        < 100)%Q.
Proof.
  split; [vm_compute; reflexivity|]. split; [vm_compute; reflexivity|].
  split; [vm_compute; reflexivity|]. split; [vm_compute; reflexivity|].
  intros H. vm_compute in H. discriminate.
Qed.

(** C8.  Ten loci and one sample, Sensible at the first nine and
    Heterocigoto at the tenth: its genotype is "SSSSSSSSSH10" and it has no
    token H1.  The run counts H1 once, inside H10, takes the percentages of
    11 occurrences where the sample has 10 tokens, and writes H1 1, 9.09%. *)
Lemma resumen_por_alelo_con_diez_loci :
  snd (main float_decimal float_decimal
            (args_con 10 tm_diez_loci (Some "resumen.txt"))
            (fs_con hoja_diez_loci))
  = Ok tt
  /\ resumenes_escritos
       (fst (main float_decimal float_decimal
                  (args_con 10 tm_diez_loci (Some "resumen.txt"))
                  (fs_con hoja_diez_loci)))
     = [ResumenGenotipos
          [("SSSSSSSSSH10", 1, "100.00%")]
          [("H1", 1, "9.09%"); ("R1", 0, "0.00%");
           ("H2", 0, "0.00%"); ("R2", 0, "0.00%");
           ("H3", 0, "0.00%"); ("R3", 0, "0.00%");
           ("H4", 0, "0.00%"); ("R4", 0, "0.00%");
           ("H5", 0, "0.00%"); ("R5", 0, "0.00%");
           ("H6", 0, "0.00%"); ("R6", 0, "0.00%");
           ("H7", 0, "0.00%"); ("R7", 0, "0.00%");
           ("H8", 0, "0.00%"); ("R8", 0, "0.00%");
           ("H9", 0, "0.00%"); ("R9", 0, "0.00%");
           ("H10", 1, "9.09%"); ("R10", 0, "0.00%");
           ("S", 9, "81.82%")]]
  /\ match analizar float_decimal float_decimal
                    (args_con 10 tm_diez_loci (Some "resumen.txt"))
                    hoja_diez_loci
     with
     | Ok (posiciones, _, resultados_df) =>
         map (fun row => tokens_de_muestra (estados_de posiciones row))
             resultados_df
     | Err _ => []
     end
     = [["S"; "S"; "S"; "S"; "S"; "S"; "S"; "S"; "S"; "H10"]]
  /\ veces "H1" ["S"; "S"; "S"; "S"; "S"; "S"; "S"; "S"; "S"; "H10"] = 0
  /\ ocurrencias "H1" ["SSSSSSSSSH10"] = 1.
Proof. repeat split; vm_compute; reflexivity. Qed.

(** Four samples at two loci with the genotypes SR2, undetermined, H1H2
    and SR2.  The tokens occur 1, 0, 1, 2 and 2 times, 6 times in all. *)
Example resumen_de_dos_loci_ejemplo :
  exists traza,
    main float_decimal float_decimal
         (args_con 2 tm_ejemplo (Some "resumen.txt")) (fs_con hoja_dos_loci)
    = (traza, Ok tt)
    /\ In (EvToExcel "resultados.xlsx" tabla_dos_loci) traza
    /\ In (EvWrite "resumen.txt"
             (ResumenGenotipos
                [("SR2", 2, "50.00%");
                 ("No se pudo determinar", 1, "25.00%");
                 ("H1H2", 1, "25.00%")]
                [("H1", 1, "16.67%"); ("R1", 0, "0.00%");
                 ("H2", 1, "16.67%"); ("R2", 2, "33.33%");
                 ("S", 2, "33.33%")]))
          traza.
Proof.
  eexists. split; [vm_compute; reflexivity|].
  repeat split; try (cbn; auto 12).
Qed.

(** C10: two samples at two loci, each with one Tm missing.  Every
    genotype is the undetermined one, no token occurs, and every line of the
    per-allele table is 0, 0.00%. *)
Lemma porcentaje_sin_ocurrencias_witness :
  (forall c, porcentaje c 0 = Err ZeroDivisionError)
  /\ total_ocurrencias
       (alelos_posibles (List.length posiciones_ejemplo))
       (cadenas (map (celda GENOTIPO_RESULTANTE) tabla_indeterminada)) = 0
  /\ exists traza dist,
      main float_decimal float_decimal
           (args_con 2 tm_ejemplo (Some "resumen.txt"))
           (fs_con hoja_indeterminada)
      = (traza, Ok tt)
      /\ In (EvToExcel "resultados.xlsx" tabla_indeterminada) traza
      /\ In (EvWrite "resumen.txt"
               (ResumenGenotipos dist
                  [("H1", 0, "0.00%"); ("R1", 0, "0.00%"); ("H2", 0, "0.00%");
                   ("R2", 0, "0.00%"); ("S", 0, "0.00%")]))
            traza.
Proof.
  refine (match porcentaje_sin_ocurrencias float_decimal float_decimal
                  (args_con 2 tm_ejemplo (Some "resumen.txt"))
                  (fs_con hoja_indeterminada)
                  hoja_indeterminada posiciones_ejemplo _ tabla_indeterminada
                  "resumen.txt" eq_refl eq_refl _ _ eq_refl _ eq_refl eq_refl
          with
          | conj H1 (conj H2 H3) => conj H1 (conj (H2 _) (H3 (H2 _)))
          end).
  - vm_compute. reflexivity.
  - simpl. lia.
  - discriminate.
  - intros row [<-|[<-|[]]]; reflexivity.
  - intros row [<-|[<-|[]]]; reflexivity.
Defined.

(** C9: the locus 1016 given the states Sensible and Resistente only, and
    the second sample of the example, measured at 72.70.  With three states
    it is Heterocigoto; here its state is determined and is one of the two
    supplied. *)
Lemma estado_asignado_configurado_witness :
  exists e,
    dict_get (columna_estado "1016")
      [("Tm_1016", VFloat 72.70); ("Estado_1016", VStr "Resistente")]
    = Some (VStr e)
    /\ In e (keys [("Sensible", 73.2); ("Resistente", 72.21)]%float)
    /\ In e ESTADOS
    /\ suministrado (tm (args_con 1 tm_dos_estados None)) "1016" e.
Proof.
  assert (Ha : exists df,
             analizar float_decimal float_decimal
                      (args_con 1 tm_dos_estados None) hoja_ejemplo
             = Ok ([("1016", [("Sensible", 73.2); ("Resistente", 72.21)]%float)],
                   df,
                   [[("Tm_1016", VFloat 73.19); ("Estado_1016", VStr "Sensible")];
                    [("Tm_1016", VFloat 72.70);
                     ("Estado_1016", VStr "Resistente")];
                    [("Tm_1016", VFloat 72.2);
                     ("Estado_1016", VStr "Resistente")];
                    [("Tm_1016", VFloat 73.0); ("Estado_1016", VStr "Sensible")]]))
    by (eexists; vm_compute; reflexivity).
  destruct Ha as (df & Ha).
  destruct (estado_asignado_configurado float_decimal float_decimal
              (args_con 1 tm_dos_estados None) hoja_ejemplo _ _ _ Ha
              [("Tm_1016", VFloat 72.70); ("Estado_1016", VStr "Resistente")]
              "1016" [("Sensible", 73.2); ("Resistente", 72.21)]%float
              (or_intror (or_introl eq_refl)) (or_introl eq_refl))
    as [H|H].
  - vm_compute in H. discriminate H.
  - exact H.
Defined.

(** X1: the two-locus run; its labels keep the columns apart. *)
Lemma corrida_sin_homonimas_witness :
  Forall2 (fun reg row =>
             forall pos tm_dict, In (pos, tm_dict) posiciones_ejemplo ->
               dict_get (columna_tm pos) row
               = Some (VFloat (medido float_decimal
                                 (armar_fila (encabezado hoja_dos_loci) reg) pos))
               /\ (isnan (medido float_decimal
                            (armar_fila (encabezado hoja_dos_loci) reg) pos)
                   = true ->
                   dict_get (columna_estado pos) row = Some VNone)
               /\ (isnan (medido float_decimal
                            (armar_fila (encabezado hoja_dos_loci) reg) pos)
                   = false ->
                   exists e, dict_get (columna_estado pos) row = Some (VStr e)
                             /\ mas_cercano
                                  (medido float_decimal
                                     (armar_fila (encabezado hoja_dos_loci) reg)
                                     pos)
                                  tm_dict e))
          (registros hoja_dos_loci) tabla_dos_loci.
Proof.
  eapply (corrida_sin_homonimas float_decimal float_decimal
            (args_con 2 tm_ejemplo None) hoja_dos_loci posiciones_ejemplo _
            tabla_dos_loci).
  - vm_compute. reflexivity.
  - apply sin_repetidos_NoDup. vm_compute. reflexivity.
Defined.

(** X2: the second sample of that run, whose Tm at 1534 is a text. *)
Lemma genotipo_de_una_muestra_witness :
  exists g,
    dict_get GENOTIPO_RESULTANTE (nth 1 tabla_dos_loci []) = Some (VStr g)
    /\ (g = NO_DETERMINADO <->
        exists pos, In pos (keys posiciones_ejemplo)
                    /\ dict_get (columna_estado pos) (nth 1 tabla_dos_loci [])
                       = Some VNone)
    /\ (g <> NO_DETERMINADO ->
        exists es,
          map (fun pos => dict_get (columna_estado pos)
                            (nth 1 tabla_dos_loci []))
              (keys posiciones_ejemplo)
          = map (fun e => Some (VStr e)) es
          /\ (forall e, In e es -> In e ESTADOS)
          /\ g = String.concat "" (tokens_desde 0 es)
          /\ List.length (tokens_desde 0 es) = List.length posiciones_ejemplo).
Proof.
  eapply (genotipo_de_una_muestra float_decimal float_decimal
            (args_con 2 tm_ejemplo None) hoja_dos_loci posiciones_ejemplo _
            tabla_dos_loci).
  - vm_compute. reflexivity.
  - simpl. lia.
  - right. left. reflexivity.
Defined.

(** X3: the table of that run. *)
Lemma tabla_de_resultados_witness :
  List.length tabla_dos_loci = List.length (registros hoja_dos_loci)
  /\ forall row, In row tabla_dos_loci ->
       keys row
       = (map columna_tm (keys posiciones_ejemplo)
          ++ map columna_estado (keys posiciones_ejemplo)
          ++ (if (1 <? List.length posiciones_ejemplo)%nat
              then [GENOTIPO_RESULTANTE] else []))%list
       /\ NoDup (keys row).
Proof.
  eapply (tabla_de_resultados float_decimal float_decimal
            (args_con 2 tm_ejemplo None) hoja_dos_loci posiciones_ejemplo _
            tabla_dos_loci).
  vm_compute. reflexivity.
Defined.

(** X4: the genotypes SR2, undetermined, H1H2 and SR2 of that run. *)
Lemma distribucion_de_genotipos_witness :
  exists traza dist ale,
    main float_decimal float_decimal
         (args_con 2 tm_ejemplo (Some "resumen.txt")) (fs_con hoja_dos_loci)
    = (traza, Ok tt)
    /\ In (EvWrite "resumen.txt" (ResumenGenotipos dist ale)) traza
    /\ map (fun l => fst (fst l)) dist
       = primeras_apariciones
           (cadenas (map (celda GENOTIPO_RESULTANTE) tabla_dos_loci))
    /\ (forall g c t,
          In (g, c, t) dist <->
          c = veces g (cadenas (map (celda GENOTIPO_RESULTANTE) tabla_dos_loci))
          /\ 0 < c
          /\ t = campo_porcentaje
                   (porcentaje_binario c
                      (List.length (registros hoja_dos_loci))))
    /\ list_sum (map (fun l => snd (fst l)) dist)
       = List.length (registros hoja_dos_loci)
    /\ (0 < List.length (registros hoja_dos_loci) ->
        (suma_Q (porcentajes_exactos
                   (List.length (registros hoja_dos_loci)) dist)
         == 100)%Q).
Proof.
  eapply (distribucion_de_genotipos float_decimal float_decimal
            (args_con 2 tm_ejemplo (Some "resumen.txt")) (fs_con hoja_dos_loci)
            hoja_dos_loci posiciones_ejemplo _ tabla_dos_loci "resumen.txt").
  - reflexivity.
  - reflexivity.
  - vm_compute. reflexivity.
  - simpl. lia.
  - reflexivity.
  - discriminate.
  - reflexivity.
  - reflexivity.
Defined.

(** X5: the position 1016 is given twice, and in its second argument the
    state Sensible twice; its reference value is the 6 of the last pair. *)
Lemma valor_de_referencia_witness :
  exists antes tm_entry despues estados_str,
    tm_repetidas = (antes ++ tm_entry :: despues)%list
    /\ split1 ":" tm_entry = ["1016"; estados_str]
    /\ ~ In "1016" (map etiqueta despues)
    /\ forall e f, In (e, f) [("Sensible", 6%float)] ->
         exists previos est resto token valor,
           split "," estados_str = (previos ++ est :: resto)%list
           /\ split ":" est = [token; valor]
           /\ clave_por_inicial (strip token) = Some e
           /\ float_decimal valor = Some f
           /\ forall est', In est' resto -> ~ nombra est' e.
Proof.
  apply (valor_de_referencia float_decimal tm_repetidas
           [("1016", [("Sensible", 6%float)]);
            ("1534", [("Sensible", 3%float)])]).
  - vm_compute. reflexivity.
  - left. reflexivity.
Defined.

(** X6: the second argument has a state X; the third is not reached. *)
Lemma error_de_formato_witness :
  exists antes tm_entry despues acc e',
    tm_ilegibles = (antes ++ tm_entry :: despues)%list
    /\ procesar_tm float_decimal antes = Ok acc
    /\ procesar_tm_entry_try float_decimal [] tm_entry = Err e'
    /\ error_de_parser e'
    /\ ErrorFormato "1534:S:81.71,X:1" (EstadoNoReconocido "X")
       = ErrorFormato tm_entry e'.
Proof.
  apply (error_de_formato float_decimal tm_ilegibles).
  vm_compute. reflexivity.
Defined.

(** X7: the loci 1016 and 9999 on a sheet with Tm_1016 and Tm_1534. *)
Lemma primera_columna_faltante_witness :
  main float_decimal float_decimal
       (args_con 2 ["1016:S:73.2"; "9999:S:1"] None) (fs_con hoja_ejemplo)
  = ([EvExists "muestras.xlsx"; EvReadExcel "muestras.xlsx"],
     Err (ColumnaFaltante (columna_tm "9999"))).
Proof.
  apply (primera_columna_faltante float_decimal float_decimal
           (args_con 2 ["1016:S:73.2"; "9999:S:1"] None) (fs_con hoja_ejemplo)
           hoja_ejemplo
           [("1016", [("Sensible", 73.2%float)]);
            ("9999", [("Sensible", 1%float)])]
           ["1016"] [] "9999").
  - reflexivity.
  - reflexivity.
  - vm_compute. reflexivity.
  - reflexivity.
  - intros p [<-|[]]. vm_compute. auto.
  - vm_compute. intuition discriminate.
Defined.

(** X8: the two-locus run with a summary. *)
Lemma corrida_completa_witness :
  exists df resultados_df,
    analizar float_decimal float_decimal
             (args_con 2 tm_ejemplo (Some "resumen.txt")) hoja_dos_loci
    = Ok (posiciones_ejemplo, df, resultados_df)
    /\ List.length resultados_df = List.length (registros hoja_dos_loci)
    /\ exists r msg,
        main float_decimal float_decimal
             (args_con 2 tm_ejemplo (Some "resumen.txt")) (fs_con hoja_dos_loci)
        = ((eventos_de_tabla (args_con 2 tm_ejemplo (Some "resumen.txt"))
                             resultados_df
            ++ [EvOpen "resumen.txt"; EvWrite "resumen.txt" r; EvPrint msg])%list,
           Ok tt).
Proof.
  apply (corrida_completa float_decimal float_decimal
           (args_con 2 tm_ejemplo (Some "resumen.txt")) (fs_con hoja_dos_loci)
           hoja_dos_loci posiciones_ejemplo).
  - reflexivity.
  - reflexivity.
  - discriminate.
  - discriminate.
  - vm_compute. reflexivity.
  - apply sin_repetidos_NoDup. vm_compute. reflexivity.
  - intros pos [<-|[<-|[]]]; vm_compute; auto.
  - reflexivity.
  - intros path _. reflexivity.
Defined.

(** X9: the two-locus run with its summary under a directory that does
    not exist.  The table is written, the summary cannot be opened, and the
    run ends there. *)
Lemma error_sin_escritura_witness :
  (((eventos_de_tabla (args_con 2 tm_ejemplo (Some "nodir/resumen.txt"))
                      tabla_dos_loci = []
     /\ ErrorDeEscritura "nodir/resumen.txt"
        = ErrorCantidad
            (num_mutaciones (args_con 2 tm_ejemplo (Some "nodir/resumen.txt")))
            (List.length (tm (args_con 2 tm_ejemplo (Some "nodir/resumen.txt"))))
     /\ num_mutaciones (args_con 2 tm_ejemplo (Some "nodir/resumen.txt"))
        <> Z.of_nat
             (List.length
                (tm (args_con 2 tm_ejemplo (Some "nodir/resumen.txt")))))
    \/ (eventos_de_tabla (args_con 2 tm_ejemplo (Some "nodir/resumen.txt"))
                         tabla_dos_loci
        = [EvExists (file (args_con 2 tm_ejemplo (Some "nodir/resumen.txt")))]
        /\ ErrorDeEscritura "nodir/resumen.txt"
           = ArchivoNoEncontrado
               (file (args_con 2 tm_ejemplo (Some "nodir/resumen.txt")))
        /\ fs_sin_directorio hoja_dos_loci
             (file (args_con 2 tm_ejemplo (Some "nodir/resumen.txt"))) = None)
    \/ (exists h,
          fs_sin_directorio hoja_dos_loci
            (file (args_con 2 tm_ejemplo (Some "nodir/resumen.txt"))) = Some h
          /\ eventos_de_tabla (args_con 2 tm_ejemplo (Some "nodir/resumen.txt"))
                              tabla_dos_loci
             = [EvExists
                  (file (args_con 2 tm_ejemplo (Some "nodir/resumen.txt")));
                EvReadExcel
                  (file (args_con 2 tm_ejemplo (Some "nodir/resumen.txt")))]
          /\ (analizar float_decimal float_decimal
                       (args_con 2 tm_ejemplo (Some "nodir/resumen.txt")) h
              = Err (ErrorDeEscritura "nodir/resumen.txt")
              \/ (exists t,
                    analizar float_decimal float_decimal
                             (args_con 2 tm_ejemplo (Some "nodir/resumen.txt")) h
                    = Ok t)
                 /\ escribir (fs_sin_directorio hoja_dos_loci)
                      (output (args_con 2 tm_ejemplo (Some "nodir/resumen.txt")))
                    <> Escribe
                 /\ ErrorDeEscritura "nodir/resumen.txt"
                    = ErrorDeEscritura
                        (output
                           (args_con 2 tm_ejemplo (Some "nodir/resumen.txt")))))
    \/ (exists h posiciones df resultados_df path,
          fs_sin_directorio hoja_dos_loci
            (file (args_con 2 tm_ejemplo (Some "nodir/resumen.txt"))) = Some h
          /\ analizar float_decimal float_decimal
                      (args_con 2 tm_ejemplo (Some "nodir/resumen.txt")) h
             = Ok (posiciones, df, resultados_df)
          /\ escribir (fs_sin_directorio hoja_dos_loci)
               (output (args_con 2 tm_ejemplo (Some "nodir/resumen.txt")))
             = Escribe
          /\ txt (args_con 2 tm_ejemplo (Some "nodir/resumen.txt")) = Some path
          /\ path <> ""
          /\ escribir (fs_sin_directorio hoja_dos_loci) path <> Escribe
          /\ ErrorDeEscritura "nodir/resumen.txt" = ErrorDeEscritura path
          /\ eventos_de_tabla (args_con 2 tm_ejemplo (Some "nodir/resumen.txt"))
                              tabla_dos_loci
             = (eventos_de_tabla
                  (args_con 2 tm_ejemplo (Some "nodir/resumen.txt"))
                  resultados_df
                ++ match escribir (fs_sin_directorio hoja_dos_loci) path with
                   | FallaAlEscribir => [EvOpen path]
                   | _ => []
                   end)%list))
   /\ (forall path r,
         ~ In (EvWrite path r)
              (eventos_de_tabla
                 (args_con 2 tm_ejemplo (Some "nodir/resumen.txt"))
                 tabla_dos_loci))
   /\ ((forall path, ErrorDeEscritura "nodir/resumen.txt"
                      <> ErrorDeEscritura path) ->
       forall ev,
         In ev (eventos_de_tabla
                  (args_con 2 tm_ejemplo (Some "nodir/resumen.txt"))
                  tabla_dos_loci) ->
         ev = EvExists (file (args_con 2 tm_ejemplo (Some "nodir/resumen.txt")))
         \/ ev = EvReadExcel
                   (file (args_con 2 tm_ejemplo (Some "nodir/resumen.txt"))))).
Proof.
  apply (error_sin_escritura float_decimal float_decimal
           (args_con 2 tm_ejemplo (Some "nodir/resumen.txt"))
           (fs_sin_directorio hoja_dos_loci)).
  - discriminate.
  - vm_compute. reflexivity.
Defined.

(** X10: in that run two samples have both states determined, and the
    tokens are 2 times 2. *)
Lemma total_por_alelo_witness :
  exists traza dist ale,
    main float_decimal float_decimal
         (args_con 2 tm_ejemplo (Some "resumen.txt")) (fs_con hoja_dos_loci)
    = (traza, Ok tt)
    /\ In (EvWrite "resumen.txt" (ResumenGenotipos dist ale)) traza
    /\ list_sum (map (fun l => snd (fst l)) ale)
       = total_ocurrencias (alelos_posibles (List.length posiciones_ejemplo))
           (cadenas (map (celda GENOTIPO_RESULTANTE) tabla_dos_loci))
    /\ (0 < total_ocurrencias
              (alelos_posibles (List.length posiciones_ejemplo))
              (cadenas (map (celda GENOTIPO_RESULTANTE) tabla_dos_loci)) ->
        (forall a c t, In (a, c, t) ale ->
           t = campo_porcentaje
                 (porcentaje_binario c
                    (total_ocurrencias
                       (alelos_posibles (List.length posiciones_ejemplo))
                       (cadenas (map (celda GENOTIPO_RESULTANTE)
                                     tabla_dos_loci)))))
        /\ (suma_Q (porcentajes_exactos
                      (total_ocurrencias
                         (alelos_posibles (List.length posiciones_ejemplo))
                         (cadenas (map (celda GENOTIPO_RESULTANTE)
                                       tabla_dos_loci)))
                      ale)
            == 100)%Q)
    /\ (List.length posiciones_ejemplo <= 9 ->
        total_ocurrencias (alelos_posibles (List.length posiciones_ejemplo))
          (cadenas (map (celda GENOTIPO_RESULTANTE) tabla_dos_loci))
        = List.length posiciones_ejemplo
          * List.length (determinados posiciones_ejemplo tabla_dos_loci)).
Proof.
  eapply (total_por_alelo float_decimal float_decimal
            (args_con 2 tm_ejemplo (Some "resumen.txt")) (fs_con hoja_dos_loci)
            hoja_dos_loci posiciones_ejemplo _ tabla_dos_loci "resumen.txt").
  - reflexivity.
  - reflexivity.
  - vm_compute. reflexivity.
  - simpl. lia.
  - reflexivity.
  - discriminate.
  - reflexivity.
  - reflexivity.
Defined.

(** X11: the sheet of that run and the sheet with its columns in another
    order give the same tables. *)
Lemma columnas_ignoradas_witness :
  exists df,
    analizar float_decimal float_decimal (args_con 2 tm_ejemplo None)
             hoja_dos_loci
    = Ok (posiciones_ejemplo, df, tabla_dos_loci)
    /\ analizar float_decimal float_decimal (args_con 2 tm_ejemplo None)
                hoja_reordenada
       = Ok (posiciones_ejemplo, df, tabla_dos_loci).
Proof.
  eexists. split.
  - vm_compute. reflexivity.
  - apply (columnas_ignoradas float_decimal float_decimal
             (args_con 2 tm_ejemplo None) hoja_dos_loci hoja_reordenada).
    + vm_compute. reflexivity.
    + intros pos [<-|[<-|[]]]; vm_compute; auto.
    + repeat constructor; intros pos [<-|[<-|[]]]; vm_compute; reflexivity.
Defined.

(** X12: the first two samples of that run and the last two. *)
Lemma muestras_independientes_witness :
  exists df,
    analizar float_decimal float_decimal (args_con 2 tm_ejemplo None)
             hoja_dos_loci
    = Ok (posiciones_ejemplo, df, tabla_dos_loci)
    /\ exists df1 res1 df2 res2,
        analizar float_decimal float_decimal (args_con 2 tm_ejemplo None)
          {| encabezado := encabezado hoja_dos_loci;
             registros := firstn 2 (registros hoja_dos_loci) |}
        = Ok (posiciones_ejemplo, df1, res1)
        /\ analizar float_decimal float_decimal (args_con 2 tm_ejemplo None)
             {| encabezado := encabezado hoja_dos_loci;
                registros := skipn 2 (registros hoja_dos_loci) |}
           = Ok (posiciones_ejemplo, df2, res2)
        /\ df = (df1 ++ df2)%list
        /\ tabla_dos_loci = (res1 ++ res2)%list.
Proof.
  eexists. split.
  - vm_compute. reflexivity.
  - apply (proj1 (muestras_independientes float_decimal float_decimal
                    (args_con 2 tm_ejemplo None) (encabezado hoja_dos_loci)
                    (firstn 2 (registros hoja_dos_loci))
                    (skipn 2 (registros hoja_dos_loci))
                    posiciones_ejemplo _ tabla_dos_loci
                    ltac:(discriminate) ltac:(discriminate))).
    vm_compute. reflexivity.
Defined.

(** X13: the one-locus run: Sensible first, then Resistente, 75 in all. *)
Lemma estados_en_orden_witness :
  exists traza dist,
    main float_decimal float_decimal
         (args_con 1 tm_un_locus (Some "resumen.txt")) (fs_con hoja_un_locus)
    = (traza, Ok tt)
    /\ In (EvWrite "resumen.txt" (ResumenEstados "1016" dist)) traza
    /\ map (fun l => fst (fst l)) dist
       = primeras_apariciones
           (cadenas (map (celda (columna_estado "1016")) tabla_un_locus))
    /\ (forall estado, In estado (map (fun l => fst (fst l)) dist) ->
          In estado (keys [("Sensible", 73.2); ("Heterocigoto", 72.66);
                           ("Resistente", 72.21)]%float))
    /\ List.length dist
       <= List.length [("Sensible", 73.2); ("Heterocigoto", 72.66);
                       ("Resistente", 72.21)]%float
    /\ (0 < List.length (registros hoja_un_locus) ->
        (suma_Q (porcentajes_exactos
                   (List.length (registros hoja_un_locus)) dist)
         == porcentaje_exacto
              (List.length (registros hoja_un_locus)
               - indeterminadas
                   (map (celda (columna_estado "1016")) tabla_un_locus))
              (List.length (registros hoja_un_locus)))%Q).
Proof.
  eapply (estados_en_orden float_decimal float_decimal
            (args_con 1 tm_un_locus (Some "resumen.txt")) (fs_con hoja_un_locus)
            hoja_un_locus "1016" _ _ tabla_un_locus "resumen.txt").
  - reflexivity.
  - reflexivity.
  - vm_compute. reflexivity.
  - reflexivity.
  - discriminate.
  - reflexivity.
  - reflexivity.
Defined.

(** X14: the first example of the help text. *)
Lemma formato_documentado_witness :
  procesar_tm_entry float_decimal [] "1016:S:73.2,H:72.66,R:72.21"
  = Ok [("1016", [("Sensible", 73.2); ("Heterocigoto", 72.66);
                  ("Resistente", 72.21)]%float)].
Proof.
  apply (formato_documentado float_decimal [] "1016" "73.2" "72.66" "72.21"
           73.2 72.66 72.21);
    vm_compute; reflexivity.
Defined.

(** X15: the labels 1016 and 1534. *)
Lemma etiquetas_llanas_witness : sin_homonimas posiciones_ejemplo.
Proof.
  apply etiquetas_llanas.
  - apply (procesar_tm_bien_formado float_decimal tm_ejemplo).
    vm_compute. reflexivity.
  - intros pos [<-|[<-|[]]]; (split; [reflexivity | split; discriminate]).
Defined.

(** X16: the two-locus run, whose two determined samples have four
    tokens. *)
Lemma alelos_hasta_nueve_loci_witness :
  (forall a, In a (alelos_posibles (List.length posiciones_ejemplo)) <->
             a = "S"
             \/ exists i, 1 <= i <= List.length posiciones_ejemplo
                          /\ (a = ("H" ++ str_nat i)%string
                              \/ a = ("R" ++ str_nat i)%string))
  /\ NoDup (alelos_posibles (List.length posiciones_ejemplo))
  /\ exists traza dist ale,
      main float_decimal float_decimal
           (args_con 2 tm_ejemplo (Some "resumen.txt")) (fs_con hoja_dos_loci)
      = (traza, Ok tt)
      /\ In (EvToExcel (output (args_con 2 tm_ejemplo (Some "resumen.txt")))
               tabla_dos_loci) traza
      /\ In (EvWrite "resumen.txt" (ResumenGenotipos dist ale)) traza
      /\ map (fun l => fst (fst l)) ale
         = alelos_posibles (List.length posiciones_ejemplo)
      /\ forall a c t, In (a, c, t) ale ->
           c = tokens_iguales a
                 (map (estados_de posiciones_ejemplo) tabla_dos_loci)
           /\ (0 < List.length posiciones_ejemplo
                   * List.length (determinados posiciones_ejemplo tabla_dos_loci)
               -> t = campo_porcentaje
                        (porcentaje_binario c
                           (List.length posiciones_ejemplo
                            * List.length
                                (determinados posiciones_ejemplo
                                              tabla_dos_loci))))
           /\ (List.length posiciones_ejemplo
               * List.length (determinados posiciones_ejemplo tabla_dos_loci)
               = 0
               -> t = "0.00%").
Proof.
  eapply (alelos_hasta_nueve_loci float_decimal float_decimal
            (args_con 2 tm_ejemplo (Some "resumen.txt")) (fs_con hoja_dos_loci)
            hoja_dos_loci posiciones_ejemplo _ tabla_dos_loci "resumen.txt").
  - reflexivity.
  - reflexivity.
  - vm_compute. reflexivity.
  - simpl. lia.
  - simpl. lia.
  - reflexivity.
  - discriminate.
  - reflexivity.
  - reflexivity.
Defined.
